(** * The code-cache codec of V8's [code-serializer.cc]

    A shallow embedding of [deps/v8/src/snapshot/code-serializer.cc]:
    the header sanity checks of [SerializedCodeData], the object
    dispatch of [CodeSerializer::SerializeObjectImpl], and the
    synchronous and off-thread deserialization entry points.

    Layout of the file: machine words and bytes, the state/abort monad,
    the heap objects the file touches, the build and runtime parameters
    that live in headers outside the translation unit, the embedded
    functions, and finally the theorems. *)

From Stdlib Require Import ZArith Lia Bool List String.
From stdpp Require Import base tactics option list gmap strings.
Import ListNotations.
Local Open Scope Z_scope.

(** ** Machine words and bytes *)

(** [uint32_t] arithmetic: every result is reduced modulo 2^32. *)
Definition wrap32 (z : Z) : Z := z mod 2 ^ 32.

Abbreviation byte := Byte.byte.

Definition byte_to_Z (b : byte) : Z := Z.of_N (Byte.to_N b).

(** The byte at index [i] of a buffer.  Every read the code performs
    lies inside the buffer once the size check has passed; an absent
    byte reads as [x00] so that the function is total. *)
Definition byte_at (d : list byte) (i : Z) : Z :=
  byte_to_Z (default Byte.x00 (d !! Z.to_nat i)).

(** Flipping bit [k] of a byte (used to tamper with a header field). *)
Definition flip_bit (k : N) (b : byte) : byte :=
  default b (Byte.of_N (N.lxor (Byte.to_N b) (N.shiftl 1 k))).

Definition byte_of_Z (z : Z) : byte :=
  default Byte.x00 (Byte.of_N (Z.to_N (z mod 256))).

(** [memcpy] of [bs] into [d] starting at index [offset]; bytes that
    would land past the end of [d] are dropped. *)
Definition write_bytes (d : list byte) (offset : nat) (bs : list byte)
    : list byte :=
  list_inserts offset bs d.

(** Flipping bit [i] of the 32-bit little-endian field at [offset]. *)
Definition flip_field_bit (offset : Z) (i : Z) (d : list byte) : list byte :=
  alter (flip_bit (Z.to_N (i mod 8))) (Z.to_nat (offset + i / 8)) d.


(** ** Computations that may abort

    V8 is built without exceptions: a failed [CHECK] aborts the process.
    A computation over a state [S] either returns a value and a new
    state or is [Fatal]. *)

Inductive Outcome (A : Type) : Type :=
| Returns (a : A)
| Fatal.
Arguments Returns {A} a.
Arguments Fatal {A}.

Definition M (S A : Type) : Type := S -> Outcome (A * S).

Definition ret {S A} (a : A) : M S A := fun s => Returns (a, s).

Definition bind {S A B} (m : M S A) (k : A -> M S B) : M S B :=
  fun s => match m s with
           | Returns (a, s') => k a s'
           | Fatal => Fatal
           end.

Definition gets {S A} (f : S -> A) : M S A := fun s => Returns (f s, s).
Definition modify {S} (f : S -> S) : M S unit := fun s => Returns (tt, f s).
Definition abort {S A} : M S A := fun _ => Fatal.

(** [CHECK(cond)]: abort unless the condition holds. *)
Definition CHECK {S} (cond : bool) : M S unit :=
  if cond then ret tt else abort.

(** [when c m]: an [if (c) { m }] statement without an else branch. *)
Definition when {S} (c : bool) (m : M S unit) : M S unit :=
  if c then m else ret tt.

(** A range-based [for] loop over a container. *)
Fixpoint for_each {S A} (l : list A) (body : A -> M S unit) : M S unit :=
  match l with
  | [] => ret tt
  | x :: rest => bind (body x) (fun _ => for_each rest body)
  end.

Declare Scope monad_scope.
Delimit Scope monad_scope with monad.
Notation "x <- c1 ;; c2" := (bind c1 (fun x => c2))
  (at level 20, c1 at level 99, c2 at level 200) : monad_scope.
Notation "c1 ;; c2" := (bind c1 (fun _ => c2))
  (at level 100, c2 at level 200, right associativity) : monad_scope.

(** ** Heap objects

    Tagged values are addresses; an object is reached through the heap.
    The object classes are declared under [src/objects/], outside this
    translation unit.  Only the fields that [code-serializer.cc] reads
    or writes are kept, under the names of their C++ accessors. *)

Abbreviation Address := Z.
Abbreviation Object := Address.

Inductive InstanceType :=
| BYTECODE_ARRAY_TYPE
| CODE_TYPE
| MAP_TYPE
| JS_GLOBAL_PROXY_TYPE
| JS_GLOBAL_OBJECT_TYPE
| JS_FUNCTION_TYPE
| CONTEXT_TYPE
| FIXED_ARRAY_TYPE
| ODDBALL_TYPE
| SYMBOL_TYPE
| OTHER_TYPE.

#[global] Instance InstanceType_eq_dec : EqDecision InstanceType.
Proof. solve_decision. Defined.

Module Script.
Inductive CompilationType := COMPILATION_TYPE_HOST | COMPILATION_TYPE_EVAL.

(** Modelled from the spec: [Script] is declared in objects/script.h; a
    record has a kind tag and named fields that hold a scalar or an
    edge to another record.  [context_data] (an opaque context pointer)
    and [host_defined_options] (a host-options list) are the two
    environment-specific fields. *)
Record t := {
  id : Z;
  name : Object;
  source : Object;
  context_data : Object;
  host_defined_options : Object;
  compilation_type : CompilationType
}.

Definition with_context_data (v : Object) (s : t) : t :=
  {| id := id s; name := name s; source := source s;
     context_data := v;
     host_defined_options := host_defined_options s;
     compilation_type := compilation_type s |}.

Definition with_host_defined_options (v : Object) (s : t) : t :=
  {| id := id s; name := name s; source := source s;
     context_data := context_data s;
     host_defined_options := v;
     compilation_type := compilation_type s |}.

Definition with_source (v : Object) (s : t) : t :=
  {| id := id s; name := name s; source := v;
     context_data := context_data s;
     host_defined_options := host_defined_options s;
     compilation_type := compilation_type s |}.
End Script.

Module SharedFunctionInfo.
(** Modelled from the spec: [SharedFunctionInfo] is declared in
    objects/shared-function-info.h.  [script_or_debug_info] is the
    debug linkage: the slot holds either the script or, while debug
    instrumentation is attached, the [DebugInfo] that links back to the
    script.  [active_bytecode_array] is the bytecode the function runs,
    the slot read and written by [SetActiveBytecodeArray]. *)
Record t := {
  script_or_debug_info : Object;
  active_bytecode_array : Object;
  start_position : Z;
  end_position : Z;
  is_toplevel : bool
}.

Definition with_script_or_debug_info (v : Object) (s : t) : t :=
  {| script_or_debug_info := v;
     active_bytecode_array := active_bytecode_array s;
     start_position := start_position s;
     end_position := end_position s;
     is_toplevel := is_toplevel s |}.

Definition with_active_bytecode_array (v : Object) (s : t) : t :=
  {| script_or_debug_info := script_or_debug_info s;
     active_bytecode_array := v;
     start_position := start_position s;
     end_position := end_position s;
     is_toplevel := is_toplevel s |}.
End SharedFunctionInfo.

Module DebugInfo.
(** Modelled from the spec: [DebugInfo] is declared in
    objects/debug-objects.h.  It keeps the script, the original
    (pre-instrumentation) bytecode and the debug-specific bytecode
    variant; [debug_bytecode_array] is [None] when the function has no
    instrumented bytecode. *)
Record t := {
  script : Object;
  original_bytecode_array : Object;
  debug_bytecode_array : option Object
}.

Definition HasInstrumentedBytecodeArray (d : t) : bool :=
  match debug_bytecode_array d with Some _ => true | None => false end.
Definition OriginalBytecodeArray (d : t) : Object :=
  original_bytecode_array d.
Definition DebugBytecodeArray (d : t) : option Object :=
  debug_bytecode_array d.
End DebugInfo.

Module InterpreterData.
(** Modelled from the spec: [InterpreterData] is declared in
    objects/shared-function-info.h; it pairs a bytecode array with the
    trampoline code that runs it. *)
Record t := {
  bytecode_array : Object;
  interpreter_trampoline : Object
}.
End InterpreterData.

Inductive HeapObject :=
| HScript (s : Script.t)
| HSharedFunctionInfo (s : SharedFunctionInfo.t)
| HDebugInfo (d : DebugInfo.t)
| HInterpreterData (i : InterpreterData.t)
| HString (chars : string)
| HOther (ty : InstanceType).

Abbreviation Heap := (gmap Address HeapObject).

Definition IsScript (h : Heap) (obj : Address) : bool :=
  match h !! obj with Some (HScript _) => true | _ => false end.
Definition IsSharedFunctionInfo (h : Heap) (obj : Address) : bool :=
  match h !! obj with Some (HSharedFunctionInfo _) => true | _ => false end.
Definition IsDebugInfo (h : Heap) (obj : Address) : bool :=
  match h !! obj with Some (HDebugInfo _) => true | _ => false end.
Definition IsInterpreterData (h : Heap) (obj : Address) : bool :=
  match h !! obj with Some (HInterpreterData _) => true | _ => false end.
Definition IsString (h : Heap) (obj : Address) : bool :=
  match h !! obj with Some (HString _) => true | _ => false end.

Definition has_type (ty : InstanceType) (h : Heap) (obj : Address) : bool :=
  match h !! obj with
  | Some (HOther ty') => bool_decide (ty' = ty)
  | _ => false
  end.

(** ** Build and runtime parameters

    Constants and helpers that [code-serializer.cc] takes from headers
    of other translation units.  They are parameters of the development:
    every theorem holds for each value they can take. *)

(** The header constants of [SerializedCodeData] (code-serializer.h),
    the two build hashes, and the checksum routine (snapshot-utils.h). *)
Class HeaderLayout := {
  kMagicNumber : Z;
  kMagicNumberOffset : Z;
  kVersionHashOffset : Z;
  kSourceHashOffset : Z;
  kFlagHashOffset : Z;
  kPayloadLengthOffset : Z;
  kChecksumOffset : Z;
  kUnalignedHeaderSize : Z;
  kHeaderSize : Z;
  Version_Hash : Z;
  FlagList_Hash : Z;
  Checksum : list byte -> Z
}.

(** The command-line flags and the one target macro the file tests. *)
Class Flags := {
  FLAG_verify_snapshot_checksum : bool;
  FLAG_stress_background_compile : bool;
  FLAG_profile_deserialization : bool;
  FLAG_log_function_events : bool;
  FLAG_interpreted_frames_native_stack : bool;
  V8_TARGET_ARCH_ARM : bool
}.

(** The read-only roots the file names. *)
Class ReadOnlyRoots := {
  undefined_value : Object;
  uninitialized_symbol : Object;
  empty_fixed_array : Object;
  empty_string : Object
}.

Record ScriptOriginOptions := {
  IsSharedCrossOrigin : bool;
  IsOpaque : bool;
  IsModule : bool
}.

Inductive SerializedCodeSanityCheckResult :=
| kSuccess
| kMagicNumberMismatch
| kVersionMismatch
| kSourceMismatch
| kFlagsMismatch
| kChecksumMismatch
| kInvalidHeader
| kLengthMismatch.

#[global] Instance SerializedCodeSanityCheckResult_eq_dec :
  EqDecision SerializedCodeSanityCheckResult.
Proof. solve_decision. Defined.

(** ** [AlignedCachedData]: the caller's buffer and its sticky flag *)

Module AlignedCachedData.
Record t := {
  owns_data_ : bool;
  rejected_ : bool;
  data_ : list byte
}.

(** The constructor.  [aligned] tells whether the caller's pointer is
    pointer-aligned; otherwise the bytes are copied and owned. *)
Definition make (aligned : bool) (data : list byte) : t :=
  {| owns_data_ := negb aligned; rejected_ := false; data_ := data |}.

Definition data (cd : t) : list byte := data_ cd.
Definition length (cd : t) : Z := Z.of_nat (List.length (data_ cd)).
Definition rejected (cd : t) : bool := rejected_ cd.

(** Modelled from the spec: [Reject] is declared in code-serializer.h;
    it flips the sticky "rejected" flag owned by the buffer wrapper. *)
Definition Reject (cd : t) : t :=
  {| owns_data_ := owns_data_ cd; rejected_ := true; data_ := data_ cd |}.
End AlignedCachedData.

(** ** [SerializedCodeData]: header access and the sanity checks *)

Module SerializedCodeData.
Record t := {
  data_ : list byte;
  size_ : Z
}.

(** [SerializedCodeData(AlignedCachedData* data)]: view the cached
    bytes; the [int] length becomes the [uint32_t] size. *)
Definition of_cached_data (cd : AlignedCachedData.t) : t :=
  {| data_ := AlignedCachedData.data cd;
     size_ := wrap32 (AlignedCachedData.length cd) |}.

(** [SerializedCodeData(nullptr, 0)]. *)
Definition null : t := {| data_ := []; size_ := 0 |}.

Definition kModuleFlagMask : Z := wrap32 (Z.shiftl 1 31).

(** [source->length()] of the string a handle points to. *)
Definition String_length (h : Heap) (source : Address) : Z :=
  match h !! source with
  | Some (HString chars) => Z.of_nat (String.length chars)
  | _ => 0
  end.

Definition SourceHash (h : Heap) (source : Address)
    (origin_options : ScriptOriginOptions) : Z :=
  let source_length := wrap32 (String_length h source) in
  let is_module := if IsModule origin_options then kModuleFlagMask else 0 in
  (* DCHECK_EQ(0, source_length & kModuleFlagMask) *)
  Z.lor source_length is_module.

Section WithBuild.
Context `{L : HeaderLayout} `{F : Flags}.

(** Modelled from the spec: [GetHeaderValue] is declared in
    snapshot-data.h; header fields are fixed-width 32-bit values in
    little/host-endian order, read by pure field extraction. *)
Definition GetHeaderValue (scd : t) (offset : Z) : Z :=
  byte_at (data_ scd) offset
  + 2 ^ 8 * byte_at (data_ scd) (offset + 1)
  + 2 ^ 16 * byte_at (data_ scd) (offset + 2)
  + 2 ^ 24 * byte_at (data_ scd) (offset + 3).

Definition GetMagicNumber (scd : t) : Z :=
  GetHeaderValue scd kMagicNumberOffset.

(** Modelled from the spec: [ChecksummedContent] is declared in
    code-serializer.h; the checksum is computed over the header
    minus the checksum field, plus the payload. *)
Definition ChecksummedContent (scd : t) : list byte :=
  take (Z.to_nat kChecksumOffset) (data_ scd)
  ++ drop (Z.to_nat (kChecksumOffset + 4)) (data_ scd).

Definition SanityCheckJustSource (scd : t) (expected_source_hash : Z)
    : SerializedCodeSanityCheckResult :=
  let source_hash := GetHeaderValue scd kSourceHashOffset in
  if negb (source_hash =? expected_source_hash) then kSourceMismatch
  else kSuccess.

Definition SanityCheckWithoutSource (scd : t)
    : SerializedCodeSanityCheckResult :=
  if size_ scd <? kHeaderSize then kInvalidHeader else
  let magic_number := GetMagicNumber scd in
  if negb (magic_number =? kMagicNumber) then kMagicNumberMismatch else
  let version_hash := GetHeaderValue scd kVersionHashOffset in
  if negb (version_hash =? Version_Hash) then kVersionMismatch else
  let flags_hash := GetHeaderValue scd kFlagHashOffset in
  if negb (flags_hash =? FlagList_Hash) then kFlagsMismatch else
  let payload_length := GetHeaderValue scd kPayloadLengthOffset in
  let max_payload_length := wrap32 (size_ scd - kHeaderSize) in
  if payload_length >? max_payload_length then kLengthMismatch else
  if FLAG_verify_snapshot_checksum then
    let checksum := GetHeaderValue scd kChecksumOffset in
    if negb (Checksum (ChecksummedContent scd) =? checksum)
    then kChecksumMismatch
    else kSuccess
  else kSuccess.

Definition SanityCheck (scd : t) (expected_source_hash : Z)
    : SerializedCodeSanityCheckResult :=
  let result := SanityCheckWithoutSource scd in
  if negb (bool_decide (result = kSuccess)) then result
  else SanityCheckJustSource scd expected_source_hash.

(** The three factory functions.  The out-parameter
    [rejection_result] and the mutated [cached_data] are returned
    next to the constructed value. *)
Definition FromCachedData (cached_data : AlignedCachedData.t)
    (expected_source_hash : Z)
    : t * AlignedCachedData.t * SerializedCodeSanityCheckResult :=
  let scd := of_cached_data cached_data in
  let rejection_result := SanityCheck scd expected_source_hash in
  if negb (bool_decide (rejection_result = kSuccess)) then
    (null, AlignedCachedData.Reject cached_data, rejection_result)
  else (scd, cached_data, rejection_result).

Definition FromCachedDataWithoutSource (cached_data : AlignedCachedData.t)
    : t * AlignedCachedData.t * SerializedCodeSanityCheckResult :=
  let scd := of_cached_data cached_data in
  let rejection_result := SanityCheckWithoutSource scd in
  if negb (bool_decide (rejection_result = kSuccess)) then
    (null, AlignedCachedData.Reject cached_data, rejection_result)
  else (scd, cached_data, rejection_result).

(** [rejection_result] is read before it is written: it carries the
    result of the earlier off-thread check. *)
Definition FromPartiallySanityCheckedCachedData
    (cached_data : AlignedCachedData.t) (expected_source_hash : Z)
    (rejection_result : SerializedCodeSanityCheckResult)
    : t * AlignedCachedData.t * SerializedCodeSanityCheckResult :=
  if negb (bool_decide (rejection_result = kSuccess)) then
    (* DCHECK_NE(rejection_result, kSourceMismatch) *)
    (null, AlignedCachedData.Reject cached_data, rejection_result)
  else
    let scd := of_cached_data cached_data in
    let rejection_result := SanityCheckJustSource scd expected_source_hash in
    if negb (bool_decide (rejection_result = kSuccess)) then
      (* DCHECK_EQ(rejection_result, kSourceMismatch) *)
      (null, AlignedCachedData.Reject cached_data, rejection_result)
    else (scd, cached_data, rejection_result).

(** Modelled from the spec: [SetHeaderValue] and [SetMagicNumber]
    are declared in snapshot-data.h; a header field is written as a
    fixed-width 32-bit little/host-endian value. *)
Definition SetHeaderValue (scd : t) (offset : Z) (value : Z) : t :=
  {| data_ :=
       write_bytes (data_ scd) (Z.to_nat offset)
         [byte_of_Z value; byte_of_Z (value / 2 ^ 8);
          byte_of_Z (value / 2 ^ 16); byte_of_Z (value / 2 ^ 24)];
     size_ := size_ scd |}.
Definition SetMagicNumber (scd : t) : t :=
  SetHeaderValue scd kMagicNumberOffset kMagicNumber.

(** [SerializedCodeData(const std::vector<byte>* payload,
    const CodeSerializer* cs)]: frame a payload with its header.
    [source_hash] is [cs->source_hash()]. *)
Definition from_payload (payload : list byte) (source_hash : Z) : t :=
  let size := wrap32 (kHeaderSize + wrap32 (Z.of_nat (List.length payload))) in
  (* AllocateData(size); memset(data_, 0, kHeaderSize) *)
  let scd := {| data_ := replicate (Z.to_nat size) Byte.x00; size_ := size |} in
  let scd := SetMagicNumber scd in
  let scd := SetHeaderValue scd kVersionHashOffset Version_Hash in
  let scd := SetHeaderValue scd kSourceHashOffset source_hash in
  let scd := SetHeaderValue scd kFlagHashOffset FlagList_Hash in
  let scd := SetHeaderValue scd kPayloadLengthOffset
               (wrap32 (Z.of_nat (List.length payload))) in
  (* memset(data_ + kUnalignedHeaderSize, 0,
            kHeaderSize - kUnalignedHeaderSize) *)
  let scd :=
    {| data_ :=
         write_bytes (data_ scd) (Z.to_nat kUnalignedHeaderSize)
           (replicate (Z.to_nat (kHeaderSize - kUnalignedHeaderSize)) Byte.x00);
       size_ := size_ scd |} in
  (* CopyBytes(data_ + kHeaderSize, payload->data(), payload->size()) *)
  let scd := {| data_ := write_bytes (data_ scd) (Z.to_nat kHeaderSize) payload;
                size_ := size_ scd |} in
  let checksum :=
    if FLAG_verify_snapshot_checksum then Checksum (ChecksummedContent scd)
    else 0 in
  SetHeaderValue scd kChecksumOffset checksum.

(** [Payload()]: the bytes after the header, as long as the length
    field says. *)
Definition Payload (scd : t) : list byte :=
  take (Z.to_nat (GetHeaderValue scd kPayloadLengthOffset))
    (drop (Z.to_nat kHeaderSize) (data_ scd)).

(** [GetScriptData]: hand the bytes over as an [AlignedCachedData]
    that owns them. *)
Definition GetScriptData (scd : t) : AlignedCachedData.t :=
  {| AlignedCachedData.owns_data_ := true;
     AlignedCachedData.rejected_ := false;
     AlignedCachedData.data_ := data_ scd |}.
End WithBuild.
End SerializedCodeData.

(** ** The encoder: sink, state and base-class members *)

(** What the sink receives: [Put] writes one byte, [PutInt] a
    variable-length integer.  The sink is kept as the list of calls. *)
Inductive SinkItem :=
| Put (b : Z) (description : string)
| PutInt (i : Z) (description : string).

(** The state one encoding pass works on: the heap it walks (and
    temporarily mutates), the sink, and the private state of the
    [Serializer] base class (hot-object ring, root index map,
    reference map), which this file never inspects. *)
Record SerializerState (Internals : Type) := {
  heap : Heap;
  sink_ : list SinkItem;
  internals : Internals
}.
Arguments heap {Internals} _.
Arguments sink_ {Internals} _.
Arguments internals {Internals} _.

Definition with_heap {I} (h : Heap) (s : SerializerState I) : SerializerState I :=
  {| heap := h; sink_ := sink_ s; internals := internals s |}.
Definition with_sink {I} (k : list SinkItem) (s : SerializerState I)
    : SerializerState I :=
  {| heap := heap s; sink_ := k; internals := internals s |}.

(** The members of [Serializer], [ObjectSerializer], [ReadOnlyHeap] and
    [BasicMemoryChunk] that [CodeSerializer] calls; they are defined in
    other translation units. *)
Class SerializerBase := {
  Internals : Type;
  kReadOnlyHeapRef : Z;
  SerializeHotObject : Address -> M (SerializerState Internals) bool;
  SerializeRoot : Address -> M (SerializerState Internals) bool;
  SerializeBackReference : Address -> M (SerializerState Internals) bool;
  (** [Serializer::SerializeObject], the entry point that dispatches
      back into [SerializeObjectImpl]. *)
  SerializeObject : Address -> M (SerializerState Internals) unit;
  (** [ObjectSerializer(this, obj, &sink_).Serialize()]. *)
  ObjectSerializer_Serialize : Address -> M (SerializerState Internals) unit;
  ElideObject : SerializerState Internals -> Address -> bool;
  ReadOnlyHeap_Contains : Address -> bool;
  BasicMemoryChunk_FromAddress : Address -> Address;
  BasicMemoryChunk_Offset : Address -> Address -> Z;
  read_only_space_pages : list Address;
  NeedsRehashing : Heap -> Address -> bool;
  CanBeRehashed : Heap -> Address -> bool
}.

Abbreviation State := (SerializerState Internals).

(** Modelled from the spec: the field accessors of the object classes
    are declared under [src/objects/]; a getter returns the field of
    the record an address points to and a setter replaces it.  A read
    through an address of the wrong kind yields 0 and a write does
    nothing; the code casts only after testing the kind. *)
Definition Script_context_data (h : Heap) (obj : Address) : Object :=
  match h !! obj with Some (HScript s) => Script.context_data s | _ => 0 end.
Definition Script_host_defined_options (h : Heap) (obj : Address) : Object :=
  match h !! obj with
  | Some (HScript s) => Script.host_defined_options s
  | _ => 0
  end.
Definition Script_name (h : Heap) (obj : Address) : Object :=
  match h !! obj with Some (HScript s) => Script.name s | _ => 0 end.
Definition Script_id (h : Heap) (obj : Address) : Z :=
  match h !! obj with Some (HScript s) => Script.id s | _ => 0 end.
Definition Script_source (h : Heap) (obj : Address) : Object :=
  match h !! obj with Some (HScript s) => Script.source s | _ => 0 end.

Definition update_Script (f : Script.t -> Script.t) (obj : Address) (h : Heap)
    : Heap :=
  match h !! obj with
  | Some (HScript s) => <[obj := HScript (f s)]> h
  | _ => h
  end.
Definition Script_set_context_data (obj : Address) (v : Object) : Heap -> Heap :=
  update_Script (Script.with_context_data v) obj.
Definition Script_set_host_defined_options (obj : Address) (v : Object)
    : Heap -> Heap :=
  update_Script (Script.with_host_defined_options v) obj.
Definition Script_set_source (obj : Address) (v : Object) : Heap -> Heap :=
  update_Script (Script.with_source v) obj.

Definition SFI_script_or_debug_info (h : Heap) (obj : Address) : Object :=
  match h !! obj with
  | Some (HSharedFunctionInfo s) => SharedFunctionInfo.script_or_debug_info s
  | _ => 0
  end.
Definition SFI_active_bytecode_array (h : Heap) (obj : Address) : Object :=
  match h !! obj with
  | Some (HSharedFunctionInfo s) => SharedFunctionInfo.active_bytecode_array s
  | _ => 0
  end.
Definition SFI_StartPosition (h : Heap) (obj : Address) : Z :=
  match h !! obj with
  | Some (HSharedFunctionInfo s) => SharedFunctionInfo.start_position s
  | _ => 0
  end.
Definition SFI_EndPosition (h : Heap) (obj : Address) : Z :=
  match h !! obj with
  | Some (HSharedFunctionInfo s) => SharedFunctionInfo.end_position s
  | _ => 0
  end.
Definition SFI_is_toplevel (h : Heap) (obj : Address) : bool :=
  match h !! obj with
  | Some (HSharedFunctionInfo s) => SharedFunctionInfo.is_toplevel s
  | _ => false
  end.

Definition update_SFI (f : SharedFunctionInfo.t -> SharedFunctionInfo.t)
    (obj : Address) (h : Heap) : Heap :=
  match h !! obj with
  | Some (HSharedFunctionInfo s) => <[obj := HSharedFunctionInfo (f s)]> h
  | _ => h
  end.
Definition SFI_set_script_or_debug_info (obj : Address) (v : Object)
    : Heap -> Heap :=
  update_SFI (SharedFunctionInfo.with_script_or_debug_info v) obj.
Definition SFI_SetActiveBytecodeArray (obj : Address) (v : Object)
    : Heap -> Heap :=
  update_SFI (SharedFunctionInfo.with_active_bytecode_array v) obj.

(** [sfi->HasDebugInfo()]: the slot holds a [DebugInfo]. *)
Definition SFI_HasDebugInfo (h : Heap) (obj : Address) : bool :=
  IsDebugInfo h (SFI_script_or_debug_info h obj).
(** [sfi->GetDebugInfo()]: the slot, cast to [DebugInfo]. *)
Definition SFI_GetDebugInfo (h : Heap) (obj : Address) : Address :=
  SFI_script_or_debug_info h obj.

Definition DebugInfo_script (h : Heap) (d : Address) : Object :=
  match h !! d with Some (HDebugInfo di) => DebugInfo.script di | _ => 0 end.
Definition DebugInfo_OriginalBytecodeArray (h : Heap) (d : Address) : Object :=
  match h !! d with
  | Some (HDebugInfo di) => DebugInfo.OriginalBytecodeArray di
  | _ => 0
  end.
Definition DebugInfo_DebugBytecodeArray (h : Heap) (d : Address) : option Object :=
  match h !! d with
  | Some (HDebugInfo di) => DebugInfo.DebugBytecodeArray di
  | _ => None
  end.
Definition DebugInfo_HasInstrumentedBytecodeArray (h : Heap) (d : Address) : bool :=
  match h !! d with
  | Some (HDebugInfo di) => DebugInfo.HasInstrumentedBytecodeArray di
  | _ => false
  end.

(** [sfi->script()]: the script, looked up through the [DebugInfo]
    when one is attached. *)
Definition SFI_script (h : Heap) (obj : Address) : Object :=
  let maybe_script := SFI_script_or_debug_info h obj in
  if IsDebugInfo h maybe_script then DebugInfo_script h maybe_script
  else maybe_script.

Definition InterpreterData_bytecode_array (h : Heap) (obj : Address) : Object :=
  match h !! obj with
  | Some (HInterpreterData i) => InterpreterData.bytecode_array i
  | _ => 0
  end.

(** ** The decoder: isolate, handles and collaborators *)

(** Who keeps a handle's slot alive: a [HandleScope] of the thread that
    created it, or a [PersistentHandles] block that can cross threads. *)
Inductive HandleOwner := OwnedByHandleScope | OwnedByPersistentHandles.

Record Handle := {
  owner : HandleOwner;
  object : Address
}.

Inductive LogEventTag := FUNCTION_TAG | SCRIPT_TAG.

(** What the isolate's output channels receive.  Elapsed times are
    measured on a wall clock and are left out of the records. *)
Inductive Event :=
| PrintF (text : string) (args : list Z)
| FunctionEvent (reason : string) (script_id : Z)
    (start_position end_position : Z) (name : Object)
| CodeCreateEvent (tag : LogEventTag) (code : Object) (shared : Address)
    (name : Object) (line column : Z).

Record Isolate := {
  isolate_heap : Heap;
  (** [factory()->script_list()], a weak list of scripts. *)
  script_list : list Address;
  (** Samples added to [counters()->code_cache_reject_reason()]. *)
  code_cache_reject_reason : list SerializedCodeSanityCheckResult;
  output : list Event;
  (** The persistent handles of the background thread's local heap,
      [None] while it has none. *)
  local_persistent_handles : option (list Handle);
  logger_is_listening_to_code_events : bool;
  is_profiling : bool;
  code_event_dispatcher_IsListeningToCodeEvents : bool;
  NeedsSourcePositionsForProfiling : bool
}.

Definition with_isolate_heap (h : Heap) (w : Isolate) : Isolate :=
  {| isolate_heap := h;
     script_list := script_list w;
     code_cache_reject_reason := code_cache_reject_reason w;
     output := output w;
     local_persistent_handles := local_persistent_handles w;
     logger_is_listening_to_code_events := logger_is_listening_to_code_events w;
     is_profiling := is_profiling w;
     code_event_dispatcher_IsListeningToCodeEvents :=
       code_event_dispatcher_IsListeningToCodeEvents w;
     NeedsSourcePositionsForProfiling := NeedsSourcePositionsForProfiling w |}.

Definition with_script_list (l : list Address) (w : Isolate) : Isolate :=
  {| isolate_heap := isolate_heap w;
     script_list := l;
     code_cache_reject_reason := code_cache_reject_reason w;
     output := output w;
     local_persistent_handles := local_persistent_handles w;
     logger_is_listening_to_code_events := logger_is_listening_to_code_events w;
     is_profiling := is_profiling w;
     code_event_dispatcher_IsListeningToCodeEvents :=
       code_event_dispatcher_IsListeningToCodeEvents w;
     NeedsSourcePositionsForProfiling := NeedsSourcePositionsForProfiling w |}.

Definition with_reject_samples (l : list SerializedCodeSanityCheckResult)
    (w : Isolate) : Isolate :=
  {| isolate_heap := isolate_heap w;
     script_list := script_list w;
     code_cache_reject_reason := l;
     output := output w;
     local_persistent_handles := local_persistent_handles w;
     logger_is_listening_to_code_events := logger_is_listening_to_code_events w;
     is_profiling := is_profiling w;
     code_event_dispatcher_IsListeningToCodeEvents :=
       code_event_dispatcher_IsListeningToCodeEvents w;
     NeedsSourcePositionsForProfiling := NeedsSourcePositionsForProfiling w |}.

Definition with_output (l : list Event) (w : Isolate) : Isolate :=
  {| isolate_heap := isolate_heap w;
     script_list := script_list w;
     code_cache_reject_reason := code_cache_reject_reason w;
     output := l;
     local_persistent_handles := local_persistent_handles w;
     logger_is_listening_to_code_events := logger_is_listening_to_code_events w;
     is_profiling := is_profiling w;
     code_event_dispatcher_IsListeningToCodeEvents :=
       code_event_dispatcher_IsListeningToCodeEvents w;
     NeedsSourcePositionsForProfiling := NeedsSourcePositionsForProfiling w |}.

Definition with_local_persistent_handles (l : option (list Handle))
    (w : Isolate) : Isolate :=
  {| isolate_heap := isolate_heap w;
     script_list := script_list w;
     code_cache_reject_reason := code_cache_reject_reason w;
     output := output w;
     local_persistent_handles := l;
     logger_is_listening_to_code_events := logger_is_listening_to_code_events w;
     is_profiling := is_profiling w;
     code_event_dispatcher_IsListeningToCodeEvents :=
       code_event_dispatcher_IsListeningToCodeEvents w;
     NeedsSourcePositionsForProfiling := NeedsSourcePositionsForProfiling w |}.

(** The result of the background half, handed to the finishing half. *)
Record OffThreadDeserializeData := {
  maybe_result : option Handle;
  scripts : list Handle;
  persistent_handles : option (list Handle);
  sanity_check_result : SerializedCodeSanityCheckResult
}.

(** The collaborators of the deserialization entry points: the object
    deserializers, the thread primitive, the factory, and the accessors
    of [Script] and [SharedFunctionInfo] that are defined elsewhere. *)
Class Runtime := {
  ObjectDeserializer_DeserializeSharedFunctionInfo :
    SerializedCodeData.t -> Address -> M Isolate (option Handle);
  (** Returns the result and the scripts it pushed to the out-vector. *)
  OffThreadObjectDeserializer_DeserializeSharedFunctionInfo :
    SerializedCodeData.t -> M Isolate (option Handle * list Handle);
  Thread_Start : Isolate -> bool;
  ScriptIterator : Heap -> Address -> list Address;
  SFI_HasBytecodeArray : Heap -> Address -> bool;
  SFI_GetBytecodeArray : Heap -> Address -> Object;
  SFI_is_compiled : Heap -> Address -> bool;
  SFI_abstract_code : Heap -> Address -> Object;
  SFI_set_interpreter_data : Address -> Address -> Heap -> Heap;
  SFI_EnsureSourcePositionsAvailable : Address -> M Isolate unit;
  Script_InitLineEnds : Address -> M Isolate unit;
  Script_GetLineNumber : Heap -> Address -> Z -> Z;
  Script_GetColumnNumber : Heap -> Address -> Z -> Z;
  interpreter_entry_trampoline_for_profiling : Address;
  factory_CopyCode : Address -> M Isolate Address;
  factory_NewStruct_INTERPRETER_DATA_TYPE : M Isolate Address;
  ToCodeT : Address -> Object
}.

Definition update_InterpreterData (f : InterpreterData.t -> InterpreterData.t)
    (obj : Address) (h : Heap) : Heap :=
  match h !! obj with
  | Some (HInterpreterData i) => <[obj := HInterpreterData (f i)]> h
  | _ => h
  end.
Definition InterpreterData_set_bytecode_array (obj : Address) (v : Object)
    : Heap -> Heap :=
  update_InterpreterData (fun i =>
    {| InterpreterData.bytecode_array := v;
       InterpreterData.interpreter_trampoline :=
         InterpreterData.interpreter_trampoline i |}) obj.
Definition InterpreterData_set_interpreter_trampoline (obj : Address)
    (v : Object) : Heap -> Heap :=
  update_InterpreterData (fun i =>
    {| InterpreterData.bytecode_array := InterpreterData.bytecode_array i;
       InterpreterData.interpreter_trampoline := v |}) obj.

(** [ScriptCompiler::CachedData] (include/v8-script.h): the buffer the
    embedder receives, with its length and its ownership policy. *)
Module ScriptCompiler.
Inductive BufferPolicy := BufferNotOwned | BufferOwned.

Record CachedData := {
  data : list byte;
  length : Z;
  buffer_policy : BufferPolicy
}.
End ScriptCompiler.

(** What [CodeSerializer::Serialize] takes from elsewhere: two more
    build settings, two [Script] accessors, the private state of a
    freshly constructed [Serializer], the members of [Serializer] that
    drive one pass, and the bytes of the sink. *)
Class SerializerRun `{SB : SerializerBase} := {
  FLAG_trace_serializer : bool;
  V8_ENABLE_WEBASSEMBLY : bool;
  Script_ContainsAsmModule : Heap -> Address -> bool;
  Script_origin_options : Heap -> Address -> ScriptOriginOptions;
  (** [Serializer(isolate, Snapshot::kDefaultSerializerFlags)]. *)
  Serializer_internals : Internals;
  (** [reference_map()->AddAttachedReference(obj)]. *)
  AddAttachedReference : Address -> M State unit;
  (** [VisitRootPointer(Root::kHandleScope, nullptr, slot)]. *)
  VisitRootPointer : Address -> M State unit;
  SerializeDeferredObjects : M State unit;
  Pad : M State unit;
  (** [sink_.data()]. *)
  sink_data : list SinkItem -> list byte
}.

(** ** [CodeSerializer] *)

Module CodeSerializer.
Section WithBase.
Context `{SB : SerializerBase} `{R : ReadOnlyRoots} `{F : Flags}.
Local Open Scope monad_scope.

Definition sink_Put (b : Z) (description : string) : M State unit :=
  modify (fun s => with_sink (sink_ s ++ [Put b description]) s).
Definition sink_PutInt (i : Z) (description : string) : M State unit :=
  modify (fun s => with_sink (sink_ s ++ [PutInt i description]) s).

(** A heap write, [obj->set_field(v)]. *)
Definition store (f : Heap -> Heap) : M State unit :=
  modify (fun s => with_heap (f (heap s)) s).
(** A heap read, [obj->field()]. *)
Definition load {A} (f : Heap -> A) : M State A :=
  gets (fun s => f (heap s)).

(** The page loop of [SerializeReadOnlyObject]: count the pages that
    precede [chunk]; [chunk_index] is a [uint32_t]. *)
Fixpoint page_loop (chunk : Address) (pages : list Address)
    (chunk_index : Z) : Z :=
  match pages with
  | [] => chunk_index
  | page :: rest =>
      if bool_decide (chunk = page) then chunk_index
      else page_loop chunk rest (wrap32 (chunk_index + 1))
  end.

Definition SerializeReadOnlyObject (obj : Address) : M State bool :=
  if negb (ReadOnlyHeap_Contains obj) then ret false else
  let address := obj in
  let chunk := BasicMemoryChunk_FromAddress address in
  let chunk_index := page_loop chunk read_only_space_pages 0 in
  let chunk_offset := wrap32 (BasicMemoryChunk_Offset chunk address) in
  sink_Put kReadOnlyHeapRef "ReadOnlyHeapRef" ;;
  sink_PutInt chunk_index "ReadOnlyHeapRefChunkIndex" ;;
  sink_PutInt chunk_offset "ReadOnlyHeapRefChunkOffset" ;;
  ret true.

Definition SerializeGeneric (heap_object : Address) : M State unit :=
  ObjectSerializer_Serialize heap_object.

(** The [IsScript] arm of [SerializeObjectImpl]. *)
Definition SerializeScript (obj : Address) : M State unit :=
  let script_obj := obj in
  (* DCHECK_NE(script_obj->compilation_type(), COMPILATION_TYPE_EVAL) *)
  context_data <- load (fun h => Script_context_data h script_obj) ;;
  when (negb (bool_decide (context_data = undefined_value)) &&
        negb (bool_decide (context_data = uninitialized_symbol)))
    (store (Script_set_context_data script_obj undefined_value)) ;;
  host_options <- load (fun h => Script_host_defined_options h script_obj) ;;
  store (Script_set_host_defined_options script_obj empty_fixed_array) ;;
  SerializeGeneric obj ;;
  store (Script_set_host_defined_options script_obj host_options) ;;
  store (Script_set_context_data script_obj context_data) ;;
  ret tt.

(** "Clear debug info": the first half of the [IsSharedFunctionInfo]
    arm.  It returns the two locals [debug_info] and
    [debug_bytecode_array]; [None] is the null object they are
    default-constructed to. *)
Definition ClearDebugInfo (sfi : Address)
    : M State (option Address * option Object) :=
  has_debug_info <- load (fun h => SFI_HasDebugInfo h sfi) ;;
  if has_debug_info then
    debug_info <- load (fun h => SFI_GetDebugInfo h sfi) ;;
    instrumented <-
      load (fun h => DebugInfo_HasInstrumentedBytecodeArray h debug_info) ;;
    debug_bytecode_array <-
      (if instrumented then
         debug_bytecode_array <-
           load (fun h => DebugInfo_DebugBytecodeArray h debug_info) ;;
         original <-
           load (fun h => DebugInfo_OriginalBytecodeArray h debug_info) ;;
         store (SFI_SetActiveBytecodeArray sfi original) ;;
         ret debug_bytecode_array
       else ret None) ;;
    script <- load (fun h => DebugInfo_script h debug_info) ;;
    store (SFI_set_script_or_debug_info sfi script) ;;
    ret (Some debug_info, debug_bytecode_array)
  else ret (None, None).

(** "Restore debug info": the second half of the arm. *)
Definition RestoreDebugInfo (sfi : Address)
    (debug_info : option Address) (debug_bytecode_array : option Object)
    : M State unit :=
  match debug_info with
  | Some debug_info =>
      store (SFI_set_script_or_debug_info sfi debug_info) ;;
      match debug_bytecode_array with
      | Some debug_bytecode_array =>
          store (SFI_SetActiveBytecodeArray sfi debug_bytecode_array)
      | None => ret tt
      end
  | None => ret tt
  end.

(** The [IsSharedFunctionInfo] arm of [SerializeObjectImpl]. *)
Definition SerializeFunctionInfo (obj : Address) : M State unit :=
  let sfi := obj in
  (* DCHECK(!sfi->IsApiFunction()); DCHECK(!sfi->HasAsmWasmData()) *)
  saved <- ClearDebugInfo sfi ;;
  (* DCHECK(!sfi->HasDebugInfo()) *)
  SerializeGeneric obj ;;
  RestoreDebugInfo sfi (fst saved) (snd saved).

Definition SerializeObjectImpl (obj : Address) : M State unit :=
  hit <- SerializeHotObject obj ;;
  if hit then ret tt else
  hit <- SerializeRoot obj ;;
  if hit then ret tt else
  hit <- SerializeBackReference obj ;;
  if hit then ret tt else
  hit <- SerializeReadOnlyObject obj ;;
  if hit then ret tt else
  is_code <- load (fun h => has_type CODE_TYPE h obj) ;;
  CHECK (negb is_code) ;;
  elide <- gets (fun s => ElideObject s obj) ;;
  if elide then SerializeObject undefined_value else
  is_script <- load (fun h => IsScript h obj) ;;
  if is_script then SerializeScript obj else
  is_sfi <- load (fun h => IsSharedFunctionInfo h obj) ;;
  if is_sfi then SerializeFunctionInfo obj else
  is_interpreter_data <- load (fun h => IsInterpreterData h obj) ;;
  obj <- (if negb V8_TARGET_ARCH_ARM &&
             FLAG_interpreted_frames_native_stack && is_interpreter_data
          then load (fun h => InterpreterData_bytecode_array h obj)
          else ret obj) ;;
  is_map <- load (fun h => has_type MAP_TYPE h obj) ;;
  CHECK (negb is_map) ;;
  is_proxy <- load (fun h => has_type JS_GLOBAL_PROXY_TYPE h obj) ;;
  is_global <- load (fun h => has_type JS_GLOBAL_OBJECT_TYPE h obj) ;;
  CHECK (negb is_proxy && negb is_global) ;;
  needs_rehashing <- load (fun h => NeedsRehashing h obj) ;;
  can_be_rehashed <- load (fun h => CanBeRehashed h obj) ;;
  CHECK (implb needs_rehashing can_be_rehashed) ;;
  is_function <- load (fun h => has_type JS_FUNCTION_TYPE h obj) ;;
  is_context <- load (fun h => has_type CONTEXT_TYPE h obj) ;;
  CHECK (negb is_function && negb is_context) ;;
  SerializeGeneric obj.
End WithBase.

Section WithRuntime.
Context `{L : HeaderLayout} `{F : Flags} `{R : ReadOnlyRoots} `{RT : Runtime}.
Local Open Scope monad_scope.

Definition emit (e : Event) : M Isolate unit :=
  modify (fun w => with_output (output w ++ [e]) w).
Definition iload {A} (f : Heap -> A) : M Isolate A :=
  gets (fun w => f (isolate_heap w)).
Definition istore (f : Heap -> Heap) : M Isolate unit :=
  modify (fun w => with_isolate_heap (f (isolate_heap w)) w).
(** [isolate->counters()->code_cache_reject_reason()->AddSample(..)];
    the sample is kept as the enumerator it was cast from. *)
Definition AddSample (r : SerializedCodeSanityCheckResult) : M Isolate unit :=
  modify (fun w => with_reject_samples (code_cache_reject_reason w ++ [r]) w).

(** [script->name().IsString() ? script->name() : empty_string]. *)
Definition script_name_or_empty (h : Heap) (script : Address) : Object :=
  if IsString h (Script_name h script) then Script_name h script
  else empty_string.

(** The iterator is read once, before the loop body runs. *)
Definition CreateInterpreterDataForDeserializedCode (sfi : Handle)
    (log_code_creation : bool) : M Isolate unit :=
  script <- iload (fun h => SFI_script h (object sfi)) ;;
  name_handle <- iload (fun h => script_name_or_empty h script) ;;
  infos <- iload (fun h => ScriptIterator h script) ;;
  for_each infos (fun info =>
    has_bytecode <- iload (fun h => SFI_HasBytecodeArray h info) ;;
    if negb has_bytecode then ret tt else
    code <- factory_CopyCode interpreter_entry_trampoline_for_profiling ;;
    interpreter_data <- factory_NewStruct_INTERPRETER_DATA_TYPE ;;
    bytecode <- iload (fun h => SFI_GetBytecodeArray h info) ;;
    istore (InterpreterData_set_bytecode_array interpreter_data bytecode) ;;
    istore (InterpreterData_set_interpreter_trampoline interpreter_data
              (ToCodeT code)) ;;
    istore (SFI_set_interpreter_data info interpreter_data) ;;
    if negb log_code_creation then ret tt else
    line_num <- iload (fun h =>
      Script_GetLineNumber h script (SFI_StartPosition h info) + 1) ;;
    column_num <- iload (fun h =>
      Script_GetColumnNumber h script (SFI_StartPosition h info) + 1) ;;
    emit (CodeCreateEvent FUNCTION_TAG code info name_handle
            line_num column_num)).

Definition FinalizeDeserialization (result : Handle) : M Isolate unit :=
  log_code_creation <- gets (fun w =>
    logger_is_listening_to_code_events w || is_profiling w ||
    code_event_dispatcher_IsListeningToCodeEvents w) ;;
  when (negb V8_TARGET_ARCH_ARM && FLAG_interpreted_frames_native_stack)
    (CreateInterpreterDataForDeserializedCode result log_code_creation) ;;
  needs_source_positions <- gets NeedsSourcePositionsForProfiling ;;
  when (log_code_creation || FLAG_log_function_events)
    (script <- iload (fun h => SFI_script h (object result)) ;;
     name <- iload (fun h => script_name_or_empty h script) ;;
     when FLAG_log_function_events
       (e <- iload (fun h =>
          FunctionEvent "deserialize" (Script_id h script)
            (SFI_StartPosition h (object result))
            (SFI_EndPosition h (object result)) name) ;;
        emit e) ;;
     when log_code_creation
       (Script_InitLineEnds script ;;
        infos <- iload (fun h => ScriptIterator h script) ;;
        for_each infos (fun info =>
          compiled <- iload (fun h => SFI_is_compiled h info) ;;
          when compiled
            (let shared_info := info in
             when needs_source_positions
               (SFI_EnsureSourcePositionsAvailable shared_info) ;;
             line_num <- iload (fun h =>
               Script_GetLineNumber h script
                 (SFI_StartPosition h shared_info) + 1) ;;
             column_num <- iload (fun h =>
               Script_GetColumnNumber h script
                 (SFI_StartPosition h shared_info) + 1) ;;
             e <- iload (fun h =>
               CodeCreateEvent
                 (if SFI_is_toplevel h shared_info then SCRIPT_TAG
                  else FUNCTION_TAG)
                 (SFI_abstract_code h shared_info) shared_info name
                 line_num column_num) ;;
             emit e)))) ;;
  when needs_source_positions
    (script <- iload (fun h => SFI_script h (object result)) ;;
     Script_InitLineEnds script).

(** Modelled from the spec: [handle] and [CloseAndEscape] are declared
    in handles/handles.h; they give a reference ordinary ownership by
    a handle scope of the controlling thread.
    [handle(obj, isolate)]: a fresh handle in the current scope. *)
Definition handle (obj : Address) : Handle :=
  {| owner := OwnedByHandleScope; object := obj |}.
(** [scope.CloseAndEscape(h)]: the handle moves to the outer scope. *)
Definition CloseAndEscape (h : Handle) : Handle :=
  {| owner := OwnedByHandleScope; object := object h |}.

(** Modelled from the spec: [NewPersistentMaybeHandle] and
    [DetachPersistentHandles] are declared in local-heap.h; the
    persistent handle set holds the references a decode pass
    produces that must survive the thread boundary, owned by the
    pass until it is detached for transfer. *)
Definition NewPersistentMaybeHandle (maybe : option Handle)
    : M Isolate (option Handle) :=
  match maybe with
  | None => ret None
  | Some h =>
      let p := {| owner := OwnedByPersistentHandles; object := object h |} in
      modify (fun w =>
        with_local_persistent_handles
          (Some (default [] (local_persistent_handles w) ++ [p])) w) ;;
      ret (Some p)
  end.
Definition DetachPersistentHandles : M Isolate (option (list Handle)) :=
  handles <- gets local_persistent_handles ;;
  modify (with_local_persistent_handles None) ;;
  ret handles.

Definition StartDeserializeOffThread (cached_data : AlignedCachedData.t)
    : M Isolate (OffThreadDeserializeData * AlignedCachedData.t) :=
  (* DCHECK(!local_isolate->heap()->HasPersistentHandles()) *)
  let checked := SerializedCodeData.FromCachedDataWithoutSource cached_data in
  let scd := fst (fst checked) in
  let cached_data := snd (fst checked) in
  let result :=
    {| maybe_result := None; scripts := []; persistent_handles := None;
       sanity_check_result := snd checked |} in
  if negb (bool_decide (sanity_check_result result = kSuccess)) then
    (* DCHECK(cached_data->rejected()) *)
    ret (result, cached_data)
  else
    deserialized <-
      OffThreadObjectDeserializer_DeserializeSharedFunctionInfo scd ;;
    let local_maybe_result := fst deserialized in
    maybe_result <- NewPersistentMaybeHandle local_maybe_result ;;
    persistent_handles <- DetachPersistentHandles ;;
    ret ({| maybe_result := maybe_result;
            scripts := snd deserialized;
            persistent_handles := persistent_handles;
            sanity_check_result := sanity_check_result result |},
         cached_data).

Definition FinishOffThreadDeserialize (data : OffThreadDeserializeData)
    (cached_data : AlignedCachedData.t) (source : Address)
    (origin_options : ScriptOriginOptions)
    : M Isolate (option Handle * AlignedCachedData.t) :=
  expected_source_hash <- iload (fun h =>
    SerializedCodeData.SourceHash h source origin_options) ;;
  let checked :=
    SerializedCodeData.FromPartiallySanityCheckedCachedData
      cached_data expected_source_hash (sanity_check_result data) in
  let cached_data := snd (fst checked) in
  let sanity_check_result := snd checked in
  if negb (bool_decide (sanity_check_result = kSuccess)) then
    when FLAG_profile_deserialization
      (emit (PrintF "[Cached code failed check]\n" [])) ;;
    (* DCHECK(cached_data->rejected()) *)
    AddSample sanity_check_result ;;
    ret (None, cached_data)
  else
    match maybe_result data with
    | None =>
        when FLAG_profile_deserialization
          (emit (PrintF "[Off-thread deserializing failed]\n" [])) ;;
        ret (None, cached_data)
    | Some result =>
        (* DCHECK(data.persistent_handles->Contains(result.location())) *)
        let result := handle (object result) in
        (* DCHECK_EQ(data.scripts.size(), 1);
           DCHECK_EQ(result->script(), *data.scripts[0]);
           DCHECK_EQ(Script::cast(result->script()).source(),
                     empty_string) *)
        script <- iload (fun h => SFI_script h (object result)) ;;
        istore (Script_set_source script source) ;;
        list <- gets script_list ;;
        let list :=
          fold_left (fun list script => list ++ [object script])
            (scripts data) list in
        modify (with_script_list list) ;;
        when FLAG_profile_deserialization
          (emit (PrintF
             "[Finishing off-thread deserialize from %d bytes took %0.3f ms]\n"
             [AlignedCachedData.length cached_data])) ;;
        FinalizeDeserialization result ;;
        ret (Some (CloseAndEscape result), cached_data)
    end.

Definition Deserialize (cached_data : AlignedCachedData.t)
    (source : Address) (origin_options : ScriptOriginOptions)
    : M Isolate (option Handle * AlignedCachedData.t) :=
  if FLAG_stress_background_compile then
    (* StressOffThreadDeserializeThread: Start, Run, Join, Finalize *)
    started <- gets Thread_Start ;;
    CHECK started ;;
    started_data <- StartDeserializeOffThread cached_data ;;
    FinishOffThreadDeserialize (fst started_data) (snd started_data)
      source origin_options
  else
    expected_source_hash <- iload (fun h =>
      SerializedCodeData.SourceHash h source origin_options) ;;
    let checked :=
      SerializedCodeData.FromCachedData cached_data expected_source_hash in
    let scd := fst (fst checked) in
    let cached_data := snd (fst checked) in
    let sanity_check_result := snd checked in
    if negb (bool_decide (sanity_check_result = kSuccess)) then
      when FLAG_profile_deserialization
        (emit (PrintF "[Cached code failed check]\n" [])) ;;
      (* DCHECK(cached_data->rejected()) *)
      AddSample sanity_check_result ;;
      ret (None, cached_data)
    else
      maybe_result <-
        ObjectDeserializer_DeserializeSharedFunctionInfo scd source ;;
      match maybe_result with
      | None =>
          when FLAG_profile_deserialization
            (emit (PrintF "[Deserializing failed]\n" [])) ;;
          ret (None, cached_data)
      | Some result =>
          when FLAG_profile_deserialization
            (emit (PrintF "[Deserializing from %d bytes took %0.3f ms]\n"
                     [AlignedCachedData.length cached_data])) ;;
          FinalizeDeserialization result ;;
          ret (Some (CloseAndEscape result), cached_data)
      end.
End WithRuntime.

Section WithSerializerRun.
Context `{L : HeaderLayout} `{F : Flags} `{SB : SerializerBase}
  `{SR : !SerializerRun}.
Local Open Scope monad_scope.

(** [cs.SerializeSharedFunctionInfo(info)], with [cs.source_hash()]. *)
Definition SerializeSharedFunctionInfo (source_hash : Z) (info : Address)
    : M State AlignedCachedData.t :=
  VisitRootPointer info ;;
  SerializeDeferredObjects ;;
  Pad ;;
  data <- gets (fun s =>
    SerializedCodeData.from_payload (sink_data (sink_ s)) source_hash) ;;
  ret (SerializedCodeData.GetScriptData data).

(** A [CodeSerializer] lives for one call: it starts with an empty
    sink over the isolate's heap, and the heap it leaves is the
    isolate's. *)
Definition with_CodeSerializer {A} (pass : M State A) : M Isolate A :=
  fun w =>
    match pass {| heap := isolate_heap w; sink_ := [];
                  internals := Serializer_internals |} with
    | Returns (a, s) => Returns (a, with_isolate_heap (heap s) w)
    | Fatal => Fatal
    end.

(** [name.ShortPrint()] writes the object to stdout; the line is kept
    with the object as its argument. *)
Definition ShortPrint (obj : Object) : M Isolate unit :=
  emit (PrintF "%s" [obj]).

(** [CodeSerializer::Serialize].  The tracing scopes and the timer
    are left out; [nullptr] is [None]. *)
Definition Serialize (info : Address)
    : M Isolate (option ScriptCompiler.CachedData) :=
  script <- iload (fun h => SFI_script h info) ;;
  when FLAG_trace_serializer
    (emit (PrintF "[Serializing from" []) ;;
     name <- iload (fun h => Script_name h script) ;;
     ShortPrint name ;;
     emit (PrintF "]\n" [])) ;;
  contains_asm_module <- iload (fun h => Script_ContainsAsmModule h script) ;;
  if V8_ENABLE_WEBASSEMBLY && contains_asm_module then ret None else
  source <- iload (fun h => Script_source h script) ;;
  source_hash <- iload (fun h =>
    SerializedCodeData.SourceHash h source (Script_origin_options h script)) ;;
  cached_data <- with_CodeSerializer
    (AddAttachedReference source ;;
     SerializeSharedFunctionInfo source_hash info) ;;
  when FLAG_profile_deserialization
    (emit (PrintF "[Serializing to %d bytes took %0.3f ms]\n"
             [AlignedCachedData.length cached_data])) ;;
  ret (Some {| ScriptCompiler.data := AlignedCachedData.data cached_data;
               ScriptCompiler.length := AlignedCachedData.length cached_data;
               ScriptCompiler.buffer_policy := ScriptCompiler.BufferOwned |}).
End WithSerializerRun.
End CodeSerializer.

(** ** The design's description of the same behaviour

    Definitions written from the design document rather than from the
    code; the theorems compare them with the embedded functions. *)

Module Design.
(** An ordered list of checks, each a failure condition with its
    reason: the result is the reason of the first condition that
    holds, and success when none does. *)
Fixpoint first_failure
    (checks : list (bool * SerializedCodeSanityCheckResult))
    : SerializedCodeSanityCheckResult :=
  match checks with
  | [] => kSuccess
  | (failed, reason) :: rest =>
      if failed then reason else first_failure rest
  end.

(** Two four-byte fields do not overlap. *)
Definition fields_apart (a b : Z) : Prop := a + 4 <= b \/ b + 4 <= a.

Fixpoint pairwise_apart (offsets : list Z) : Prop :=
  match offsets with
  | [] => True
  | a :: rest => Forall (fields_apart a) rest /\ pairwise_apart rest
  end.

Section WithBuild.
Context `{L : HeaderLayout} `{F : Flags}.
Import SerializedCodeData.

(** The header fields, each four bytes wide. *)
Definition header_fields : list Z :=
  [kMagicNumberOffset; kVersionHashOffset; kSourceHashOffset;
   kFlagHashOffset; kPayloadLengthOffset; kChecksumOffset].

(** A layout is well formed when its fields lie in the unaligned
    header without overlapping, the header size fits 32 bits, and the
    magic number, the two hashes and every checksum are 32-bit
    values. *)
Definition well_formed_layout : Prop :=
  Forall (fun o => 0 <= o /\ o + 4 <= kUnalignedHeaderSize) header_fields
  /\ pairwise_apart header_fields
  /\ kUnalignedHeaderSize <= kHeaderSize < 2 ^ 32
  /\ 0 <= kMagicNumber < 2 ^ 32
  /\ 0 <= Version_Hash < 2 ^ 32
  /\ 0 <= FlagList_Hash < 2 ^ 32
  /\ forall bs, 0 <= Checksum bs < 2 ^ 32.

(** Phase A, in the order the design lists its checks.  Sizes are
    mathematical integers here. *)
Definition phase_A (scd : SerializedCodeData.t)
    : list (bool * SerializedCodeSanityCheckResult) :=
  [ (bool_decide (size_ scd < kHeaderSize), kInvalidHeader);
    (bool_decide (GetMagicNumber scd <> kMagicNumber),
      kMagicNumberMismatch);
    (bool_decide (GetHeaderValue scd kVersionHashOffset <> Version_Hash),
      kVersionMismatch);
    (bool_decide (GetHeaderValue scd kFlagHashOffset <> FlagList_Hash),
      kFlagsMismatch);
    (bool_decide (GetHeaderValue scd kPayloadLengthOffset
                  > size_ scd - kHeaderSize),
      kLengthMismatch);
    (FLAG_verify_snapshot_checksum &&
     bool_decide (Checksum (ChecksummedContent scd)
                  <> GetHeaderValue scd kChecksumOffset),
      kChecksumMismatch) ].
End WithBuild.

(** What a caller observes of a rejected entry: the optional
    diagnostic line and the reason added to the reject counter. *)
Definition report_rejection `{F : Flags}
    (reason : SerializedCodeSanityCheckResult) (w : Isolate) : Isolate :=
  let w :=
    if FLAG_profile_deserialization
    then with_output (output w ++ [PrintF "[Cached code failed check]\n" []]) w
    else w in
  with_reject_samples (code_cache_reject_reason w ++ [reason]) w.


(** A cached entry with bit [i] of its magic-number field flipped. *)
Definition flip_magic_bit `{L : HeaderLayout} (i : Z)
    (cached_data : AlignedCachedData.t) : AlignedCachedData.t :=
  {| AlignedCachedData.owns_data_ := AlignedCachedData.owns_data_ cached_data;
     AlignedCachedData.rejected_ := AlignedCachedData.rejected_ cached_data;
     AlignedCachedData.data_ :=
       flip_field_bit kMagicNumberOffset i
         (AlignedCachedData.data_ cached_data) |}.

(** The content hash: the source length with the module flag in
    bit 31. *)
Definition content_hash (length_of_source_text : Z) (module_flag : bool) : Z :=
  Z.lor length_of_source_text (Z.shiftl (Z.b2z module_flag) 31).

(** Strategies tried in a fixed order, the first match winning: the
    result tells whether one of them encoded the record. *)
Fixpoint any_match {S} (strategies : list (M S bool)) : M S bool :=
  match strategies with
  | [] => ret false
  | strategy :: rest =>
      bind strategy (fun hit => if hit then ret true else any_match rest)
  end.

(** The linear position of a chunk in an ordered chunk list (the
    length of the list when the chunk is absent). *)
Fixpoint linear_position (chunk : Address) (chunks : list Address) : nat :=
  match chunks with
  | [] => 0
  | c :: rest =>
      if bool_decide (chunk = c) then 0%nat
      else Datatypes.S (linear_position chunk rest)
  end.

Section WithBase.
Context `{SB : SerializerBase} `{R : ReadOnlyRoots} `{F : Flags}.
Local Open Scope monad_scope.
Import CodeSerializer.

(** Strategy 4: a record of the read-only region is encoded as
    [(chunk_index, chunk_offset)]. *)
Definition read_only_reference (obj : Address) : M State bool :=
  if ReadOnlyHeap_Contains obj then
    let chunk := BasicMemoryChunk_FromAddress obj in
    modify (fun s =>
      with_sink
        (sink_ s ++
         [Put kReadOnlyHeapRef "ReadOnlyHeapRef";
          PutInt (wrap32 (Z.of_nat
                    (linear_position chunk read_only_space_pages)))
            "ReadOnlyHeapRefChunkIndex";
          PutInt (wrap32 (BasicMemoryChunk_Offset chunk obj))
            "ReadOnlyHeapRefChunkOffset"]) s) ;;
    ret true
  else ret false.

(** Strategies 1 to 4, in priority order. *)
Definition reference_strategies (obj : Address) : list (M State bool) :=
  [ SerializeHotObject obj;
    SerializeRoot obj;
    SerializeBackReference obj;
    read_only_reference obj ].

(** Kinds that must not reach the generic encoder. *)
Definition illegal_kind (h : Heap) (obj : Address) : bool :=
  has_type MAP_TYPE h obj
  || has_type JS_GLOBAL_PROXY_TYPE h obj
  || has_type JS_GLOBAL_OBJECT_TYPE h obj
  || has_type JS_FUNCTION_TYPE h obj
  || has_type CONTEXT_TYPE h obj.

(** Strategy 5: the record is encoded field by field, unless it is
    elided to the placeholder, is of a kind with its own transform,
    or is of an illegal kind (a fatal contract violation). *)
Definition encode_new_record (obj : Address) : M State unit :=
  fun s =>
    let h := heap s in
    if has_type CODE_TYPE h obj then Fatal
    else if ElideObject s obj then SerializeObject undefined_value s
    else if IsScript h obj then SerializeScript obj s
    else if IsSharedFunctionInfo h obj then SerializeFunctionInfo obj s
    else
      let obj :=
        if negb V8_TARGET_ARCH_ARM && FLAG_interpreted_frames_native_stack
           && IsInterpreterData h obj
        then InterpreterData_bytecode_array h obj
        else obj in
      if illegal_kind h obj
         || (NeedsRehashing h obj && negb (CanBeRehashed h obj))
      then Fatal
      else SerializeGeneric obj s.

Definition encode_by_priority (obj : Address) : M State unit :=
  hit <- any_match (reference_strategies obj) ;;
  if hit then ret tt else encode_new_record obj.

(** A script record as the generic encoder is to see it: the
    context data dropped unless it is [undefined] or the
    uninitialized symbol, the host options emptied. *)
Definition script_as_encoded (sc : Script.t) : Script.t :=
  let context_data := Script.context_data sc in
  Script.with_host_defined_options empty_fixed_array
    (if bool_decide (context_data = undefined_value)
        || bool_decide (context_data = uninitialized_symbol)
     then sc
     else Script.with_context_data undefined_value sc).

(** The writes that follow the generic encode of a script whose
    record was [sc] when the arm was entered. *)
Definition restore_script (obj : Address) (sc : Script.t) (h : Heap) : Heap :=
  Script_set_context_data obj (Script.context_data sc)
    (Script_set_host_defined_options obj (Script.host_defined_options sc) h).


End WithBase.

(** A computation that, started on the heap [h], returns with the heap
    unchanged and the output extended by [events]. *)
Definition logs (h : Heap) (c : M Isolate unit) (events : list Event)
    : Prop :=
  forall w0, isolate_heap w0 = h ->
    exists w1,
      c w0 = Returns (tt, w1)
      /\ isolate_heap w1 = h /\ output w1 = output w0 ++ events.

(** The code-creation events of the compiled functions among
    [infos], in order: the top-level function is tagged as a script. *)
Definition code_create_events `{RT : Runtime} (h : Heap) (script : Address)
    (name : Object) (infos : list Address) : list Event :=
  map (fun info =>
         CodeCreateEvent
           (if SFI_is_toplevel h info then SCRIPT_TAG else FUNCTION_TAG)
           (SFI_abstract_code h info) info name
           (Script_GetLineNumber h script (SFI_StartPosition h info) + 1)
           (Script_GetColumnNumber h script (SFI_StartPosition h info) + 1))
    (List.filter (SFI_is_compiled h) infos).

(** A cached entry with bit [i] of the header field at [offset]
    flipped, and one with the byte at index [j] replaced. *)
Definition flip_header_bit (offset i : Z) (cached_data : AlignedCachedData.t)
    : AlignedCachedData.t :=
  {| AlignedCachedData.owns_data_ := AlignedCachedData.owns_data_ cached_data;
     AlignedCachedData.rejected_ := AlignedCachedData.rejected_ cached_data;
     AlignedCachedData.data_ :=
       flip_field_bit offset i (AlignedCachedData.data_ cached_data) |}.

Definition overwrite_byte (j : nat) (b : byte)
    (cached_data : AlignedCachedData.t) : AlignedCachedData.t :=
  {| AlignedCachedData.owns_data_ := AlignedCachedData.owns_data_ cached_data;
     AlignedCachedData.rejected_ := AlignedCachedData.rejected_ cached_data;
     AlignedCachedData.data_ :=
       <[j := b]> (AlignedCachedData.data_ cached_data) |}.

(** One pass of a [CodeSerializer] over the graph rooted at [info],
    up to the point where the sink is framed. *)
Definition one_pass `{SB : SerializerBase} `{SR : !SerializerRun}
    (source info : Address) : M State unit :=
  bind (AddAttachedReference source)
    (fun _ => bind (VisitRootPointer info)
       (fun _ => bind SerializeDeferredObjects (fun _ => Pad))).

(** The isolate after the trace lines of [Serialize]. *)
Definition traced `{SB : SerializerBase} `{SR : !SerializerRun}
    (script : Address) (w : Isolate) : Isolate :=
  if FLAG_trace_serializer
  then with_output
         (output w ++
          [PrintF "[Serializing from" [];
           PrintF "%s" [Script_name (isolate_heap w) script];
           PrintF "]\n" []]) w
  else w.

(** What [Deserialize] does on the synchronous path once both checks
    have accepted the entry [scd]. *)
Definition decode_accepted `{F : Flags} `{R : ReadOnlyRoots} `{RT : Runtime}
    (scd : SerializedCodeData.t) (cached_data : AlignedCachedData.t)
    (source : Address) (w : Isolate)
    : Outcome (option Handle * AlignedCachedData.t * Isolate) :=
  match ObjectDeserializer_DeserializeSharedFunctionInfo scd source w with
  | Returns (None, w1) =>
      Returns (None, cached_data,
               if FLAG_profile_deserialization
               then with_output
                      (output w1 ++ [PrintF "[Deserializing failed]\n" []]) w1
               else w1)
  | Returns (Some result, w1) =>
      match CodeSerializer.FinalizeDeserialization result
              (if FLAG_profile_deserialization
               then with_output
                      (output w1 ++
                       [PrintF "[Deserializing from %d bytes took %0.3f ms]\n"
                          [AlignedCachedData.length cached_data]]) w1
               else w1) with
      | Returns (_, w2) =>
          Returns (Some (CodeSerializer.CloseAndEscape result), cached_data, w2)
      | Fatal => Fatal
      end
  | Fatal => Fatal
  end.

(** *** The finalize step

    "Finalize: the post-decode step that updates derived indexes and
    fires completion hooks, shared by the synchronous and background
    paths."  The derived index is the line-end table of the result's
    script; the completion hooks are the function event of the log and
    the code-creation events of the code-event listeners. *)
Section Finalize.
Context `{F : Flags} `{R : ReadOnlyRoots} `{RT : Runtime}.









End Finalize.
End Design.

(** ** A concrete build, used to run the definitions *)

Module Demo.
(** The scenario of the design document: magic [0xC0DE], version 7,
    flags 3, a 24-byte header. *)
Definition layout : HeaderLayout :=
  {| kMagicNumber := 0xC0DE;
     kMagicNumberOffset := 0;
     kVersionHashOffset := 4;
     kSourceHashOffset := 8;
     kFlagHashOffset := 12;
     kPayloadLengthOffset := 16;
     kChecksumOffset := 20;
     kUnalignedHeaderSize := 24;
     kHeaderSize := 24;
     Version_Hash := 7;
     FlagList_Hash := 3;
     Checksum := fun bs => wrap32 (fold_left (fun a b => a + byte_to_Z b) bs 0) |}.

Definition flags : Flags :=
  {| FLAG_verify_snapshot_checksum := true;
     FLAG_stress_background_compile := false;
     FLAG_profile_deserialization := false;
     FLAG_log_function_events := false;
     FLAG_interpreted_frames_native_stack := false;
     V8_TARGET_ARCH_ARM := false |}.

Definition stress_flags : Flags :=
  {| FLAG_verify_snapshot_checksum := true;
     FLAG_stress_background_compile := true;
     FLAG_profile_deserialization := true;
     FLAG_log_function_events := false;
     FLAG_interpreted_frames_native_stack := false;
     V8_TARGET_ARCH_ARM := false |}.

Definition roots : ReadOnlyRoots :=
  {| undefined_value := 1008;
     uninitialized_symbol := 1016;
     empty_fixed_array := 1024;
     empty_string := 1032 |}.

(** An 8-byte payload framed for a 42-character source. *)
Definition payload : list byte :=
  [Byte.x01; Byte.x02; Byte.x03; Byte.x04;
   Byte.x05; Byte.x06; Byte.x07; Byte.x08].

Definition entry : SerializedCodeData.t :=
  @SerializedCodeData.from_payload layout flags payload 42.

Definition cached : AlignedCachedData.t :=
  SerializedCodeData.GetScriptData entry.

(** The same entry with its payload-length field set to
    [buffer_size - header_size + 1]. *)
Definition entry_too_long : SerializedCodeData.t :=
  @SerializedCodeData.SetHeaderValue entry 16 9.

(** The same buffer with bit 13 of the magic number flipped. *)
Definition cached_bad_magic : AlignedCachedData.t :=
  {| AlignedCachedData.owns_data_ := true;
     AlignedCachedData.rejected_ := false;
     AlignedCachedData.data_ :=
       flip_field_bit 0 13 (AlignedCachedData.data_ cached) |}.

(** A small heap: the roots, a 42-character source, a script name. *)
Definition source : Address := 5000.
Definition script_name : Address := 5008.
Definition script : Address := 6000.
Definition sfi : Address := 6100.
Definition bytecode : Address := 6200.

Definition source_text : string :=
  "function f(a, b) { return a * b + a - b; }".

Definition base_heap : Heap :=
  <[1008 := HOther ODDBALL_TYPE]>
  (<[1016 := HOther SYMBOL_TYPE]>
  (<[1024 := HOther FIXED_ARRAY_TYPE]>
  (<[1032 := HString ""]>
  (<[source := HString source_text]>
  (<[script_name := HString "demo.js"]>
  (<[bytecode := HOther BYTECODE_ARRAY_TYPE]> ∅)))))).

Definition decoded_script (source : Object) : Script.t :=
  {| Script.id := 1; Script.name := script_name; Script.source := source;
     Script.context_data := 1008; Script.host_defined_options := 1024;
     Script.compilation_type := Script.COMPILATION_TYPE_HOST |}.

Definition decoded_sfi : SharedFunctionInfo.t :=
  {| SharedFunctionInfo.script_or_debug_info := script;
     SharedFunctionInfo.active_bytecode_array := bytecode;
     SharedFunctionInfo.start_position := 0;
     SharedFunctionInfo.end_position := 42;
     SharedFunctionInfo.is_toplevel := true |}.

(** Object deserializers that allocate one script and one function
    descriptor; the off-thread one leaves the placeholder source. *)
Definition allocate_graph (source : Object) (w : Isolate) : Isolate :=
  with_isolate_heap
    (<[script := HScript (decoded_script source)]>
     (<[sfi := HSharedFunctionInfo decoded_sfi]> (isolate_heap w))) w.

Definition runtime : Runtime :=
  {| ObjectDeserializer_DeserializeSharedFunctionInfo := fun scd source w =>
       Returns (Some {| owner := OwnedByHandleScope; object := sfi |},
                with_script_list (script_list w ++ [script])
                  (allocate_graph source w));
     OffThreadObjectDeserializer_DeserializeSharedFunctionInfo := fun scd w =>
       Returns ((Some {| owner := OwnedByHandleScope; object := sfi |},
                 [ {| owner := OwnedByPersistentHandles; object := script |} ]),
                with_local_persistent_handles
                  (Some [ {| owner := OwnedByPersistentHandles;
                             object := script |} ])
                  (allocate_graph 1032 w));
     Thread_Start := fun _ => true;
     ScriptIterator := fun _ _ => [sfi];
     SFI_HasBytecodeArray := fun h a =>
       has_type BYTECODE_ARRAY_TYPE h (SFI_active_bytecode_array h a);
     SFI_GetBytecodeArray := SFI_active_bytecode_array;
     SFI_is_compiled := fun h a =>
       has_type BYTECODE_ARRAY_TYPE h (SFI_active_bytecode_array h a);
     SFI_abstract_code := SFI_active_bytecode_array;
     SFI_set_interpreter_data := SFI_SetActiveBytecodeArray;
     SFI_EnsureSourcePositionsAvailable := fun _ => ret tt;
     Script_InitLineEnds := fun _ => ret tt;
     Script_GetLineNumber := fun _ _ _ => 0;
     Script_GetColumnNumber := fun _ _ position => position;
     interpreter_entry_trampoline_for_profiling := 8000;
     factory_CopyCode := fun code => ret code;
     factory_NewStruct_INTERPRETER_DATA_TYPE := fun w =>
       Returns (9000,
                with_isolate_heap
                  (<[9000 := HInterpreterData
                       {| InterpreterData.bytecode_array := 0;
                          InterpreterData.interpreter_trampoline := 0 |}]>
                     (isolate_heap w)) w);
     ToCodeT := fun code => code |}.

Definition isolate : Isolate :=
  {| isolate_heap := base_heap;
     script_list := [];
     code_cache_reject_reason := [];
     output := [];
     local_persistent_handles := None;
     logger_is_listening_to_code_events := true;
     is_profiling := false;
     code_event_dispatcher_IsListeningToCodeEvents := false;
     NeedsSourcePositionsForProfiling := true |}.

Definition origin_options : ScriptOriginOptions :=
  {| IsSharedCrossOrigin := false; IsOpaque := false; IsModule := false |}.

(** A serializer base whose private state is the list of records
    already encoded.  Its generic encoder registers the record and
    writes the four slots the kind-specific arms touch, so that the
    sink shows what was encoded. *)
Definition base : SerializerBase :=
  {| Internals := list Address;
     kReadOnlyHeapRef := 30;
     SerializeHotObject := fun _ => ret false;
     SerializeRoot := fun obj s =>
       if bool_decide (obj = 1008)
       then Returns (true, with_sink (sink_ s ++ [Put 2 "RootArray"]) s)
       else Returns (false, s);
     SerializeBackReference := fun obj s =>
       if bool_decide (obj ∈ internals s)
       then Returns (true, with_sink (sink_ s ++ [Put 3 "BackRef"]) s)
       else Returns (false, s);
     SerializeObject := fun obj s =>
       Returns (tt, with_sink (sink_ s ++ [Put 2 "RootArray"]) s);
     ObjectSerializer_Serialize := fun obj s =>
       Returns (tt,
         {| heap := heap s;
            sink_ := sink_ s ++
              [Put 1 "NewObject";
               PutInt (Script_context_data (heap s) obj) "context_data";
               PutInt (Script_host_defined_options (heap s) obj)
                 "host_defined_options";
               PutInt (SFI_script_or_debug_info (heap s) obj)
                 "script_or_debug_info";
               PutInt (SFI_active_bytecode_array (heap s) obj) "bytecode"];
            internals := obj :: internals s |});
     ElideObject := fun _ _ => false;
     ReadOnlyHeap_Contains := fun a => bool_decide (1000 <= a < 3000);
     BasicMemoryChunk_FromAddress := fun a => a / 1000 * 1000;
     BasicMemoryChunk_Offset := fun chunk a => a - chunk;
     read_only_space_pages := [1000; 2000];
     NeedsRehashing := fun _ _ => false;
     CanBeRehashed := fun _ _ => true |}.

(** A live graph to encode: a script with context data and host
    options, and a function descriptor under the debugger. *)
Definition context : Address := 7100.
Definition host_options : Address := 7000.
Definition debug_info : Address := 6300.
Definition debug_bytecode : Address := 6400.

Definition live_script : Script.t :=
  {| Script.id := 1; Script.name := script_name; Script.source := source;
     Script.context_data := context;
     Script.host_defined_options := host_options;
     Script.compilation_type := Script.COMPILATION_TYPE_HOST |}.

Definition live_sfi : SharedFunctionInfo.t :=
  {| SharedFunctionInfo.script_or_debug_info := debug_info;
     SharedFunctionInfo.active_bytecode_array := debug_bytecode;
     SharedFunctionInfo.start_position := 0;
     SharedFunctionInfo.end_position := 42;
     SharedFunctionInfo.is_toplevel := true |}.

Definition live_debug_info : DebugInfo.t :=
  {| DebugInfo.script := script;
     DebugInfo.original_bytecode_array := bytecode;
     DebugInfo.debug_bytecode_array := Some debug_bytecode |}.

Definition live_heap : Heap :=
  <[script := HScript live_script]>
  (<[sfi := HSharedFunctionInfo live_sfi]>
  (<[debug_info := HDebugInfo live_debug_info]>
  (<[debug_bytecode := HOther BYTECODE_ARRAY_TYPE]>
  (<[host_options := HOther FIXED_ARRAY_TYPE]>
  (<[context := HOther OTHER_TYPE]> base_heap))))).

Definition encoder : SerializerState (list Address) :=
  {| heap := live_heap; sink_ := []; internals := [] |}.

(** An isolate nobody listens to. *)
Definition quiet_isolate : Isolate :=
  {| isolate_heap := base_heap;
     script_list := [];
     code_cache_reject_reason := [];
     output := [];
     local_persistent_handles := None;
     logger_is_listening_to_code_events := false;
     is_profiling := false;
     code_event_dispatcher_IsListeningToCodeEvents := false;
     NeedsSourcePositionsForProfiling := false |}.

(** Pending data of a background half that decoded nothing. *)
Definition pending_without_result : OffThreadDeserializeData :=
  {| maybe_result := None; scripts := []; persistent_handles := None;
     sanity_check_result := kSuccess |}.

(** A build with --interpreted-frames-native-stack, and a graph with
    an embedded map and an [InterpreterData]. *)
Definition native_stack_flags : Flags :=
  {| FLAG_verify_snapshot_checksum := true;
     FLAG_stress_background_compile := false;
     FLAG_profile_deserialization := false;
     FLAG_log_function_events := false;
     FLAG_interpreted_frames_native_stack := true;
     V8_TARGET_ARCH_ARM := false |}.

Definition embedded_map : Address := 7200.
Definition interpreter_data : Address := 7300.
Definition trampoline : Address := 7400.

Definition heap_with_strays : Heap :=
  <[embedded_map := HOther MAP_TYPE]>
  (<[interpreter_data :=
       HInterpreterData
         {| InterpreterData.bytecode_array := bytecode;
            InterpreterData.interpreter_trampoline := trampoline |}]>
  (<[trampoline := HOther CODE_TYPE]> live_heap)).

Definition encoder_with_strays : SerializerState (list Address) :=
  {| heap := heap_with_strays; sink_ := []; internals := [] |}.

(** One serializer pass on the demo graph: the root pointer is
    encoded by [SerializeObjectImpl], nothing is deferred, no padding
    is needed, and the sink writes a [Put] as one byte and a [PutInt]
    as four. *)
Definition render (item : SinkItem) : list byte :=
  match item with
  | Put b _ => [byte_of_Z b]
  | PutInt i _ =>
      [byte_of_Z i; byte_of_Z (i / 2 ^ 8); byte_of_Z (i / 2 ^ 16);
       byte_of_Z (i / 2 ^ 24)]
  end.

Definition serializer_run : @SerializerRun base :=
  {| FLAG_trace_serializer := true;
     V8_ENABLE_WEBASSEMBLY := true;
     Script_ContainsAsmModule := fun _ _ => false;
     Script_origin_options := fun _ _ => origin_options;
     Serializer_internals := [] : @Internals base;
     AddAttachedReference := fun _ => ret tt;
     VisitRootPointer :=
       @CodeSerializer.SerializeObjectImpl base roots flags;
     SerializeDeferredObjects := ret tt;
     Pad := ret tt;
     sink_data := flat_map render |}.

Definition live_isolate : Isolate := with_isolate_heap live_heap quiet_isolate.

(** The isolate and the encoder right after the demo graph was
    decoded: the function descriptor has no debug info. *)
Definition decoded_isolate : Isolate := allocate_graph source isolate.

Definition encoder_of_decoded : SerializerState (list Address) :=
  {| heap := isolate_heap decoded_isolate; sink_ := []; internals := [] |}.

(** The pending result of the background half on the demo entry, and
    the isolate it leaves. *)
Definition started
    : Outcome (OffThreadDeserializeData * AlignedCachedData.t * Isolate) :=
  @CodeSerializer.StartDeserializeOffThread layout stress_flags runtime
    cached isolate.

Definition pending : OffThreadDeserializeData :=
  match started with
  | Returns (data, _, _) => data
  | Fatal =>
      {| maybe_result := None; scripts := []; persistent_handles := None;
         sanity_check_result := kInvalidHeader |}
  end.

Definition isolate_after_start : Isolate :=
  match started with
  | Returns (_, _, w) => w
  | Fatal => isolate
  end.



(** A script embedded in a custom snapshot: its context data is the
    uninitialized symbol. *)
Definition embedded_script : Script.t :=
  {| Script.id := 1; Script.name := script_name; Script.source := source;
     Script.context_data := 1016;
     Script.host_defined_options := host_options;
     Script.compilation_type := Script.COMPILATION_TYPE_HOST |}.

Definition encoder_of_embedded : SerializerState (list Address) :=
  {| heap := <[script := HScript embedded_script]> live_heap;
     sink_ := []; internals := [] |}.

(** A serializer base whose generic encoder aborts on a record whose
    context data reads [undefined], and leaves the state alone
    otherwise. *)
Definition strict_base : SerializerBase :=
  {| Internals := list Address;
     kReadOnlyHeapRef := 30;
     SerializeHotObject := fun _ => ret false;
     SerializeRoot := fun _ => ret false;
     SerializeBackReference := fun _ => ret false;
     SerializeObject := fun _ => ret tt;
     ObjectSerializer_Serialize := fun obj s =>
       if bool_decide (Script_context_data (heap s) obj = 1008)
       then Fatal else Returns (tt, s);
     ElideObject := fun _ _ => false;
     ReadOnlyHeap_Contains := fun a => bool_decide (1000 <= a < 3000);
     BasicMemoryChunk_FromAddress := fun a => a / 1000 * 1000;
     BasicMemoryChunk_Offset := fun chunk a => a - chunk;
     read_only_space_pages := [1000; 2000];
     NeedsRehashing := fun _ _ => false;
     CanBeRehashed := fun _ _ => true |}.

Definition strict_encoder : @SerializerState (@Internals strict_base) :=
  {| heap := live_heap; sink_ := []; internals := [] |}.


End Demo.

(** * Theorems *)

(** ** Words and bytes *)

Lemma wrap32_small (z : Z) : 0 <= z < 2 ^ 32 -> wrap32 z = z.
Proof. intros H. unfold wrap32. apply Z.mod_small. exact H. Qed.

Lemma wrap32_range (z : Z) : 0 <= wrap32 z < 2 ^ 32.
Proof. unfold wrap32. apply Z.mod_pos_bound. lia. Qed.

Lemma byte_to_Z_range (b : byte) : 0 <= byte_to_Z b < 256.
Proof.
  unfold byte_to_Z. pose proof (Byte.to_N_bounded b). lia.
Qed.

Lemma byte_to_Z_inj (a b : byte) : byte_to_Z a = byte_to_Z b -> a = b.
Proof.
  unfold byte_to_Z. intros H. apply N2Z.inj in H.
  pose proof (Byte.of_to_N a) as Ha. rewrite H, Byte.of_to_N in Ha.
  congruence.
Qed.

Lemma flip_bit_changes (k : N) (b : byte) : (k < 8)%N -> flip_bit k b <> b.
Proof.
  intros Hk.
  assert (Hcases : k ∈ [0; 1; 2; 3; 4; 5; 6; 7]%N).
  { destruct k as [|[[[p|p|]|[p|p|]|]|[[p|p|]|[p|p|]|]|]];
      try lia; set_solver. }
  repeat (apply elem_of_cons in Hcases as [-> | Hcases]);
    [destruct b; vm_compute; discriminate ..|].
  apply elem_of_nil in Hcases. contradiction.
Qed.

Lemma byte_at_alter_ne (f : byte -> byte) (d : list byte) (idx : nat) (j : Z) :
  Z.to_nat j <> idx -> byte_at (alter f idx d) j = byte_at d j.
Proof.
  intros Hne. unfold byte_at.
  rewrite list_lookup_alter_ne by (intros E; apply Hne; symmetry; exact E).
  reflexivity.
Qed.

Lemma byte_at_alter_eq (f : byte -> byte) (d : list byte) (j : Z) (b : byte) :
  d !! Z.to_nat j = Some b ->
  byte_at d j = byte_to_Z b
  /\ byte_at (alter f (Z.to_nat j) d) j = byte_to_Z (f b).
Proof.
  intros Hb. unfold byte_at. rewrite list_lookup_alter_eq, Hb. split; reflexivity.
Qed.

(** ** Running a computation *)

Lemma bind_run {S A B} (m : M S A) (k : A -> M S B) (s : S) :
  bind m k s
  = match m s with
    | Returns (a, s') => k a s'
    | Fatal => Fatal
    end.
Proof. reflexivity. Qed.

Lemma any_match_cons {S B} (strategy : M S bool) (rest : list (M S bool))
    (k : bool -> M S B) (s : S) :
  bind (Design.any_match (strategy :: rest)) k s
  = match strategy s with
    | Returns (true, s') => k true s'
    | Returns (false, s') => bind (Design.any_match rest) k s'
    | Fatal => Fatal
    end.
Proof.
  cbn [Design.any_match]. unfold bind, ret.
  destruct (strategy s) as [[[|] s']|]; reflexivity.
Qed.

(** ** Heap writes *)

Lemma update_Script_hit (f : Script.t -> Script.t) (obj : Address) (h : Heap)
    (sc : Script.t) :
  h !! obj = Some (HScript sc) ->
  update_Script f obj h = <[obj := HScript (f sc)]> h.
Proof. intros H. unfold update_Script. rewrite H. reflexivity. Qed.

Lemma update_Script_frame (f : Script.t -> Script.t) (obj o : Address)
    (h : Heap) :
  o <> obj -> update_Script f obj h !! o = h !! o.
Proof.
  intros Hne. unfold update_Script.
  destruct (h !! obj) as [[sc| | | | |]|]; try reflexivity.
  apply lookup_insert_ne. intros E. apply Hne. symmetry. exact E.
Qed.



(** ** The integrity checker *)

Section IntegrityChecker.
Context `{L : HeaderLayout} `{F : Flags}.
Import SerializedCodeData.

Example demo_entry_passes_phase_A :
  @SanityCheckWithoutSource Demo.layout Demo.flags Demo.entry = kSuccess.
Proof. vm_compute. reflexivity. Qed.

Example demo_entry_too_long_rejected :
  @SanityCheckWithoutSource Demo.layout Demo.flags Demo.entry_too_long
  = kLengthMismatch.
Proof. vm_compute. reflexivity. Qed.

Example demo_bad_magic_rejected :
  @SanityCheckWithoutSource Demo.layout Demo.flags
    (of_cached_data Demo.cached_bad_magic)
  = kMagicNumberMismatch.
Proof. vm_compute. reflexivity. Qed.

Lemma first_failure_cons (failed : bool) reason rest :
  Design.first_failure ((failed, reason) :: rest)
  = if failed then reason else Design.first_failure rest.
Proof. reflexivity. Qed.

(** C1.  The structure-only check returns the reason of the first
    failing check in the order: size below the header size
    ([kInvalidHeader]), magic number, version hash, flags hash,
    payload length above [size - header size], checksum (when
    checksumming is on); otherwise [kSuccess].  In particular a
    payload-length field equal to [size - header size + 1], with the
    earlier checks passing, gives [kLengthMismatch]. *)
Theorem SanityCheckWithoutSource_first_failure (scd : SerializedCodeData.t)
    (Hheader : 0 <= kHeaderSize < 2 ^ 32)
    (Hsize : 0 <= size_ scd < 2 ^ 32) :
  SanityCheckWithoutSource scd = Design.first_failure (Design.phase_A scd)
  /\ (kHeaderSize <= size_ scd ->
      GetMagicNumber scd = kMagicNumber ->
      GetHeaderValue scd kVersionHashOffset = Version_Hash ->
      GetHeaderValue scd kFlagHashOffset = FlagList_Hash ->
      GetHeaderValue scd kPayloadLengthOffset = size_ scd - kHeaderSize + 1 ->
      SanityCheckWithoutSource scd = kLengthMismatch).
Proof.
  assert (Hrefine :
    SanityCheckWithoutSource scd = Design.first_failure (Design.phase_A scd)).
  { unfold SanityCheckWithoutSource, Design.phase_A.
    rewrite first_failure_cons.
    destruct (Z.ltb_spec (size_ scd) kHeaderSize) as [Hlt | Hge].
    - rewrite bool_decide_eq_true_2 by exact Hlt. reflexivity.
    - rewrite bool_decide_eq_false_2 by lia.
      rewrite (wrap32_small (size_ scd - kHeaderSize)) by lia.
      repeat rewrite first_failure_cons.
      destruct (Z.eqb_spec (GetMagicNumber scd) kMagicNumber) as [Hm | Hm];
        cbn [negb];
        [rewrite bool_decide_eq_false_2 by (intros Hn; exact (Hn Hm))
        |rewrite bool_decide_eq_true_2 by exact Hm; reflexivity].
      destruct (Z.eqb_spec (GetHeaderValue scd kVersionHashOffset) Version_Hash)
        as [Hv | Hv]; cbn [negb];
        [rewrite bool_decide_eq_false_2 by (intros Hn; exact (Hn Hv))
        |rewrite bool_decide_eq_true_2 by exact Hv; reflexivity].
      destruct (Z.eqb_spec (GetHeaderValue scd kFlagHashOffset) FlagList_Hash)
        as [Hf | Hf]; cbn [negb];
        [rewrite bool_decide_eq_false_2 by (intros Hn; exact (Hn Hf))
        |rewrite bool_decide_eq_true_2 by exact Hf; reflexivity].
      destruct (Z.gtb_spec (GetHeaderValue scd kPayloadLengthOffset)
                  (size_ scd - kHeaderSize)) as [Hl | Hl];
        [rewrite bool_decide_eq_true_2 by lia; reflexivity
        |rewrite bool_decide_eq_false_2 by lia].
      destruct FLAG_verify_snapshot_checksum; cbn [andb]; [|reflexivity].
      destruct (Z.eqb_spec (Checksum (ChecksummedContent scd))
                  (GetHeaderValue scd kChecksumOffset)) as [Hc | Hc];
        cbn [negb];
        [rewrite bool_decide_eq_false_2 by (intros Hn; exact (Hn Hc))
        |rewrite bool_decide_eq_true_2 by exact Hc]; reflexivity. }
  split; [exact Hrefine|].
  intros Hge Hm Hv Hf Hlen. rewrite Hrefine. unfold Design.phase_A.
  rewrite first_failure_cons, bool_decide_eq_false_2 by lia.
  rewrite first_failure_cons, bool_decide_eq_false_2
    by (intros Hn; exact (Hn Hm)).
  rewrite first_failure_cons, bool_decide_eq_false_2
    by (intros Hn; exact (Hn Hv)).
  rewrite first_failure_cons, bool_decide_eq_false_2
    by (intros Hn; exact (Hn Hf)).
  rewrite first_failure_cons, bool_decide_eq_true_2 by lia.
  reflexivity.
Qed.
(** *** The content hash and Phase B *)

Lemma land_below_pow2 (a n : Z) :
  0 <= n -> 0 <= a < 2 ^ n -> Z.land a (2 ^ n) = 0.
Proof.
  intros Hn Ha. apply Z.bits_inj'. intros k Hk.
  rewrite Z.land_spec, Z.bits_0, Z.pow2_bits_eqb by lia.
  destruct (Z.eqb_spec n k) as [-> | Hne]; [|apply andb_false_r].
  rewrite andb_true_r.
  destruct (Z.eq_dec a 0) as [-> | Hnz]; [apply Z.bits_0|].
  apply Z.bits_above_log2; [lia|]. apply Z.log2_lt_pow2; lia.
Qed.

Lemma lor_pow2_disjoint (a n : Z) :
  0 <= n -> 0 <= a < 2 ^ n -> Z.lor a (2 ^ n) = a + 2 ^ n.
Proof.
  intros Hn Ha. pose proof (land_below_pow2 a n Hn Ha) as Hland.
  rewrite <- Z.lxor_lor by exact Hland.
  symmetry. apply Z.add_nocarry_lxor. exact Hland.
Qed.

Lemma kModuleFlagMask_value : kModuleFlagMask = 2 ^ 31.
Proof. reflexivity. Qed.

Lemma SourceHash_sum (h : Heap) (source : Address) (chars : string)
    (origin_options : ScriptOriginOptions) :
  h !! source = Some (HString chars) ->
  Z.of_nat (String.length chars) < 2 ^ 31 ->
  SourceHash h source origin_options
  = Z.of_nat (String.length chars)
    + (if IsModule origin_options then 2 ^ 31 else 0).
Proof.
  intros Hsrc Hlen. unfold SourceHash, String_length. rewrite Hsrc.
  rewrite wrap32_small by lia.
  destruct (IsModule origin_options).
  - rewrite kModuleFlagMask_value. apply lor_pow2_disjoint; lia.
  - rewrite Z.lor_0_r. lia.
Qed.

(** C2.  For a source string whose length does not reach bit 31, the
    hash of [SourceHash] is the length OR-ed with the module flag
    shifted to bit 31, so bit 31 of the hash is the module flag and
    the low 31 bits are the length; and Phase B answers
    [kSourceMismatch] exactly when the stored header field differs
    from that hash, [kSuccess] otherwise. *)
Theorem SourceHash_is_content_hash (h : Heap) (source : Address)
    (chars : string) (origin_options : ScriptOriginOptions)
    (scd : SerializedCodeData.t)
    (Hsource : h !! source = Some (HString chars))
    (Hlength : Z.of_nat (String.length chars) < 2 ^ 31) :
  let hash := SourceHash h source origin_options in
  hash = Design.content_hash (Z.of_nat (String.length chars))
           (IsModule origin_options)
  /\ Z.testbit hash 31 = IsModule origin_options
  /\ hash mod 2 ^ 31 = Z.of_nat (String.length chars)
  /\ (SanityCheckJustSource scd hash = kSourceMismatch
      <-> GetHeaderValue scd kSourceHashOffset <> hash)
  /\ (SanityCheckJustSource scd hash = kSuccess
      <-> GetHeaderValue scd kSourceHashOffset = hash).
Proof.
  intros hash.
  pose proof (SourceHash_sum h source chars origin_options Hsource Hlength)
    as Hsum. fold hash in Hsum.
  assert (Hnonneg : 0 <= Z.of_nat (String.length chars)) by lia.
  split; [|split; [|split; [|split]]].
  - unfold hash, SourceHash, Design.content_hash, String_length.
    rewrite Hsource, wrap32_small by lia.
    destruct (IsModule origin_options); reflexivity.
  - rewrite Hsum. destruct (IsModule origin_options).
    + rewrite <- lor_pow2_disjoint by lia.
      rewrite Z.lor_spec, Z.pow2_bits_eqb, Z.eqb_refl by lia.
      apply orb_true_r.
    + rewrite Z.add_0_r.
      destruct (Z.eq_dec (Z.of_nat (String.length chars)) 0) as [-> | Hnz];
        [apply Z.bits_0|].
      apply Z.bits_above_log2; [lia|]. apply Z.log2_lt_pow2; lia.
  - rewrite Hsum. destruct (IsModule origin_options).
    + rewrite <- (Z.mul_1_l (2 ^ 31)) at 1.
      rewrite Z.mod_add by lia. apply Z.mod_small. lia.
    + rewrite Z.add_0_r. apply Z.mod_small. lia.
  - unfold SanityCheckJustSource.
    destruct (Z.eqb_spec (GetHeaderValue scd kSourceHashOffset) hash)
      as [Heq | Hne]; cbn [negb]; split; intros H;
      try discriminate; try reflexivity; try exact Hne.
    exfalso. exact (H Heq).
  - unfold SanityCheckJustSource.
    destruct (Z.eqb_spec (GetHeaderValue scd kSourceHashOffset) hash)
      as [Heq | Hne]; cbn [negb]; split; intros H;
      try discriminate; try reflexivity; try exact Heq.
    exfalso. exact (Hne H).
Qed.

(** C3.  The combined check is Phase A's result when Phase A fails
    and Phase B's result otherwise; [FromCachedData] stores that
    result for the caller, and on any failure it hands back the null
    data and the buffer with its rejected flag set (and nothing else
    changed); the flag is never cleared. *)
Theorem FromCachedData_combined_check (cached_data : AlignedCachedData.t)
    (expected_source_hash : Z) :
  let scd := of_cached_data cached_data in
  let phase_A := SanityCheckWithoutSource scd in
  let phase_B := SanityCheckJustSource scd expected_source_hash in
  let made := FromCachedData cached_data expected_source_hash in
  let rejection_result := snd made in
  SanityCheck scd expected_source_hash
  = (if bool_decide (phase_A = kSuccess) then phase_B else phase_A)
  /\ rejection_result = SanityCheck scd expected_source_hash
  /\ (rejection_result <> kSuccess ->
      (phase_A <> kSuccess \/ phase_B <> kSuccess)
      /\ AlignedCachedData.rejected (snd (fst made)) = true
      /\ snd (fst made) = AlignedCachedData.Reject cached_data
      /\ fst (fst made) = null)
  /\ (rejection_result = kSuccess ->
      phase_A = kSuccess /\ phase_B = kSuccess
      /\ snd (fst made) = cached_data /\ fst (fst made) = scd)
  /\ (AlignedCachedData.rejected cached_data = true ->
      AlignedCachedData.rejected (snd (fst made)) = true).
Proof.
  intros scd phase_A phase_B made rejection_result.
  subst rejection_result made. unfold FromCachedData, SanityCheck.
  fold scd. fold phase_A. fold phase_B.
  clearbody phase_A phase_B scd.
  destruct (decide (phase_A = kSuccess)) as [HA | HA].
  - rewrite (bool_decide_eq_true_2 _ HA). cbn [negb].
    destruct (decide (phase_B = kSuccess)) as [HB | HB].
    + rewrite (bool_decide_eq_true_2 _ HB). cbn. naive_solver.
    + rewrite (bool_decide_eq_false_2 _ HB). cbn. naive_solver.
  - rewrite (bool_decide_eq_false_2 _ HA). cbn [negb].
    rewrite (bool_decide_eq_false_2 _ HA). cbn. naive_solver.
Qed.
(** *** Tampering with a header field *)

Lemma GetHeaderValue_flip_field_bit (d : list byte) (size : Z) (offset i : Z) :
  0 <= offset -> 0 <= i < 32 ->
  offset + 4 <= Z.of_nat (List.length d) ->
  GetHeaderValue {| data_ := flip_field_bit offset i d; size_ := size |} offset
  <> GetHeaderValue {| data_ := d; size_ := size |} offset.
Proof.
  intros Hoff Hi Hlen. unfold GetHeaderValue, flip_field_bit. cbn [data_].
  set (k := Z.to_N (i mod 8)).
  assert (Hk : (k < 8)%N) by (subst k; pose proof (Z.mod_pos_bound i 8); lia).
  assert (Hq : 0 <= i / 8 < 4)
    by (split; [apply Z.div_pos; lia | apply Z.div_lt_upper_bound; lia]).
  set (q := i / 8) in *.
  destruct (lookup_lt_is_Some_2 d (Z.to_nat (offset + q))) as [b Hb]; [lia|].
  destruct (byte_at_alter_eq (flip_bit k) d (offset + q) b Hb) as [Hold Hnew].
  pose proof (flip_bit_changes k b Hk) as Hflip.
  assert (Hdiff : byte_to_Z (flip_bit k b) <> byte_to_Z b)
    by (intros E; apply Hflip, byte_to_Z_inj, E).
  change (2 ^ 8) with 256. change (2 ^ 16) with 65536.
  change (2 ^ 24) with 16777216.
  assert (Hq' : q = 0 \/ q = 1 \/ q = 2 \/ q = 3) by lia.
  destruct Hq' as [E | [E | [E | E]]]; rewrite E in *;
    rewrite ?Z.add_0_r in *;
    repeat match goal with
    | |- context [byte_at (alter ?f ?idx d) ?j] =>
        first [ rewrite Hnew
              | rewrite (byte_at_alter_ne f d idx j) by lia ]
    end;
    rewrite <- ?Hold in Hdiff; lia.
Qed.

Lemma flipped_magic_is_rejected (cached_data : AlignedCachedData.t) (i : Z) :
  0 <= i < 32 ->
  0 <= kMagicNumberOffset -> kMagicNumberOffset + 4 <= kHeaderSize ->
  kHeaderSize <= size_ (of_cached_data cached_data) ->
  GetMagicNumber (of_cached_data cached_data) = kMagicNumber ->
  SanityCheckWithoutSource
    (of_cached_data (Design.flip_magic_bit i cached_data))
  = kMagicNumberMismatch.
Proof.
  intros Hi Hoff Hin Hsize Hmagic. unfold Design.flip_magic_bit.
  set (d := AlignedCachedData.data_ cached_data).
  set (size := size_ (of_cached_data cached_data)) in *.
  assert (Hscd :
    of_cached_data
      {| AlignedCachedData.owns_data_ := AlignedCachedData.owns_data_ cached_data;
         AlignedCachedData.rejected_ := AlignedCachedData.rejected_ cached_data;
         AlignedCachedData.data_ := flip_field_bit kMagicNumberOffset i d |}
    = {| data_ := flip_field_bit kMagicNumberOffset i d; size_ := size |}).
  { unfold of_cached_data, AlignedCachedData.length, AlignedCachedData.data.
    cbn [AlignedCachedData.data_]. unfold flip_field_bit.
    rewrite length_alter. reflexivity. }
  rewrite Hscd.
  assert (Hlen : kMagicNumberOffset + 4 <= Z.of_nat (List.length d)).
  { pose proof (Z.mod_le (Z.of_nat (List.length d)) (2 ^ 32)) as Hle.
    subst size. unfold of_cached_data, AlignedCachedData.length,
      AlignedCachedData.data, wrap32 in Hsize. cbn [size_] in Hsize.
    fold d in Hsize. lia. }
  pose proof (GetHeaderValue_flip_field_bit d size kMagicNumberOffset i
                Hoff Hi Hlen) as Hne.
  change {| data_ := d; size_ := size |} with (of_cached_data cached_data)
    in Hne.
  unfold GetMagicNumber in Hmagic. rewrite Hmagic in Hne.
  unfold SanityCheckWithoutSource, GetMagicNumber. cbn [size_].
  destruct (Z.ltb_spec size kHeaderSize); [lia|].
  destruct (Z.eqb_spec
    (GetHeaderValue
       {| data_ := flip_field_bit kMagicNumberOffset i d; size_ := size |}
       kMagicNumberOffset) kMagicNumber) as [E | E]; [contradiction|].
  reflexivity.
Qed.
End IntegrityChecker.

(** ** Framing a payload *)

Lemma byte_to_Z_of_Z (z : Z) : byte_to_Z (byte_of_Z z) = z mod 256.
Proof.
  unfold byte_to_Z, byte_of_Z.
  pose proof (Z.mod_pos_bound z 256 ltac:(lia)) as Hr.
  destruct (Byte.of_N (Z.to_N (z mod 256))) as [b|] eqn:E.
  - apply Byte.to_of_N in E. cbn [from_option id]. rewrite E. lia.
  - apply Byte.of_N_None_iff in E. lia.
Qed.

Lemma byte_at_write_bytes_outside (d bs : list byte) (offset : nat) (i : Z) :
  (Z.to_nat i < offset \/ offset + List.length bs <= Z.to_nat i)%nat ->
  byte_at (write_bytes d offset bs) i = byte_at d i.
Proof.
  intros H. unfold byte_at, write_bytes.
  destruct H as [H | H];
    [rewrite list_lookup_inserts_lt by exact H
    |rewrite list_lookup_inserts_ge by exact H]; reflexivity.
Qed.

Lemma byte_at_write_bytes_inside (d bs : list byte) (offset : nat) (i : Z) :
  (offset <= Z.to_nat i < offset + List.length bs)%nat ->
  (Z.to_nat i < List.length d)%nat ->
  byte_at (write_bytes d offset bs) i
  = byte_to_Z (default Byte.x00 (bs !! (Z.to_nat i - offset)%nat)).
Proof.
  intros Hin Hlen. unfold byte_at, write_bytes.
  rewrite list_lookup_inserts by assumption. reflexivity.
Qed.

Lemma le_bytes_compose (v : Z) :
  0 <= v < 2 ^ 32 ->
  v mod 256 + 2 ^ 8 * ((v / 2 ^ 8) mod 256) + 2 ^ 16 * ((v / 2 ^ 16) mod 256)
  + 2 ^ 24 * ((v / 2 ^ 24) mod 256) = v.
Proof.
  intros Hv. change (2 ^ 8) with 256. change (2 ^ 16) with 65536.
  change (2 ^ 24) with 16777216. change (2 ^ 32) with 4294967296 in Hv.
  Z.div_mod_to_equations. lia.
Qed.

Section HeaderCodec.
Context `{L : HeaderLayout} `{F : Flags}.
Import SerializedCodeData.

Lemma GetHeaderValue_SetHeaderValue_same (scd : SerializedCodeData.t)
    (offset v : Z) :
  0 <= offset -> offset + 4 <= Z.of_nat (List.length (data_ scd)) ->
  0 <= v < 2 ^ 32 ->
  GetHeaderValue (SetHeaderValue scd offset v) offset = v.
Proof.
  intros Hoff Hlen Hv. unfold GetHeaderValue, SetHeaderValue. cbn [data_].
  rewrite !byte_at_write_bytes_inside by (cbn [List.length]; lia).
  replace (Z.to_nat offset - Z.to_nat offset)%nat with 0%nat by lia.
  replace (Z.to_nat (offset + 1) - Z.to_nat offset)%nat with 1%nat by lia.
  replace (Z.to_nat (offset + 2) - Z.to_nat offset)%nat with 2%nat by lia.
  replace (Z.to_nat (offset + 3) - Z.to_nat offset)%nat with 3%nat by lia.
  cbn [lookup list_lookup from_option id]. rewrite !byte_to_Z_of_Z.
  apply le_bytes_compose. exact Hv.
Qed.

Lemma fields_apart_sym (a b : Z) :
  Design.fields_apart a b -> Design.fields_apart b a.
Proof. unfold Design.fields_apart. lia. Qed.

Lemma GetHeaderValue_SetHeaderValue_other (scd : SerializedCodeData.t)
    (offset offset' v : Z) :
  0 <= offset -> 0 <= offset' ->
  Design.fields_apart offset offset' ->
  GetHeaderValue (SetHeaderValue scd offset' v) offset
  = GetHeaderValue scd offset.
Proof.
  intros Hoff Hoff' Hapart. unfold Design.fields_apart in Hapart.
  unfold GetHeaderValue, SetHeaderValue. cbn [data_].
  rewrite !byte_at_write_bytes_outside by (cbn [List.length]; lia).
  reflexivity.
Qed.

Lemma GetHeaderValue_write_after (scd : SerializedCodeData.t)
    (bs : list byte) (size offset start : Z) :
  0 <= offset -> offset + 4 <= start ->
  GetHeaderValue
    {| data_ := write_bytes (data_ scd) (Z.to_nat start) bs; size_ := size |}
    offset
  = GetHeaderValue scd offset.
Proof.
  intros Hoff Hstart. unfold GetHeaderValue. cbn [data_].
  rewrite !byte_at_write_bytes_outside by lia. reflexivity.
Qed.

Lemma length_SetHeaderValue (scd : SerializedCodeData.t) (offset v : Z) :
  List.length (data_ (SetHeaderValue scd offset v)) = List.length (data_ scd).
Proof. unfold SetHeaderValue, write_bytes. cbn [data_]. apply length_inserts. Qed.

Lemma ChecksummedContent_SetHeaderValue (scd : SerializedCodeData.t) (v : Z) :
  0 <= kChecksumOffset ->
  ChecksummedContent (SetHeaderValue scd kChecksumOffset v)
  = ChecksummedContent scd.
Proof.
  intros Hoff. unfold ChecksummedContent, SetHeaderValue, write_bytes.
  cbn [data_]. f_equal.
  - apply list_eq. intros i.
    destruct (decide (i < Z.to_nat kChecksumOffset)%nat) as [Hi | Hi].
    + rewrite !lookup_take_lt by exact Hi.
      apply list_lookup_inserts_lt. exact Hi.
    + rewrite !lookup_take_ge by lia. reflexivity.
  - apply list_eq. intros i. rewrite !lookup_drop.
    apply list_lookup_inserts_ge. cbn [List.length]. lia.
Qed.

Lemma from_payload_fields (payload : list byte) (source_hash : Z) :
  Design.well_formed_layout ->
  kHeaderSize + Z.of_nat (List.length payload) < 2 ^ 32 ->
  0 <= source_hash < 2 ^ 32 ->
  let entry := from_payload payload source_hash in
  size_ entry = kHeaderSize + Z.of_nat (List.length payload)
  /\ Z.of_nat (List.length (data_ entry)) = size_ entry
  /\ GetMagicNumber entry = kMagicNumber
  /\ GetHeaderValue entry kVersionHashOffset = Version_Hash
  /\ GetHeaderValue entry kSourceHashOffset = source_hash
  /\ GetHeaderValue entry kFlagHashOffset = FlagList_Hash
  /\ GetHeaderValue entry kPayloadLengthOffset = Z.of_nat (List.length payload)
  /\ GetHeaderValue entry kChecksumOffset
     = (if FLAG_verify_snapshot_checksum
        then Checksum (ChecksummedContent entry) else 0)
  /\ drop (Z.to_nat kHeaderSize) (data_ entry) = payload.
Proof.
  intros (Hfields & Hapart & Hheader & Hmagic & Hversion & Hflags & Hsum)
    Hsize Hhash.
  unfold Design.header_fields in *.
  cbn [Design.pairwise_apart] in Hapart.
  repeat match goal with
         | H : _ /\ _ |- _ => destruct H
         | H : Forall _ (_ :: _) |- _ => apply Forall_cons in H as [? H]
         | H : Forall _ [] |- _ => clear H
         | H : True |- _ => clear H
         end.
  assert (Hlen : 0 <= Z.of_nat (List.length payload)) by lia.
  assert (Hpl : wrap32 (Z.of_nat (List.length payload))
                = Z.of_nat (List.length payload)) by (apply wrap32_small; lia).
  pose (size := kHeaderSize + Z.of_nat (List.length payload)).
  assert (Hsz : wrap32 (kHeaderSize + wrap32 (Z.of_nat (List.length payload)))
                = size) by (rewrite Hpl; apply wrap32_small; lia).
  pose (s0 := {| data_ := replicate (Z.to_nat size) Byte.x00; size_ := size |}).
  pose (s1 := SetMagicNumber s0).
  pose (s2 := SetHeaderValue s1 kVersionHashOffset Version_Hash).
  pose (s3 := SetHeaderValue s2 kSourceHashOffset source_hash).
  pose (s4 := SetHeaderValue s3 kFlagHashOffset FlagList_Hash).
  pose (s5 := SetHeaderValue s4 kPayloadLengthOffset
                (Z.of_nat (List.length payload))).
  pose (s6 := {| data_ := write_bytes (data_ s5) (Z.to_nat kUnalignedHeaderSize)
                            (replicate (Z.to_nat (kHeaderSize - kUnalignedHeaderSize))
                               Byte.x00);
                 size_ := size_ s5 |}).
  pose (s7 := {| data_ := write_bytes (data_ s6) (Z.to_nat kHeaderSize) payload;
                 size_ := size_ s6 |}).
  pose (checksum := if FLAG_verify_snapshot_checksum
                    then Checksum (ChecksummedContent s7) else 0).
  assert (He : from_payload payload source_hash
               = SetHeaderValue s7 kChecksumOffset checksum).
  { unfold from_payload. rewrite Hsz, Hpl. reflexivity. }
  rewrite He. clear He.
  assert (E1 : s1 = SetHeaderValue s0 kMagicNumberOffset kMagicNumber)
    by reflexivity.
  assert (E2 : s2 = SetHeaderValue s1 kVersionHashOffset Version_Hash)
    by reflexivity.
  assert (E3 : s3 = SetHeaderValue s2 kSourceHashOffset source_hash)
    by reflexivity.
  assert (E4 : s4 = SetHeaderValue s3 kFlagHashOffset FlagList_Hash)
    by reflexivity.
  assert (E5 : s5 = SetHeaderValue s4 kPayloadLengthOffset
                      (Z.of_nat (List.length payload))) by reflexivity.
  assert (E6 : s6 = {| data_ := write_bytes (data_ s5)
                                  (Z.to_nat kUnalignedHeaderSize)
                                  (replicate
                                     (Z.to_nat (kHeaderSize - kUnalignedHeaderSize))
                                     Byte.x00);
                       size_ := size_ s5 |}) by reflexivity.
  assert (E7 : s7 = {| data_ := write_bytes (data_ s6) (Z.to_nat kHeaderSize)
                                  payload;
                       size_ := size_ s6 |}) by reflexivity.
  assert (L0 : List.length (data_ s0) = Z.to_nat size)
    by apply length_replicate.
  assert (L1 : List.length (data_ s1) = Z.to_nat size)
    by (rewrite E1, length_SetHeaderValue; exact L0).
  assert (L2 : List.length (data_ s2) = Z.to_nat size)
    by (rewrite E2, length_SetHeaderValue; exact L1).
  assert (L3 : List.length (data_ s3) = Z.to_nat size)
    by (rewrite E3, length_SetHeaderValue; exact L2).
  assert (L4 : List.length (data_ s4) = Z.to_nat size)
    by (rewrite E4, length_SetHeaderValue; exact L3).
  assert (L5 : List.length (data_ s5) = Z.to_nat size)
    by (rewrite E5, length_SetHeaderValue; exact L4).
  assert (L6 : List.length (data_ s6) = Z.to_nat size)
    by (rewrite E6; unfold write_bytes; cbn [data_];
        rewrite length_inserts; exact L5).
  assert (L7 : List.length (data_ s7) = Z.to_nat size)
    by (rewrite E7; unfold write_bytes; cbn [data_];
        rewrite length_inserts; exact L6).
  assert (Hck : 0 <= checksum < 2 ^ 32)
    by (subst checksum; destruct FLAG_verify_snapshot_checksum;
        [apply Hsum | lia]).
  assert (Z0 : size_ s7 = size) by reflexivity.
  assert (Eck : checksum = if FLAG_verify_snapshot_checksum
                           then Checksum (ChecksummedContent s7) else 0)
    by reflexivity.
  assert (Hsize0 : 0 <= size /\ kHeaderSize <= size
                   /\ size = kHeaderSize + Z.of_nat (List.length payload))
    by (unfold size; lia).
  clearbody s0 s1 s2 s3 s4 s5 s6 s7 checksum size.
  assert (Hread : forall offset,
             0 <= offset -> offset + 4 <= kUnalignedHeaderSize ->
             Design.fields_apart offset kChecksumOffset ->
             GetHeaderValue (SetHeaderValue s7 kChecksumOffset checksum) offset
             = GetHeaderValue s5 offset).
  { intros offset Hoff Hend Hap.
    rewrite GetHeaderValue_SetHeaderValue_other by assumption.
    rewrite E7, GetHeaderValue_write_after by lia.
    rewrite E6, GetHeaderValue_write_after by lia. reflexivity. }
  repeat split.
  - unfold SetHeaderValue. cbn [size_]. lia.
  - rewrite length_SetHeaderValue, L7. unfold SetHeaderValue. cbn [size_]. lia.
  - unfold GetMagicNumber. rewrite Hread by assumption.
    rewrite E5, GetHeaderValue_SetHeaderValue_other by assumption.
    rewrite E4, GetHeaderValue_SetHeaderValue_other by assumption.
    rewrite E3, GetHeaderValue_SetHeaderValue_other by assumption.
    rewrite E2, GetHeaderValue_SetHeaderValue_other by assumption.
    rewrite E1. apply GetHeaderValue_SetHeaderValue_same; lia.
  - rewrite Hread by assumption.
    rewrite E5, GetHeaderValue_SetHeaderValue_other by assumption.
    rewrite E4, GetHeaderValue_SetHeaderValue_other by assumption.
    rewrite E3, GetHeaderValue_SetHeaderValue_other by assumption.
    rewrite E2. apply GetHeaderValue_SetHeaderValue_same; lia.
  - rewrite Hread by assumption.
    rewrite E5, GetHeaderValue_SetHeaderValue_other by assumption.
    rewrite E4, GetHeaderValue_SetHeaderValue_other by assumption.
    rewrite E3. apply GetHeaderValue_SetHeaderValue_same; lia.
  - rewrite Hread by assumption.
    rewrite E5, GetHeaderValue_SetHeaderValue_other by assumption.
    rewrite E4. apply GetHeaderValue_SetHeaderValue_same; lia.
  - rewrite Hread by assumption.
    rewrite E5. apply GetHeaderValue_SetHeaderValue_same; lia.
  - rewrite GetHeaderValue_SetHeaderValue_same by lia.
    rewrite ChecksummedContent_SetHeaderValue by assumption. exact Eck.
  - apply list_eq. intros i. rewrite lookup_drop.
    unfold SetHeaderValue, write_bytes. cbn [data_].
    rewrite list_lookup_inserts_ge by (cbn [List.length]; lia).
    rewrite E7. unfold write_bytes. cbn [data_].
    destruct (decide (i < List.length payload)%nat) as [Hi | Hi].
    + rewrite list_lookup_inserts by lia. f_equal. lia.
    + rewrite list_lookup_inserts_ge by lia.
      rewrite (lookup_ge_None_2 payload) by lia.
      apply lookup_ge_None_2. lia.
Qed.
Lemma of_cached_data_GetScriptData (scd : SerializedCodeData.t) :
  Z.of_nat (List.length (data_ scd)) = size_ scd -> size_ scd < 2 ^ 32 ->
  of_cached_data (GetScriptData scd) = scd.
Proof.
  intros Hlen Hsize. destruct scd as [d n]. cbn [data_ size_] in *.
  unfold of_cached_data, GetScriptData, AlignedCachedData.length,
    AlignedCachedData.data. cbn [AlignedCachedData.data_ data_].
  rewrite Hlen, wrap32_small by lia. reflexivity.
Qed.

Lemma from_payload_phase_A (payload : list byte) (source_hash : Z) :
  Design.well_formed_layout ->
  kHeaderSize + Z.of_nat (List.length payload) < 2 ^ 32 ->
  0 <= source_hash < 2 ^ 32 ->
  SanityCheckWithoutSource (from_payload payload source_hash) = kSuccess.
Proof.
  intros Hwf Hsize Hhash.
  destruct (from_payload_fields payload source_hash Hwf Hsize Hhash)
    as (Hsz & _ & Hmagic & Hversion & _ & Hflags & Hpl & Hck & _).
  assert (Hheader : 4 <= kHeaderSize).
  { destruct Hwf as (Hfields & _ & Hheader & _).
    apply Forall_cons in Hfields as [Hfirst _]. lia. }
  unfold SanityCheckWithoutSource.
  rewrite Hmagic, Hversion, Hflags, Hpl, Hck, Hsz, !Z.eqb_refl. cbn [negb].
  replace (kHeaderSize + Z.of_nat (List.length payload) - kHeaderSize)
    with (Z.of_nat (List.length payload)) by lia.
  rewrite wrap32_small by lia.
  destruct (Z.ltb_spec (kHeaderSize + Z.of_nat (List.length payload))
              kHeaderSize) as [Hlt | _]; [lia |].
  destruct (Z.gtb_spec (Z.of_nat (List.length payload))
              (Z.of_nat (List.length payload))) as [Hgt | _]; [lia |].
  destruct FLAG_verify_snapshot_checksum;
    [rewrite Z.eqb_refl |]; reflexivity.
Qed.

Lemma from_payload_SanityCheck (payload : list byte)
    (source_hash expected : Z) :
  Design.well_formed_layout ->
  kHeaderSize + Z.of_nat (List.length payload) < 2 ^ 32 ->
  0 <= source_hash < 2 ^ 32 ->
  SanityCheck (from_payload payload source_hash) expected
  = if source_hash =? expected then kSuccess else kSourceMismatch.
Proof.
  intros Hwf Hsize Hhash.
  destruct (from_payload_fields payload source_hash Hwf Hsize Hhash)
    as (_ & _ & _ & _ & Hsource & _).
  unfold SanityCheck, SanityCheckJustSource.
  rewrite from_payload_phase_A, Hsource by assumption.
  destruct (source_hash =? expected); reflexivity.
Qed.

(** X1.  Framing round trip.  An entry framed by the encoder for a
    32-bit source hash, in a well-formed layout and of a size that
    fits 32 bits, passes phase A; it passes the combined check for the
    hash it was framed with and fails it with [kSourceMismatch] for
    every other hash; its payload reads back unchanged; and the buffer
    handed to the embedder is viewed again as the same entry, which
    [FromCachedData] accepts without rejecting the buffer. *)
Theorem from_payload_round_trip (payload : list byte) (source_hash : Z) :
  Design.well_formed_layout ->
  kHeaderSize + Z.of_nat (List.length payload) < 2 ^ 32 ->
  0 <= source_hash < 2 ^ 32 ->
  let entry := from_payload payload source_hash in
  SanityCheckWithoutSource entry = kSuccess
  /\ SanityCheck entry source_hash = kSuccess
  /\ (forall other, other <> source_hash ->
        SanityCheck entry other = kSourceMismatch)
  /\ Payload entry = payload
  /\ FromCachedData (GetScriptData entry) source_hash
     = (entry, GetScriptData entry, kSuccess).
Proof.
  intros Hwf Hsize Hhash entry.
  destruct (from_payload_fields payload source_hash Hwf Hsize Hhash)
    as (Hsz & Hlen & _ & _ & _ & _ & Hpl & _ & Hdrop).
  fold entry in Hsz, Hlen, Hpl, Hdrop.
  assert (HB : SanityCheck entry source_hash = kSuccess).
  { unfold entry. rewrite from_payload_SanityCheck by assumption.
    rewrite Z.eqb_refl. reflexivity. }
  repeat split.
  - apply from_payload_phase_A; assumption.
  - exact HB.
  - intros other Hother. unfold entry.
    rewrite from_payload_SanityCheck by assumption.
    destruct (Z.eqb_spec source_hash other) as [E | _];
      [congruence | reflexivity].
  - unfold Payload. rewrite Hpl, Hdrop, Nat2Z.id. apply firstn_all.
  - unfold FromCachedData.
    rewrite of_cached_data_GetScriptData by lia. rewrite HB. reflexivity.
Qed.

(** X2.  What the source hash tells apart.  For two sources shorter
    than 2^31 characters the hashes agree exactly when the lengths and
    the module flags agree; so an entry framed for one source passes
    the combined check against another one exactly in that case, and
    is refused with [kSourceMismatch] otherwise. *)
Theorem SourceHash_tells_length_and_module_apart (h : Heap)
    (a b : Address) (chars_a chars_b : string)
    (options_a options_b : ScriptOriginOptions) (payload : list byte) :
  h !! a = Some (HString chars_a) ->
  h !! b = Some (HString chars_b) ->
  Z.of_nat (String.length chars_a) < 2 ^ 31 ->
  Z.of_nat (String.length chars_b) < 2 ^ 31 ->
  Design.well_formed_layout ->
  kHeaderSize + Z.of_nat (List.length payload) < 2 ^ 32 ->
  let same := String.length chars_a = String.length chars_b
              /\ IsModule options_a = IsModule options_b in
  let entry := from_payload payload (SourceHash h a options_a) in
  (SourceHash h a options_a = SourceHash h b options_b <-> same)
  /\ (SanityCheck entry (SourceHash h b options_b) = kSuccess <-> same)
  /\ (SanityCheck entry (SourceHash h b options_b) = kSourceMismatch
      <-> ~ same).
Proof.
  intros Ha Hb Hla Hlb Hwf Hsize same entry.
  pose proof (SourceHash_sum h a chars_a options_a Ha Hla) as Hsa.
  pose proof (SourceHash_sum h b chars_b options_b Hb Hlb) as Hsb.
  assert (Hiff : SourceHash h a options_a = SourceHash h b options_b
                 <-> same).
  { unfold same. rewrite Hsa, Hsb. split.
    - intros H. destruct (IsModule options_a), (IsModule options_b);
        split; first [reflexivity | lia | exfalso; lia].
    - intros [H1 H2]. rewrite H1, H2. reflexivity. }
  assert (Hrange : 0 <= SourceHash h a options_a < 2 ^ 32).
  { rewrite Hsa. destruct (IsModule options_a); lia. }
  split; [exact Hiff |].
  unfold entry. rewrite from_payload_SanityCheck by assumption.
  destruct (Z.eqb_spec (SourceHash h a options_a) (SourceHash h b options_b))
    as [E | E]; split; split.
  - intros _. apply Hiff, E.
  - reflexivity.
  - discriminate.
  - intros Hn. exfalso. apply Hn, Hiff, E.
  - discriminate.
  - intros Hs. exfalso. apply E, Hiff, Hs.
  - intros _ Hs. apply E, Hiff, Hs.
  - reflexivity.
Qed.
End HeaderCodec.

(** ** Tampering with an accepted entry *)

Section Tampering.
Context `{L : HeaderLayout} `{F : Flags}.
Import SerializedCodeData.

Lemma SanityCheckWithoutSource_accepts (scd : SerializedCodeData.t) :
  SanityCheckWithoutSource scd = kSuccess
  <-> kHeaderSize <= size_ scd
      /\ GetMagicNumber scd = kMagicNumber
      /\ GetHeaderValue scd kVersionHashOffset = Version_Hash
      /\ GetHeaderValue scd kFlagHashOffset = FlagList_Hash
      /\ GetHeaderValue scd kPayloadLengthOffset
         <= wrap32 (size_ scd - kHeaderSize)
      /\ (FLAG_verify_snapshot_checksum = true ->
          Checksum (ChecksummedContent scd)
          = GetHeaderValue scd kChecksumOffset).
Proof.
  unfold SanityCheckWithoutSource.
  destruct (Z.ltb_spec (size_ scd) kHeaderSize) as [Hs | Hs];
    [split; [discriminate | lia]|].
  destruct (Z.eqb_spec (GetMagicNumber scd) kMagicNumber) as [Hm | Hm];
    cbn [negb]; [|split; [discriminate | tauto]].
  destruct (Z.eqb_spec (GetHeaderValue scd kVersionHashOffset) Version_Hash)
    as [Hv | Hv]; cbn [negb]; [|split; [discriminate | tauto]].
  destruct (Z.eqb_spec (GetHeaderValue scd kFlagHashOffset) FlagList_Hash)
    as [Hf | Hf]; cbn [negb]; [|split; [discriminate | tauto]].
  destruct (Z.gtb_spec (GetHeaderValue scd kPayloadLengthOffset)
              (wrap32 (size_ scd - kHeaderSize))) as [Hl | Hl];
    [split; [discriminate | lia]|].
  destruct FLAG_verify_snapshot_checksum;
    [|split; [intros _; repeat split; first [assumption | discriminate]
             |reflexivity]].
  destruct (Z.eqb_spec (Checksum (ChecksummedContent scd))
              (GetHeaderValue scd kChecksumOffset)) as [Hc | Hc];
    cbn [negb]; split; try discriminate; try reflexivity;
    intuition congruence.
Qed.

Lemma SanityCheck_accepts (scd : SerializedCodeData.t) (expected : Z) :
  SanityCheck scd expected = kSuccess
  <-> SanityCheckWithoutSource scd = kSuccess
      /\ GetHeaderValue scd kSourceHashOffset = expected.
Proof.
  unfold SanityCheck, SanityCheckJustSource.
  destruct (decide (SanityCheckWithoutSource scd = kSuccess)) as [HA | HA].
  - rewrite (bool_decide_eq_true_2 _ HA). cbn [negb].
    destruct (Z.eqb_spec (GetHeaderValue scd kSourceHashOffset) expected);
      cbn [negb]; split; try discriminate; intuition congruence.
  - rewrite (bool_decide_eq_false_2 _ HA). cbn [negb]. tauto.
Qed.

Lemma of_cached_data_flip_header_bit (offset i : Z)
    (cached_data : AlignedCachedData.t) :
  of_cached_data (Design.flip_header_bit offset i cached_data)
  = {| data_ := flip_field_bit offset i (data_ (of_cached_data cached_data));
       size_ := size_ (of_cached_data cached_data) |}.
Proof.
  unfold of_cached_data, Design.flip_header_bit, AlignedCachedData.length,
    AlignedCachedData.data, flip_field_bit.
  cbn [AlignedCachedData.data_ data_ size_]. rewrite length_alter.
  reflexivity.
Qed.

Lemma GetHeaderValue_flip_other (d : list byte) (size offset offset' i : Z) :
  0 <= offset -> 0 <= offset' -> 0 <= i < 32 ->
  Design.fields_apart offset offset' ->
  GetHeaderValue {| data_ := flip_field_bit offset' i d; size_ := size |} offset
  = GetHeaderValue {| data_ := d; size_ := size |} offset.
Proof.
  intros Hoff Hoff' Hi Hapart. unfold Design.fields_apart in Hapart.
  assert (Hq : 0 <= i / 8 < 4)
    by (split; [apply Z.div_pos; lia | apply Z.div_lt_upper_bound; lia]).
  unfold GetHeaderValue, flip_field_bit. cbn [data_].
  rewrite !byte_at_alter_ne by lia. reflexivity.
Qed.

Lemma ChecksummedContent_flip_checksum (d : list byte) (size i : Z) :
  0 <= kChecksumOffset -> 0 <= i < 32 ->
  ChecksummedContent
    {| data_ := flip_field_bit kChecksumOffset i d; size_ := size |}
  = ChecksummedContent {| data_ := d; size_ := size |}.
Proof.
  intros Hoff Hi.
  assert (Hq : 0 <= i / 8 < 4)
    by (split; [apply Z.div_pos; lia | apply Z.div_lt_upper_bound; lia]).
  unfold ChecksummedContent, flip_field_bit. cbn [data_].
  rewrite take_alter_ge by lia. rewrite drop_alter_lt by lia. reflexivity.
Qed.
Lemma SanityCheck_phase_A_failure (scd : SerializedCodeData.t)
    (expected : Z) (r : SerializedCodeSanityCheckResult) :
  SanityCheckWithoutSource scd = r -> r <> kSuccess ->
  SanityCheck scd expected = r.
Proof.
  intros Hr Hne. unfold SanityCheck. rewrite Hr.
  rewrite (bool_decide_eq_false_2 _ Hne). reflexivity.
Qed.

Lemma flipped_header_bit (d : list byte) (size expected i : Z) :
  Design.well_formed_layout -> 0 <= i < 32 ->
  kHeaderSize <= Z.of_nat (List.length d) ->
  SanityCheck {| data_ := d; size_ := size |} expected = kSuccess ->
  let check offset :=
    SanityCheck {| data_ := flip_field_bit offset i d; size_ := size |}
      expected in
  check kMagicNumberOffset = kMagicNumberMismatch
  /\ check kVersionHashOffset = kVersionMismatch
  /\ check kFlagHashOffset = kFlagsMismatch
  /\ (check kSourceHashOffset = kSourceMismatch
      \/ FLAG_verify_snapshot_checksum = true
         /\ check kSourceHashOffset = kChecksumMismatch)
  /\ (FLAG_verify_snapshot_checksum = true ->
      check kChecksumOffset = kChecksumMismatch)
  /\ (FLAG_verify_snapshot_checksum = false ->
      check kChecksumOffset = kSuccess).
Proof.
  intros (Hfields & Hapart & Hheader & _) Hi Hlen Hok check.
  unfold Design.header_fields in *.
  cbn [Design.pairwise_apart] in Hapart.
  repeat match goal with
         | H : _ /\ _ |- _ => destruct H
         | H : Forall _ (_ :: _) |- _ => apply Forall_cons in H as [? H]
         | H : Forall _ [] |- _ => clear H
         | H : True |- _ => clear H
         end.
  apply SanityCheck_accepts in Hok as [HA Hsource].
  apply SanityCheckWithoutSource_accepts in HA
    as (Hs & Hm & Hv & Hf & Hl & Hc).
  unfold GetMagicNumber in Hm. cbn [size_] in Hs, Hl.
  assert (Hflip : forall offset,
            0 <= offset -> offset + 4 <= kUnalignedHeaderSize ->
            GetHeaderValue
              {| data_ := flip_field_bit offset i d; size_ := size |} offset
            <> GetHeaderValue {| data_ := d; size_ := size |} offset)
    by (intros offset Hlo Hhi; apply GetHeaderValue_flip_field_bit; lia).
  assert (Hsame : forall offset offset',
            0 <= offset -> 0 <= offset' ->
            Design.fields_apart offset offset'
            \/ Design.fields_apart offset' offset ->
            GetHeaderValue
              {| data_ := flip_field_bit offset' i d; size_ := size |} offset
            = GetHeaderValue {| data_ := d; size_ := size |} offset).
  { intros offset offset' Hlo Hlo' [Hap | Hap];
      apply GetHeaderValue_flip_other;
      first [assumption | lia | apply fields_apart_sym; exact Hap]. }
  assert (Hsize : (size <? kHeaderSize) = false) by (apply Z.ltb_ge; exact Hs).
  assert (Hlength : forall v, v <= wrap32 (size - kHeaderSize) ->
                      (v >? wrap32 (size - kHeaderSize)) = false)
    by (intros v Hv'; destruct (Z.gtb_spec v (wrap32 (size - kHeaderSize)));
        [lia | reflexivity]).
  assert (HA : forall offset,
            0 <= offset -> offset + 4 <= kUnalignedHeaderSize ->
            Design.fields_apart kMagicNumberOffset offset ->
            Design.fields_apart kVersionHashOffset offset ->
            Design.fields_apart kFlagHashOffset offset ->
            Design.fields_apart kPayloadLengthOffset offset ->
            SanityCheckWithoutSource
              {| data_ := flip_field_bit offset i d; size_ := size |}
            = if FLAG_verify_snapshot_checksum
              then if negb (Checksum
                              (ChecksummedContent
                                 {| data_ := flip_field_bit offset i d;
                                    size_ := size |})
                            =? GetHeaderValue
                                 {| data_ := flip_field_bit offset i d;
                                    size_ := size |} kChecksumOffset)
                   then kChecksumMismatch else kSuccess
              else kSuccess).
  { intros offset Hlo Hhi A1 A2 A3 A4.
    unfold SanityCheckWithoutSource, GetMagicNumber. cbn [size_].
    rewrite Hsize.
    rewrite (Hsame kMagicNumberOffset offset), Hm, Z.eqb_refl by auto.
    rewrite (Hsame kVersionHashOffset offset), Hv, Z.eqb_refl by auto.
    rewrite (Hsame kFlagHashOffset offset), Hf, Z.eqb_refl by auto.
    rewrite (Hsame kPayloadLengthOffset offset) by auto.
    rewrite (Hlength _ Hl). reflexivity. }
  subst check. cbv beta.
  split; [|split; [|split; [|split; [|split]]]].
  - apply SanityCheck_phase_A_failure; [|discriminate].
    unfold SanityCheckWithoutSource, GetMagicNumber. cbn [size_].
    rewrite Hsize.
    destruct (Z.eqb_spec
                (GetHeaderValue
                   {| data_ := flip_field_bit kMagicNumberOffset i d;
                      size_ := size |} kMagicNumberOffset) kMagicNumber)
      as [E | _]; [|reflexivity].
    exfalso. apply (Hflip kMagicNumberOffset); [assumption..|]. congruence.
  - apply SanityCheck_phase_A_failure; [|discriminate].
    unfold SanityCheckWithoutSource, GetMagicNumber. cbn [size_].
    rewrite Hsize.
    rewrite (Hsame kMagicNumberOffset kVersionHashOffset), Hm, Z.eqb_refl
      by auto.
    destruct (Z.eqb_spec
                (GetHeaderValue
                   {| data_ := flip_field_bit kVersionHashOffset i d;
                      size_ := size |} kVersionHashOffset) Version_Hash)
      as [E | _]; [|reflexivity].
    exfalso. apply (Hflip kVersionHashOffset); [assumption..|]. congruence.
  - apply SanityCheck_phase_A_failure; [|discriminate].
    unfold SanityCheckWithoutSource, GetMagicNumber. cbn [size_].
    rewrite Hsize.
    rewrite (Hsame kMagicNumberOffset kFlagHashOffset), Hm, Z.eqb_refl
      by auto.
    rewrite (Hsame kVersionHashOffset kFlagHashOffset), Hv, Z.eqb_refl
      by auto.
    destruct (Z.eqb_spec
                (GetHeaderValue
                   {| data_ := flip_field_bit kFlagHashOffset i d;
                      size_ := size |} kFlagHashOffset) FlagList_Hash)
      as [E | _]; [|reflexivity].
    exfalso. apply (Hflip kFlagHashOffset); [assumption..|]. congruence.
  - pose proof (HA kSourceHashOffset) as HA'.
    unfold SanityCheck, SanityCheckJustSource.
    rewrite HA' by (first [assumption | apply fields_apart_sym; assumption]).
    assert (Hne : GetHeaderValue
                    {| data_ := flip_field_bit kSourceHashOffset i d;
                       size_ := size |} kSourceHashOffset <> expected)
      by (rewrite <- Hsource; apply Hflip; assumption).
    destruct FLAG_verify_snapshot_checksum.
    + destruct (negb _).
      * right. split; [reflexivity|].
        rewrite bool_decide_eq_false_2 by discriminate. reflexivity.
      * left. rewrite bool_decide_eq_true_2 by reflexivity. cbn [negb].
        destruct (Z.eqb_spec
                    (GetHeaderValue
                       {| data_ := flip_field_bit kSourceHashOffset i d;
                          size_ := size |} kSourceHashOffset) expected)
          as [E | _]; [contradiction | reflexivity].
    + left. rewrite bool_decide_eq_true_2 by reflexivity. cbn [negb].
      destruct (Z.eqb_spec
                  (GetHeaderValue
                     {| data_ := flip_field_bit kSourceHashOffset i d;
                        size_ := size |} kSourceHashOffset) expected)
        as [E | _]; [contradiction | reflexivity].
  - intros Hverify. apply SanityCheck_phase_A_failure; [|discriminate].
    rewrite HA by assumption. rewrite Hverify.
    rewrite ChecksummedContent_flip_checksum by first [assumption | lia].
    rewrite (Hc Hverify).
    destruct (Z.eqb_spec
                (GetHeaderValue {| data_ := d; size_ := size |}
                   kChecksumOffset)
                (GetHeaderValue
                   {| data_ := flip_field_bit kChecksumOffset i d;
                      size_ := size |} kChecksumOffset)) as [E | _];
      [|reflexivity].
    exfalso. apply (Hflip kChecksumOffset); [assumption..|]. congruence.
  - intros Hverify. apply SanityCheck_accepts. split.
    + rewrite HA by assumption. rewrite Hverify. reflexivity.
    + rewrite (Hsame kSourceHashOffset kChecksumOffset) by auto.
      exact Hsource.
Qed.

(** X12.  A flipped header bit.  For an entry that passes the combined
    check, flipping any one bit of the magic number, the version hash
    or the flags hash is refused with that field's reason; flipping a
    bit of the source hash is refused ([kSourceMismatch], or
    [kChecksumMismatch] when checksums are verified and the checksum
    notices first); flipping a bit of the checksum field is refused
    with [kChecksumMismatch] when checksums are verified and goes
    unnoticed when they are not. *)
Theorem flipped_header_bit_is_refused (cached_data : AlignedCachedData.t)
    (expected i : Z) :
  Design.well_formed_layout -> 0 <= i < 32 ->
  SanityCheck (of_cached_data cached_data) expected = kSuccess ->
  let check offset :=
    SanityCheck
      (of_cached_data (Design.flip_header_bit offset i cached_data))
      expected in
  check kMagicNumberOffset = kMagicNumberMismatch
  /\ check kVersionHashOffset = kVersionMismatch
  /\ check kFlagHashOffset = kFlagsMismatch
  /\ (check kSourceHashOffset = kSourceMismatch
      \/ FLAG_verify_snapshot_checksum = true
         /\ check kSourceHashOffset = kChecksumMismatch)
  /\ (FLAG_verify_snapshot_checksum = true ->
      check kChecksumOffset = kChecksumMismatch)
  /\ (FLAG_verify_snapshot_checksum = false ->
      check kChecksumOffset = kSuccess).
Proof.
  intros Hwf Hi Hok check. subst check. cbv beta.
  rewrite !of_cached_data_flip_header_bit.
  apply flipped_header_bit; try assumption.
  apply SanityCheck_accepts in Hok as [HA _].
  apply SanityCheckWithoutSource_accepts in HA as (Hs & _).
  unfold of_cached_data, AlignedCachedData.length, AlignedCachedData.data,
    wrap32 in Hs |- *.
  cbn [size_ data_] in Hs |- *.
  pose proof (Z.mod_le (Z.of_nat (List.length
                                    (AlignedCachedData.data_ cached_data)))
                (2 ^ 32)).
  lia.
Qed.
Lemma GetHeaderValue_insert_after (d : list byte) (size offset : Z)
    (j : nat) (b : byte) :
  0 <= offset -> offset + 4 <= Z.of_nat j ->
  GetHeaderValue {| data_ := <[j := b]> d; size_ := size |} offset
  = GetHeaderValue {| data_ := d; size_ := size |} offset.
Proof.
  intros Hoff Hj. unfold GetHeaderValue, byte_at. cbn [data_].
  rewrite !list_lookup_insert_ne by lia. reflexivity.
Qed.

(** X13.  An overwritten byte behind the header fields.  For an entry
    that passes the combined check, replacing any byte at or after the
    unaligned header size (padding or payload) changes no header
    field: the entry is refused, with [kChecksumMismatch], exactly
    when checksums are verified and the checksum of the new content
    differs from the stored one; with checksum verification off it is
    still accepted. *)
Theorem overwritten_payload_byte (cached_data : AlignedCachedData.t)
    (expected : Z) (j : nat) (b : byte) :
  Design.well_formed_layout ->
  SanityCheck (of_cached_data cached_data) expected = kSuccess ->
  kUnalignedHeaderSize <= Z.of_nat j ->
  let entry := of_cached_data cached_data in
  let tampered := of_cached_data (Design.overwrite_byte j b cached_data) in
  SanityCheck tampered expected
  = (if FLAG_verify_snapshot_checksum
        && negb (Checksum (ChecksummedContent tampered)
                 =? Checksum (ChecksummedContent entry))
     then kChecksumMismatch else kSuccess)
  /\ forall offset, In offset Design.header_fields ->
       GetHeaderValue tampered offset = GetHeaderValue entry offset.
Proof.
  intros (Hfields & _) Hok Hj entry tampered.
  assert (Htampered :
            tampered
            = {| data_ := <[j := b]> (data_ entry); size_ := size_ entry |}).
  { subst tampered entry.
    unfold of_cached_data, Design.overwrite_byte, AlignedCachedData.length,
      AlignedCachedData.data.
    cbn [AlignedCachedData.data_ data_ size_]. rewrite length_insert.
    reflexivity. }
  assert (Hentry : entry = {| data_ := data_ entry; size_ := size_ entry |})
    by (destruct entry; reflexivity).
  assert (Hsame : forall offset, In offset Design.header_fields ->
                    GetHeaderValue tampered offset
                    = GetHeaderValue entry offset).
  { intros offset Hin. rewrite Htampered, Hentry at 1. cbn [data_ size_].
    rewrite List.Forall_forall in Hfields.
    destruct (Hfields offset Hin) as [Hlo Hhi].
    rewrite Hentry at 3. apply GetHeaderValue_insert_after; lia. }
  split; [|exact Hsame].
  apply SanityCheck_accepts in Hok as [HA Hsource]. fold entry in HA, Hsource.
  apply SanityCheckWithoutSource_accepts in HA
    as (Hs & Hm & Hv & Hf & Hl & Hc).
  assert (Hsize : size_ tampered = size_ entry)
    by (rewrite Htampered; reflexivity).
  assert (HA' : SanityCheckWithoutSource tampered
                = if FLAG_verify_snapshot_checksum
                     && negb (Checksum (ChecksummedContent tampered)
                              =? Checksum (ChecksummedContent entry))
                  then kChecksumMismatch else kSuccess).
  { unfold SanityCheckWithoutSource, GetMagicNumber. rewrite Hsize.
    unfold Design.header_fields in Hsame. cbn [In] in Hsame.
    rewrite !Hsame by tauto. unfold GetMagicNumber in Hm.
    rewrite Hm, Hv, Hf, !Z.eqb_refl. cbn [negb].
    destruct (Z.ltb_spec (size_ entry) kHeaderSize); [lia|].
    destruct (Z.gtb_spec (GetHeaderValue entry kPayloadLengthOffset)
                (wrap32 (size_ entry - kHeaderSize))); [lia|].
    destruct FLAG_verify_snapshot_checksum; [|reflexivity].
    rewrite <- (Hc eq_refl). reflexivity. }
  unfold SanityCheck, SanityCheckJustSource. rewrite HA'.
  destruct (FLAG_verify_snapshot_checksum
            && negb (Checksum (ChecksummedContent tampered)
                     =? Checksum (ChecksummedContent entry))).
  - rewrite bool_decide_eq_false_2 by discriminate. reflexivity.
  - rewrite bool_decide_eq_true_2 by reflexivity. cbn [negb].
    unfold Design.header_fields in Hsame. cbn [In] in Hsame.
    rewrite Hsame by tauto. rewrite Hsource, Z.eqb_refl. reflexivity.
Qed.
Lemma GetHeaderValue_nonneg (scd : SerializedCodeData.t) (offset : Z) :
  0 <= GetHeaderValue scd offset.
Proof.
  unfold GetHeaderValue, byte_at.
  repeat match goal with
         | |- context [byte_to_Z ?b] =>
             lazymatch goal with
             | _ : 0 <= byte_to_Z b < 256 |- _ => fail
             | _ => pose proof (byte_to_Z_range b)
             end
         end.
  lia.
Qed.

(** X14.  [Payload] of an accepted entry stays inside the buffer.
    When phase A accepts a buffer (of a length that fits 32 bits), the
    payload length stored in the header is at most what follows the
    header, so [Payload] is exactly that many bytes of the buffer,
    starting at the header size: it never reaches past the end. *)
Theorem accepted_payload_within_buffer (cached_data : AlignedCachedData.t) :
  0 <= kHeaderSize ->
  AlignedCachedData.length cached_data < 2 ^ 32 ->
  SanityCheckWithoutSource (of_cached_data cached_data) = kSuccess ->
  let scd := of_cached_data cached_data in
  let stored := GetHeaderValue scd kPayloadLengthOffset in
  0 <= stored
  /\ kHeaderSize + stored <= AlignedCachedData.length cached_data
  /\ Z.of_nat (List.length (Payload scd)) = stored
  /\ forall i, (i < Z.to_nat stored)%nat ->
       Payload scd !! i
       = AlignedCachedData.data cached_data !! (Z.to_nat kHeaderSize + i)%nat
       /\ is_Some (Payload scd !! i).
Proof.
  intros Hheader Hfits HA scd stored.
  apply SanityCheckWithoutSource_accepts in HA as (Hs & _ & _ & _ & Hl & _).
  fold scd in Hs, Hl. fold stored in Hl.
  pose proof (GetHeaderValue_nonneg scd kPayloadLengthOffset) as Hnonneg.
  fold stored in Hnonneg.
  assert (Hsize : size_ scd = AlignedCachedData.length cached_data).
  { subst scd. unfold of_cached_data. cbn [size_]. apply wrap32_small.
    unfold AlignedCachedData.length in *. lia. }
  rewrite Hsize in Hs, Hl. rewrite wrap32_small in Hl by lia.
  assert (Hdata : data_ scd = AlignedCachedData.data cached_data)
    by reflexivity.
  unfold AlignedCachedData.length in Hs, Hl, Hfits |- *.
  fold (AlignedCachedData.data cached_data) in Hs, Hl, Hfits |- *.
  assert (Hlen : List.length (Payload scd) = Z.to_nat stored).
  { unfold Payload. fold stored. rewrite length_take, length_drop, Hdata.
    lia. }
  split; [exact Hnonneg|]. split; [lia|]. split; [lia|].
  intros i Hi. split.
  - unfold Payload. fold stored. rewrite lookup_take_lt by exact Hi.
    rewrite lookup_drop, Hdata. reflexivity.
  - apply lookup_lt_is_Some. lia.
Qed.
End Tampering.

(** ** Deserialization *)

Section Deserialization.
Context `{L : HeaderLayout} `{F : Flags} `{R : ReadOnlyRoots} `{RT : Runtime}.
Import SerializedCodeData CodeSerializer.

Example demo_source_length :
  String_length Demo.base_heap Demo.source = 42.
Proof. vm_compute. reflexivity. Qed.

Example demo_deserialize_succeeds :
  match @Deserialize Demo.layout Demo.flags Demo.roots Demo.runtime
          Demo.cached Demo.source Demo.origin_options Demo.isolate with
  | Returns (Some result, cached_data, w) =>
      object result = Demo.sfi
      /\ AlignedCachedData.rejected cached_data = false
      /\ Script_source (isolate_heap w) Demo.script = Demo.source
      /\ script_list w = [Demo.script]
      /\ output w = [CodeCreateEvent SCRIPT_TAG Demo.bytecode Demo.sfi
                       Demo.script_name 1 1]
  | _ => False
  end.
Proof. vm_compute. repeat split; reflexivity. Qed.

Example demo_stress_deserialize_agrees :
  match @Deserialize Demo.layout Demo.stress_flags Demo.roots Demo.runtime
          Demo.cached Demo.source Demo.origin_options Demo.isolate with
  | Returns (Some result, cached_data, w) =>
      object result = Demo.sfi
      /\ owner result = OwnedByHandleScope
      /\ AlignedCachedData.rejected cached_data = false
      /\ Script_source (isolate_heap w) Demo.script = Demo.source
      /\ script_list w = [Demo.script]
  | _ => False
  end.
Proof. vm_compute. repeat split; reflexivity. Qed.

Example demo_bad_magic_decode :
  @Deserialize Demo.layout Demo.flags Demo.roots Demo.runtime
    Demo.cached_bad_magic Demo.source Demo.origin_options Demo.isolate
  = Returns (None, AlignedCachedData.Reject Demo.cached_bad_magic,
             with_reject_samples [kMagicNumberMismatch] Demo.isolate).
Proof. vm_compute. reflexivity. Qed.
(** *** The three factory functions, by cases *)

Lemma SanityCheckJustSource_cases (scd : SerializedCodeData.t) (expected : Z) :
  SanityCheckJustSource scd expected = kSuccess
  \/ SanityCheckJustSource scd expected = kSourceMismatch.
Proof.
  unfold SanityCheckJustSource.
  destruct (GetHeaderValue scd kSourceHashOffset =? expected); cbn; auto.
Qed.

Lemma FromCachedDataWithoutSource_failure (cached_data : AlignedCachedData.t) :
  SanityCheckWithoutSource (of_cached_data cached_data) <> kSuccess ->
  FromCachedDataWithoutSource cached_data
  = (null, AlignedCachedData.Reject cached_data,
     SanityCheckWithoutSource (of_cached_data cached_data)).
Proof.
  intros H. unfold FromCachedDataWithoutSource.
  rewrite (bool_decide_eq_false_2 _ H). reflexivity.
Qed.

Lemma FromCachedDataWithoutSource_success (cached_data : AlignedCachedData.t) :
  SanityCheckWithoutSource (of_cached_data cached_data) = kSuccess ->
  FromCachedDataWithoutSource cached_data
  = (of_cached_data cached_data, cached_data, kSuccess).
Proof.
  intros H. unfold FromCachedDataWithoutSource.
  rewrite (bool_decide_eq_true_2 _ H), H. reflexivity.
Qed.

Lemma FromPartiallySanityCheckedCachedData_failure
    (cached_data : AlignedCachedData.t) (expected : Z)
    (stored : SerializedCodeSanityCheckResult) :
  stored <> kSuccess ->
  FromPartiallySanityCheckedCachedData cached_data expected stored
  = (null, AlignedCachedData.Reject cached_data, stored).
Proof.
  intros H. unfold FromPartiallySanityCheckedCachedData.
  rewrite (bool_decide_eq_false_2 _ H). reflexivity.
Qed.

Lemma FromPartiallySanityCheckedCachedData_success
    (cached_data : AlignedCachedData.t) (expected : Z) :
  FromPartiallySanityCheckedCachedData cached_data expected kSuccess
  = if bool_decide
         (SanityCheckJustSource (of_cached_data cached_data) expected
          = kSuccess)
    then (of_cached_data cached_data, cached_data, kSuccess)
    else (null, AlignedCachedData.Reject cached_data,
          SanityCheckJustSource (of_cached_data cached_data) expected).
Proof.
  unfold FromPartiallySanityCheckedCachedData.
  rewrite (bool_decide_eq_true_2 (kSuccess = kSuccess) eq_refl). cbn [negb].
  destruct (decide (SanityCheckJustSource (of_cached_data cached_data) expected
                    = kSuccess)) as [H | H].
  - rewrite (bool_decide_eq_true_2 _ H), H. reflexivity.
  - rewrite (bool_decide_eq_false_2 _ H). reflexivity.
Qed.

Lemma FromCachedData_phase_A_failure (cached_data : AlignedCachedData.t)
    (expected : Z) :
  SanityCheckWithoutSource (of_cached_data cached_data) <> kSuccess ->
  FromCachedData cached_data expected
  = (null, AlignedCachedData.Reject cached_data,
     SanityCheckWithoutSource (of_cached_data cached_data)).
Proof.
  intros H. unfold FromCachedData, SanityCheck.
  rewrite (bool_decide_eq_false_2 _ H). cbn [negb].
  rewrite (bool_decide_eq_false_2 _ H). reflexivity.
Qed.

(** *** The background path *)

Lemma StartDeserializeOffThread_failure (cached_data : AlignedCachedData.t)
    (w : Isolate) :
  SanityCheckWithoutSource (of_cached_data cached_data) <> kSuccess ->
  StartDeserializeOffThread cached_data w
  = Returns ({| maybe_result := None; scripts := [];
                persistent_handles := None;
                sanity_check_result :=
                  SanityCheckWithoutSource (of_cached_data cached_data) |},
             AlignedCachedData.Reject cached_data, w).
Proof.
  intros HA. unfold StartDeserializeOffThread.
  rewrite (FromCachedDataWithoutSource_failure _ HA).
  cbn [fst snd sanity_check_result].
  rewrite (bool_decide_eq_false_2 _ HA). reflexivity.
Qed.

Lemma report_rejection_run (reason : SerializedCodeSanityCheckResult)
    (cached_data : AlignedCachedData.t) (w : Isolate) :
  bind (when FLAG_profile_deserialization
          (emit (PrintF "[Cached code failed check]\n" [])))
    (fun _ => bind (AddSample reason)
       (fun _ => ret (@None Handle, cached_data))) w
  = Returns (None, cached_data, Design.report_rejection reason w).
Proof.
  unfold Design.report_rejection, bind, when, emit, AddSample, modify, ret.
  destruct FLAG_profile_deserialization; reflexivity.
Qed.

Lemma FinishOffThreadDeserialize_failure (data : OffThreadDeserializeData)
    (cached_data : AlignedCachedData.t) (source : Address)
    (origin_options : ScriptOriginOptions) (w : Isolate) :
  sanity_check_result data <> kSuccess ->
  FinishOffThreadDeserialize data cached_data source origin_options w
  = Returns (None, AlignedCachedData.Reject cached_data,
             Design.report_rejection (sanity_check_result data) w).
Proof.
  intros H. unfold FinishOffThreadDeserialize.
  unfold bind at 1. unfold iload, gets.
  rewrite (FromPartiallySanityCheckedCachedData_failure _ _ _ H).
  cbn [fst snd]. rewrite (bool_decide_eq_false_2 _ H). cbn [negb].
  apply report_rejection_run.
Qed.

(** C4.  [StartDeserializeOffThread] runs only the structure-only
    check: when it fails the isolate is untouched, no result and no
    script exist, and the reason is what the pending data stores; in
    every case the stored result is Phase A's.  The finishing check
    replays from the stored result: a stored failure is returned
    unchanged with the buffer rejected and the source hash unread; a
    stored success yields Phase B's result, which is [kSuccess] or
    [kSourceMismatch]; so the result differs from the stored one only
    by becoming [kSourceMismatch].  Accordingly the finishing half,
    given a stored failure, returns no result, the buffer rejected, and
    reports the stored reason. *)
Theorem off_thread_check_replays_phase_A (cached_data : AlignedCachedData.t)
    (w : Isolate) (expected_source_hash : Z)
    (stored : SerializedCodeSanityCheckResult) :
  let phase_A := SanityCheckWithoutSource (of_cached_data cached_data) in
  let finished :=
    FromPartiallySanityCheckedCachedData cached_data expected_source_hash
      stored in
  (phase_A <> kSuccess ->
   StartDeserializeOffThread cached_data w
   = Returns ({| maybe_result := None; scripts := [];
                 persistent_handles := None;
                 sanity_check_result := phase_A |},
              AlignedCachedData.Reject cached_data, w))
  /\ (forall data cached_data' w',
        StartDeserializeOffThread cached_data w
        = Returns (data, cached_data', w') ->
        sanity_check_result data = phase_A)
  /\ (stored <> kSuccess ->
      finished = (null, AlignedCachedData.Reject cached_data, stored))
  /\ (stored = kSuccess ->
      snd finished
      = SanityCheckJustSource (of_cached_data cached_data)
          expected_source_hash
      /\ (snd finished = kSuccess \/ snd finished = kSourceMismatch))
  /\ (snd finished <> stored -> snd finished = kSourceMismatch)
  /\ (forall data source origin_options,
        sanity_check_result data = stored ->
        stored <> kSuccess ->
        FinishOffThreadDeserialize data cached_data source origin_options w
        = Returns (None, AlignedCachedData.Reject cached_data,
                   Design.report_rejection stored w)).
Proof.
  intros phase_A finished.
  assert (Hfail : stored <> kSuccess ->
                  finished = (null, AlignedCachedData.Reject cached_data, stored)).
  { intros H. apply FromPartiallySanityCheckedCachedData_failure. exact H. }
  assert (Hok : stored = kSuccess ->
                snd finished
                = SanityCheckJustSource (of_cached_data cached_data)
                    expected_source_hash).
  { intros ->. subst finished.
    rewrite FromPartiallySanityCheckedCachedData_success.
    destruct (decide (SanityCheckJustSource (of_cached_data cached_data)
                        expected_source_hash = kSuccess)) as [H | H].
    - rewrite (bool_decide_eq_true_2 _ H), H. reflexivity.
    - rewrite (bool_decide_eq_false_2 _ H). reflexivity. }
  split; [|split; [|split; [|split; [|split]]]].
  - intros HA. apply StartDeserializeOffThread_failure. exact HA.
  - intros data cached_data' w'. unfold StartDeserializeOffThread.
    destruct (decide (phase_A = kSuccess)) as [HA | HA].
    + rewrite (FromCachedDataWithoutSource_success _ HA).
      cbn [fst snd sanity_check_result].
      rewrite (bool_decide_eq_true_2 (kSuccess = kSuccess) eq_refl).
      cbn [negb]. unfold bind, ret, NewPersistentMaybeHandle,
        DetachPersistentHandles, bind, ret, gets, modify.
      destruct (OffThreadObjectDeserializer_DeserializeSharedFunctionInfo
                  (of_cached_data cached_data) w) as [[[m ss] w1]|];
        [|discriminate].
      cbn [fst snd]. destruct m; intros [= <- _ _]; cbn; congruence.
    + rewrite (FromCachedDataWithoutSource_failure _ HA).
      cbn [fst snd sanity_check_result]. fold phase_A.
      rewrite (bool_decide_eq_false_2 _ HA). cbn [negb].
      intros [= <- _ _]. reflexivity.
  - exact Hfail.
  - intros Hs. split; [exact (Hok Hs)|]. rewrite (Hok Hs).
    apply SanityCheckJustSource_cases.
  - intros Hne. destruct (decide (stored = kSuccess)) as [Hs | Hs].
    + rewrite (Hok Hs) in *.
      destruct (SanityCheckJustSource_cases (of_cached_data cached_data)
                  expected_source_hash) as [H | H]; [congruence|exact H].
    + rewrite (Hfail Hs) in Hne. cbn in Hne. congruence.
  - intros data source origin_options <- Hne.
    apply FinishOffThreadDeserialize_failure. exact Hne.
Qed.

(** *** Rejection before any deserialization *)

(** C8.  When the structure-only check of a cached entry fails with
    reason [r], [Deserialize] returns no result, hands back the buffer
    rejected, and leaves an isolate that differs only by the
    diagnostic line and the sample [r] of the reject counter: the
    heap is the one it started from and neither object deserializer
    takes part in the outcome.  This covers an entry that was valid
    until one bit of its magic-number field was flipped, for which
    the reason is [kMagicNumberMismatch].  (In the stress
    configuration the background thread has to start.) *)
Theorem Deserialize_rejects_before_deserializing
    (cached_data : AlignedCachedData.t) (source : Address)
    (origin_options : ScriptOriginOptions) (w : Isolate)
    (Hthread : FLAG_stress_background_compile = true -> Thread_Start w = true) :
  (forall r,
     SanityCheckWithoutSource (of_cached_data cached_data) = r ->
     r <> kSuccess ->
     Deserialize cached_data source origin_options w
     = Returns (None, AlignedCachedData.Reject cached_data,
                Design.report_rejection r w))
  /\ (forall i,
        0 <= i < 32 ->
        0 <= kMagicNumberOffset -> kMagicNumberOffset + 4 <= kHeaderSize ->
        kHeaderSize <= size_ (of_cached_data cached_data) ->
        GetMagicNumber (of_cached_data cached_data) = kMagicNumber ->
        Deserialize (Design.flip_magic_bit i cached_data) source
          origin_options w
        = Returns (None,
                   AlignedCachedData.Reject
                     (Design.flip_magic_bit i cached_data),
                   Design.report_rejection kMagicNumberMismatch w)).
Proof.
  assert (Hgeneral : forall cd r,
     SanityCheckWithoutSource (of_cached_data cd) = r ->
     r <> kSuccess ->
     Deserialize cd source origin_options w
     = Returns (None, AlignedCachedData.Reject cd,
                Design.report_rejection r w)).
  { intros cd r Hr Hne. subst r. unfold Deserialize.
    destruct FLAG_stress_background_compile eqn:Hstress.
    - unfold bind at 1. unfold gets. rewrite (Hthread eq_refl).
      unfold bind at 1. unfold CHECK, ret at 1.
      unfold bind at 1. rewrite (StartDeserializeOffThread_failure _ _ Hne).
      cbn [fst snd].
      rewrite FinishOffThreadDeserialize_failure by exact Hne.
      reflexivity.
    - unfold bind at 1. unfold iload, gets.
      rewrite (FromCachedData_phase_A_failure _ _ Hne). cbn [fst snd].
      rewrite (bool_decide_eq_false_2 _ Hne). cbn [negb].
      apply report_rejection_run. }
  split.
  - intros r. apply Hgeneral.
  - intros i Hi Hoff Hin Hsize Hmagic. apply Hgeneral; [|discriminate].
    apply flipped_magic_is_rejected; assumption.
Qed.

(** *** The finishing half on success *)





(** *** What the finalize step leaves alone *)












(** *** Rejections after phase A *)

Lemma FromCachedData_source_mismatch (cached_data : AlignedCachedData.t)
    (expected : Z) :
  SanityCheckWithoutSource (of_cached_data cached_data) = kSuccess ->
  SanityCheckJustSource (of_cached_data cached_data) expected
  = kSourceMismatch ->
  FromCachedData cached_data expected
  = (null, AlignedCachedData.Reject cached_data, kSourceMismatch).
Proof.
  intros HA HB. unfold FromCachedData, SanityCheck. rewrite HA.
  rewrite (bool_decide_eq_true_2 (kSuccess = kSuccess) eq_refl). cbn [negb].
  rewrite HB.
  rewrite (bool_decide_eq_false_2 (kSourceMismatch = kSuccess))
    by discriminate.
  reflexivity.
Qed.

Lemma FromCachedData_success (cached_data : AlignedCachedData.t)
    (expected : Z) :
  SanityCheckWithoutSource (of_cached_data cached_data) = kSuccess ->
  SanityCheckJustSource (of_cached_data cached_data) expected = kSuccess ->
  FromCachedData cached_data expected
  = (of_cached_data cached_data, cached_data, kSuccess).
Proof.
  intros HA HB. unfold FromCachedData, SanityCheck. rewrite HA.
  rewrite (bool_decide_eq_true_2 (kSuccess = kSuccess) eq_refl). cbn [negb].
  rewrite HB.
  rewrite (bool_decide_eq_true_2 (kSuccess = kSuccess) eq_refl).
  reflexivity.
Qed.

(** X3.  A source mismatch is found at different moments on the two
    paths.  On the synchronous path an entry that passes phase A but
    was framed for another source is refused before the object
    deserializer runs: no result, the buffer rejected, the isolate
    changed only by the diagnostic line and the sample
    [kSourceMismatch].  On the background path the same entry has
    already been decoded when the finishing half compares the hashes:
    whatever the pending data holds, the finishing half returns no
    result, rejects the buffer and reports [kSourceMismatch], and the
    decoded result is dropped. *)
Theorem source_mismatch_is_rejected (cached_data : AlignedCachedData.t)
    (source : Address) (origin_options : ScriptOriginOptions) (w : Isolate) :
  SanityCheckJustSource (of_cached_data cached_data)
    (SourceHash (isolate_heap w) source origin_options) = kSourceMismatch ->
  (FLAG_stress_background_compile = false ->
   SanityCheckWithoutSource (of_cached_data cached_data) = kSuccess ->
   Deserialize cached_data source origin_options w
   = Returns (None, AlignedCachedData.Reject cached_data,
              Design.report_rejection kSourceMismatch w))
  /\ (forall data,
        sanity_check_result data = kSuccess ->
        FinishOffThreadDeserialize data cached_data source origin_options w
        = Returns (None, AlignedCachedData.Reject cached_data,
                   Design.report_rejection kSourceMismatch w)).
Proof.
  intros HB. split.
  - intros Hstress HA. unfold Deserialize. rewrite Hstress.
    unfold bind at 1. unfold iload, gets.
    rewrite (FromCachedData_source_mismatch _ _ HA HB). cbn [fst snd].
    rewrite (bool_decide_eq_false_2 (kSourceMismatch = kSuccess))
      by discriminate.
    cbn [negb]. apply report_rejection_run.
  - intros data Hstored. unfold FinishOffThreadDeserialize.
    unfold bind at 1. unfold iload, gets. rewrite Hstored.
    rewrite FromPartiallySanityCheckedCachedData_success, HB.
    rewrite (bool_decide_eq_false_2 (kSourceMismatch = kSuccess))
      by discriminate.
    cbn [fst snd].
    rewrite (bool_decide_eq_false_2 (kSourceMismatch = kSuccess))
      by discriminate.
    cbn [negb]. apply report_rejection_run.
Qed.

(** X4.  A decode that produces nothing does not reject the buffer.
    When both checks pass and the object deserializer returns no
    result, [Deserialize] returns no result with the buffer as it was
    given (not rejected) and no sample is added to the reject counter;
    the isolate is the deserializer's, plus one diagnostic line when
    profiling.  The finishing half of the background path does the
    same when the pending data holds no result. *)
Theorem decode_failure_keeps_the_buffer (cached_data : AlignedCachedData.t)
    (source : Address) (origin_options : ScriptOriginOptions)
    (w w1 : Isolate) (data : OffThreadDeserializeData) :
  SanityCheckJustSource (of_cached_data cached_data)
    (SourceHash (isolate_heap w) source origin_options) = kSuccess ->
  (FLAG_stress_background_compile = false ->
   SanityCheckWithoutSource (of_cached_data cached_data) = kSuccess ->
   ObjectDeserializer_DeserializeSharedFunctionInfo
     (of_cached_data cached_data) source w = Returns (None, w1) ->
   Deserialize cached_data source origin_options w
   = Returns (None, cached_data,
              if FLAG_profile_deserialization
              then with_output
                     (output w1 ++ [PrintF "[Deserializing failed]\n" []]) w1
              else w1))
  /\ (sanity_check_result data = kSuccess ->
      maybe_result data = None ->
      FinishOffThreadDeserialize data cached_data source origin_options w
      = Returns (None, cached_data,
                 if FLAG_profile_deserialization
                 then with_output
                        (output w ++
                         [PrintF "[Off-thread deserializing failed]\n" []]) w
                 else w)).
Proof.
  intros HB. split.
  - intros Hstress HA Hdecode. unfold Deserialize. rewrite Hstress.
    unfold bind at 1. unfold iload, gets.
    rewrite (FromCachedData_success _ _ HA HB). cbn [fst snd].
    rewrite (bool_decide_eq_true_2 (kSuccess = kSuccess) eq_refl).
    cbn [negb]. unfold bind at 1. rewrite Hdecode.
    unfold when, emit, modify, ret, bind.
    destruct FLAG_profile_deserialization; reflexivity.
  - intros Hstored Hnone. unfold FinishOffThreadDeserialize.
    unfold bind at 1. unfold iload, gets. rewrite Hstored.
    rewrite FromPartiallySanityCheckedCachedData_success.
    rewrite (bool_decide_eq_true_2 _ HB). cbn [fst snd].
    rewrite (bool_decide_eq_true_2 (kSuccess = kSuccess) eq_refl).
    cbn [negb]. rewrite Hnone.
    unfold when, emit, modify, ret, bind.
    destruct FLAG_profile_deserialization; reflexivity.
Qed.

(** X5.  [FinalizeDeserialization] is silent when nobody listens.
    With no code-event listener and no profiler, function events not
    logged, source positions not needed, and interpreter data not
    wanted (the flag off, or an ARM target), it returns with the
    isolate unchanged. *)
Theorem FinalizeDeserialization_without_listeners (result : Handle)
    (w : Isolate) :
  logger_is_listening_to_code_events w = false ->
  is_profiling w = false ->
  code_event_dispatcher_IsListeningToCodeEvents w = false ->
  FLAG_log_function_events = false ->
  negb V8_TARGET_ARCH_ARM && FLAG_interpreted_frames_native_stack = false ->
  NeedsSourcePositionsForProfiling w = false ->
  FinalizeDeserialization result w = Returns (tt, w).
Proof.
  intros Hlogger Hprofiling Hdispatcher Hevents Hdata Hpositions.
  unfold FinalizeDeserialization.
  unfold bind at 1. unfold gets at 1.
  rewrite Hlogger, Hprofiling, Hdispatcher, Hevents, Hdata. cbn [orb].
  unfold bind, when, ret, gets. rewrite Hpositions. reflexivity.
Qed.
(** *** The background half on success *)

(** X8.  What the background half hands over.  When phase A passes,
    [StartDeserializeOffThread] runs the off-thread object
    deserializer once and returns: the stored result [kSuccess]; the
    scripts the deserializer collected; the result re-homed in the
    persistent handles of the local heap; and those persistent
    handles, detached, so that the local heap is left with none.  The
    buffer is returned as it was given.  A result that exists is among
    the handles handed over. *)
Theorem StartDeserializeOffThread_success (cached_data : AlignedCachedData.t)
    (w w1 : Isolate) (local_result : option Handle) (decoded : list Handle) :
  SanityCheckWithoutSource (of_cached_data cached_data) = kSuccess ->
  OffThreadObjectDeserializer_DeserializeSharedFunctionInfo
    (of_cached_data cached_data) w = Returns (local_result, decoded, w1) ->
  let persistent h :=
    {| owner := OwnedByPersistentHandles; object := object h |} in
  let handed_over :=
    match local_result with
    | Some h =>
        Some (default [] (local_persistent_handles w1) ++ [persistent h])
    | None => local_persistent_handles w1
    end in
  StartDeserializeOffThread cached_data w
  = Returns ({| maybe_result := option_map persistent local_result;
                scripts := decoded;
                persistent_handles := handed_over;
                sanity_check_result := kSuccess |},
             cached_data,
             with_local_persistent_handles None w1)
  /\ (forall h, local_result = Some h ->
        exists handles,
          handed_over = Some handles /\ persistent h ∈ handles).
Proof.
  intros HA Hdecode persistent handed_over. split.
  - unfold StartDeserializeOffThread.
    rewrite (FromCachedDataWithoutSource_success _ HA).
    cbn [fst snd sanity_check_result].
    rewrite (bool_decide_eq_true_2 (kSuccess = kSuccess) eq_refl).
    cbn [negb]. unfold bind at 1. rewrite Hdecode. cbn [fst snd].
    subst handed_over persistent.
    unfold NewPersistentMaybeHandle, DetachPersistentHandles.
    unfold bind, gets, modify, ret.
    destruct local_result as [h|]; reflexivity.
  - intros h ->. subst handed_over. eexists. split; [reflexivity|].
    apply elem_of_app. right. constructor.
Qed.

(** *** Interpreter data for deserialized code *)

(** X9.  [CreateInterpreterDataForDeserializedCode] skips the
    functions that have no bytecode: when no function of the result's
    script has a bytecode array, it copies no trampoline, allocates
    nothing and leaves the isolate unchanged. *)
Theorem CreateInterpreterDataForDeserializedCode_skips (sfi : Handle)
    (log_code_creation : bool) (w : Isolate) :
  Forall (fun info => SFI_HasBytecodeArray (isolate_heap w) info = false)
    (ScriptIterator (isolate_heap w)
       (SFI_script (isolate_heap w) (object sfi))) ->
  CreateInterpreterDataForDeserializedCode sfi log_code_creation w
  = Returns (tt, w).
Proof.
  intros Hnone. unfold CreateInterpreterDataForDeserializedCode.
  unfold bind at 1. unfold iload at 1, gets at 1.
  unfold bind at 1. unfold iload at 1, gets at 1.
  unfold bind at 1. unfold iload at 1, gets at 1.
  induction Hnone as [|info rest Hinfo _ IH]; [reflexivity|].
  cbn [for_each]. unfold bind at 1. unfold bind at 1.
  unfold iload at 1, gets at 1. rewrite Hinfo. cbn [negb]. unfold ret at 1.
  exact IH.
Qed.
(** *** The assertions of the rejection paths *)

Lemma SanityCheckWithoutSource_not_source_mismatch
    (scd : SerializedCodeData.t) :
  SanityCheckWithoutSource scd <> kSourceMismatch.
Proof.
  unfold SanityCheckWithoutSource.
  repeat match goal with
         | |- (if ?c then _ else _) <> _ => destruct c
         end; discriminate.
Qed.

(** X15.  The debug assertions of the rejection paths cannot fire.
    Phase A never answers [kSourceMismatch], so the result stored by
    the background half is never [kSourceMismatch]; whenever one of
    the three factory functions reports a failure, the buffer it
    hands back is rejected; and when the finishing check fails on a
    stored success, the reason is [kSourceMismatch]. *)
Theorem rejection_assertions_hold (cached_data : AlignedCachedData.t)
    (w w' : Isolate) (data : OffThreadDeserializeData)
    (cached_data' : AlignedCachedData.t) :
  StartDeserializeOffThread cached_data w = Returns (data, cached_data', w') ->
  sanity_check_result data <> kSourceMismatch
  /\ (sanity_check_result data <> kSuccess ->
      AlignedCachedData.rejected cached_data' = true)
  /\ (forall expected,
        let finished :=
          FromPartiallySanityCheckedCachedData cached_data' expected
            (sanity_check_result data) in
        snd finished <> kSuccess ->
        AlignedCachedData.rejected (snd (fst finished)) = true
        /\ (sanity_check_result data = kSuccess ->
            snd finished = kSourceMismatch))
  /\ (forall cd expected,
        snd (FromCachedData cd expected) <> kSuccess ->
        AlignedCachedData.rejected (snd (fst (FromCachedData cd expected)))
        = true)
  /\ (forall cd,
        snd (FromCachedDataWithoutSource cd) <> kSuccess ->
        AlignedCachedData.rejected (snd (fst (FromCachedDataWithoutSource cd)))
        = true).
Proof.
  intros Hstart.
  assert (Hstored : sanity_check_result data
                    = SanityCheckWithoutSource (of_cached_data cached_data)
                    /\ (sanity_check_result data <> kSuccess ->
                        cached_data' = AlignedCachedData.Reject cached_data)).
  { revert Hstart. unfold StartDeserializeOffThread.
    destruct (decide (SanityCheckWithoutSource (of_cached_data cached_data)
                      = kSuccess)) as [HA | HA].
    - rewrite (FromCachedDataWithoutSource_success _ HA).
      cbn [fst snd sanity_check_result].
      rewrite (bool_decide_eq_true_2 (kSuccess = kSuccess) eq_refl).
      cbn [negb]. unfold bind, ret, NewPersistentMaybeHandle,
        DetachPersistentHandles, bind, ret, gets, modify.
      destruct (OffThreadObjectDeserializer_DeserializeSharedFunctionInfo
                  (of_cached_data cached_data) w) as [[[m ss] w1]|];
        [|discriminate].
      cbn [fst snd]. destruct m; intros [= <- _ _];
        cbn [sanity_check_result]; split; congruence.
    - rewrite (FromCachedDataWithoutSource_failure _ HA).
      cbn [fst snd sanity_check_result].
      rewrite (bool_decide_eq_false_2 _ HA). cbn [negb].
      intros [= <- <- _]. cbn [sanity_check_result]. split; reflexivity. }
  destruct Hstored as [Hstored Hrejected].
  split; [|split; [|split; [|split]]].
  - rewrite Hstored. apply SanityCheckWithoutSource_not_source_mismatch.
  - intros Hne. rewrite (Hrejected Hne). reflexivity.
  - intros expected finished Hfail. subst finished.
    destruct (decide (sanity_check_result data = kSuccess)) as [Hs | Hs].
    + rewrite Hs in *.
      rewrite FromPartiallySanityCheckedCachedData_success in *.
      destruct (decide (SanityCheckJustSource (of_cached_data cached_data')
                          expected = kSuccess)) as [HB | HB].
      * rewrite (bool_decide_eq_true_2 _ HB) in Hfail. cbn in Hfail.
        congruence.
      * rewrite (bool_decide_eq_false_2 _ HB). cbn [fst snd].
        split; [reflexivity|]. intros _.
        destruct (SanityCheckJustSource_cases (of_cached_data cached_data')
                    expected) as [E | E]; [contradiction | exact E].
    + rewrite (FromPartiallySanityCheckedCachedData_failure _ _ _ Hs).
      cbn [fst snd]. split; [reflexivity | contradiction].
  - intros cd expected. unfold FromCachedData.
    destruct (bool_decide (SanityCheck (of_cached_data cd) expected = kSuccess))
      eqn:E; cbn [negb fst snd].
    + apply bool_decide_eq_true_1 in E. contradiction.
    + reflexivity.
  - intros cd. unfold FromCachedDataWithoutSource.
    destruct (bool_decide (SanityCheckWithoutSource (of_cached_data cd)
                           = kSuccess)) eqn:E; cbn [negb fst snd].
    + apply bool_decide_eq_true_1 in E. contradiction.
    + reflexivity.
Qed.

(** *** What [FinalizeDeserialization] logs *)

Lemma concat_map_if {A B} (p : A -> bool) (f : A -> B) (l : list A) :
  concat (map (fun a => if p a then [f a] else []) l)
  = map f (List.filter p l).
Proof.
  induction l as [|a rest IH]; [reflexivity|].
  cbn [map concat List.filter]. rewrite IH. destruct (p a); reflexivity.
Qed.

Lemma logs_ret (h : Heap) : Design.logs h (ret tt) [].
Proof. intros w0 Hw0. exists w0. rewrite app_nil_r. auto. Qed.

Lemma logs_emit (h : Heap) (e : Event) : Design.logs h (emit e) [e].
Proof.
  intros w0 Hw0. eexists. split; [reflexivity|]. split; [exact Hw0|].
  reflexivity.
Qed.

Lemma logs_bind (h : Heap) (c1 c2 : M Isolate unit) (e1 e2 : list Event) :
  Design.logs h c1 e1 -> Design.logs h c2 e2 ->
  Design.logs h (bind c1 (fun _ => c2)) (e1 ++ e2).
Proof.
  intros H1 H2 w0 Hw0. destruct (H1 w0 Hw0) as (w1 & Hrun1 & Hw1 & Hout1).
  destruct (H2 w1 Hw1) as (w2 & Hrun2 & Hw2 & Hout2).
  exists w2. unfold bind. rewrite Hrun1, Hrun2, Hout2, Hout1, app_assoc.
  auto.
Qed.

Lemma logs_iload {A} (h : Heap) (f : Heap -> A) (k : A -> M Isolate unit)
    (events : list Event) :
  Design.logs h (k (f h)) events ->
  Design.logs h (bind (iload f) k) events.
Proof.
  intros Hk w0 Hw0. unfold bind, iload, gets. rewrite Hw0.
  apply Hk. exact Hw0.
Qed.

Lemma logs_when (h : Heap) (b : bool) (c : M Isolate unit)
    (events : list Event) :
  Design.logs h c events ->
  Design.logs h (when b c) (if b then events else []).
Proof. intros Hc. destruct b; [exact Hc | apply logs_ret]. Qed.

Lemma logs_for_each {A} (h : Heap) (body : A -> M Isolate unit)
    (events : A -> list Event) (l : list A) :
  (forall a, Design.logs h (body a) (events a)) ->
  Design.logs h (for_each l body) (concat (map events l)).
Proof.
  intros Hbody. induction l as [|a rest IH]; [apply logs_ret|].
  cbn [for_each map concat]. apply logs_bind; [apply Hbody | exact IH].
Qed.

Lemma logs_nothing (h : Heap) (c : M Isolate unit) :
  (forall w0, exists w1,
     c w0 = Returns (tt, w1)
     /\ isolate_heap w1 = isolate_heap w0 /\ output w1 = output w0) ->
  Design.logs h c [].
Proof.
  intros Hc w0 Hw0. destruct (Hc w0) as (w1 & Hrun & Hw1 & Hout).
  exists w1. rewrite app_nil_r, Hw1. auto.
Qed.

Lemma logs_bind_quiet (h : Heap) (c1 c2 : M Isolate unit)
    (events : list Event) :
  Design.logs h c1 [] -> Design.logs h c2 events ->
  Design.logs h (bind c1 (fun _ => c2)) events.
Proof. intros H1 H2. apply (logs_bind h c1 c2 [] events H1 H2). Qed.

Lemma logs_when_quiet (h : Heap) (b : bool) (c : M Isolate unit) :
  Design.logs h c [] -> Design.logs h (when b c) [].
Proof. intros Hc. destruct b; [exact Hc | apply logs_ret]. Qed.

(** X16.  What [FinalizeDeserialization] logs.  Without interpreter
    data to create, and with line-end and source-position helpers that
    leave the heap and the output alone, it returns with the heap
    unchanged and the output extended by: the [FunctionEvent]
    "deserialize" of the result when function events are logged, then,
    when a code-event listener or the profiler is on, one
    [CodeCreateEvent] per compiled function of the result's script, in
    iterator order, the top-level function tagged [SCRIPT_TAG] and
    the others [FUNCTION_TAG], all under the script's name (the empty
    string when the name is not a string). *)
Theorem FinalizeDeserialization_logs (result : Handle) (w : Isolate) :
  negb V8_TARGET_ARCH_ARM && FLAG_interpreted_frames_native_stack = false ->
  (forall script w0,
     exists w1,
       Script_InitLineEnds script w0 = Returns (tt, w1)
       /\ isolate_heap w1 = isolate_heap w0 /\ output w1 = output w0) ->
  (forall info w0,
     exists w1,
       SFI_EnsureSourcePositionsAvailable info w0 = Returns (tt, w1)
       /\ isolate_heap w1 = isolate_heap w0 /\ output w1 = output w0) ->
  let h := isolate_heap w in
  let script := SFI_script h (object result) in
  let name := script_name_or_empty h script in
  let log_code_creation :=
    logger_is_listening_to_code_events w || is_profiling w
    || code_event_dispatcher_IsListeningToCodeEvents w in
  exists w',
    FinalizeDeserialization result w = Returns (tt, w')
    /\ isolate_heap w' = h
    /\ output w'
       = output w
         ++ (if FLAG_log_function_events
             then [FunctionEvent "deserialize" (Script_id h script)
                     (SFI_StartPosition h (object result))
                     (SFI_EndPosition h (object result)) name]
             else [])
         ++ (if log_code_creation
             then Design.code_create_events h script name
                    (ScriptIterator h script)
             else []).
Proof.
  intros Hdata Hlines Hpositions h script name log_code_creation.
  unfold FinalizeDeserialization.
  rewrite bind_run. unfold gets at 1. fold log_code_creation.
  rewrite bind_run, Hdata. unfold when at 1, ret at 1.
  rewrite bind_run. unfold gets at 1.
  set (needs := NeedsSourcePositionsForProfiling w).
  set (function_event :=
         FunctionEvent "deserialize" (Script_id h script)
           (SFI_StartPosition h (object result))
           (SFI_EndPosition h (object result)) name).
  match goal with
  | |- exists w', ?c w = Returns (tt, w') /\ _ =>
      assert (Hlogs :
        Design.logs h c
          (((if FLAG_log_function_events then [function_event] else [])
            ++ (if log_code_creation
                then Design.code_create_events h script name
                       (ScriptIterator h script)
                else []))
           ++ []))
  end.
  { apply logs_bind.
    - destruct (log_code_creation || FLAG_log_function_events) eqn:Hany.
      + unfold when at 1. apply logs_iload. fold script.
        apply logs_iload. fold name.
        apply logs_bind.
        * apply logs_when. apply logs_iload. apply logs_emit.
        * apply logs_when.
          apply logs_bind_quiet; [apply logs_nothing, Hlines|].
          apply logs_iload. unfold Design.code_create_events.
          rewrite <- concat_map_if. apply logs_for_each.
          intros info. apply logs_iload.
          destruct (SFI_is_compiled h info); [|apply logs_ret].
          unfold when at 1.
          apply logs_bind_quiet;
            [apply logs_when_quiet, logs_nothing, Hpositions|].
          apply logs_iload, logs_iload, logs_iload, logs_emit.
      + apply orb_false_iff in Hany as [-> ->]. apply logs_ret.
    - apply logs_when_quiet. apply logs_iload. apply logs_nothing, Hlines. }
  destruct (Hlogs w eq_refl) as (w' & Hrun & Hheap & Hout).
  exists w'. split; [exact Hrun|]. split; [exact Hheap|].
  rewrite Hout, app_nil_r. reflexivity.
Qed.
(** *** What every call of [Deserialize] guarantees *)

Lemma StartDeserializeOffThread_accepted (cached_data : AlignedCachedData.t)
    (w : Isolate) :
  SanityCheckWithoutSource (of_cached_data cached_data) = kSuccess ->
  StartDeserializeOffThread cached_data w = Fatal
  \/ exists data w1,
       StartDeserializeOffThread cached_data w
       = Returns (data, cached_data, w1)
       /\ sanity_check_result data = kSuccess.
Proof.
  intros HA. unfold StartDeserializeOffThread.
  rewrite (FromCachedDataWithoutSource_success _ HA).
  cbn [fst snd sanity_check_result].
  rewrite (bool_decide_eq_true_2 (kSuccess = kSuccess) eq_refl).
  cbn [negb]. unfold bind, ret, NewPersistentMaybeHandle,
    DetachPersistentHandles, bind, ret, gets, modify.
  destruct (OffThreadObjectDeserializer_DeserializeSharedFunctionInfo
              (of_cached_data cached_data) w) as [[[m ss] w1]|];
    [|left; reflexivity].
  right. cbn [fst snd]. destruct m; eexists; eexists; split; reflexivity.
Qed.

Lemma FinishOffThreadDeserialize_outcome (data : OffThreadDeserializeData)
    (cached_data : AlignedCachedData.t) (source : Address)
    (origin_options : ScriptOriginOptions) (w : Isolate)
    (outcome : option Handle) (cached_data' : AlignedCachedData.t)
    (w' : Isolate) :
  sanity_check_result data = kSuccess ->
  FinishOffThreadDeserialize data cached_data source origin_options w
  = Returns (outcome, cached_data', w') ->
  (outcome = None
   /\ (cached_data' = cached_data
       \/ cached_data' = AlignedCachedData.Reject cached_data))
  \/ (exists result,
        outcome = Some result /\ owner result = OwnedByHandleScope
        /\ cached_data' = cached_data
        /\ SanityCheckJustSource (of_cached_data cached_data)
             (SourceHash (isolate_heap w) source origin_options) = kSuccess).
Proof.
  intros Hstored. unfold FinishOffThreadDeserialize.
  unfold bind at 1. unfold iload at 1, gets at 1. rewrite Hstored.
  rewrite FromPartiallySanityCheckedCachedData_success.
  destruct (decide (SanityCheckJustSource (of_cached_data cached_data)
                      (SourceHash (isolate_heap w) source origin_options)
                    = kSuccess)) as [HB | HB].
  - rewrite (bool_decide_eq_true_2 _ HB). cbn [fst snd].
    rewrite (bool_decide_eq_true_2 (kSuccess = kSuccess) eq_refl).
    cbn [negb]. destruct (maybe_result data) as [result|].
    + rewrite !bind_run. unfold iload at 1, gets at 1.
      rewrite !bind_run. unfold istore at 1, modify at 1.
      rewrite !bind_run. unfold gets at 1.
      rewrite !bind_run. unfold modify at 1.
      rewrite !bind_run.
      match goal with
      | |- match ?run with _ => _ end = _ -> _ =>
          destruct run as [[[] w1]|]; [|discriminate]
      end.
      rewrite bind_run.
      match goal with
      | |- match ?run with _ => _ end = _ -> _ =>
          destruct run as [[[] w2]|]; [|discriminate]
      end.
      unfold ret. intros [= <- <- _]. right.
      eexists. repeat split. exact HB.
    + unfold when, emit, modify, ret, bind.
      destruct FLAG_profile_deserialization; intros [= <- <- _];
        left; auto.
  - rewrite (bool_decide_eq_false_2 _ HB). cbn [fst snd].
    destruct (SanityCheckJustSource_cases (of_cached_data cached_data)
                (SourceHash (isolate_heap w) source origin_options))
      as [E | E]; [contradiction|].
    rewrite E.
    rewrite (bool_decide_eq_false_2 (kSourceMismatch = kSuccess))
      by discriminate.
    cbn [negb]. rewrite report_rejection_run. intros [= <- <- _].
    left. auto.
Qed.

(** X18.  What every call of [Deserialize] guarantees, on both paths.
    The buffer handed back holds the bytes it was given and is either
    untouched or rejected, so a rejected buffer stays rejected.  A
    result is returned only for a buffer that passed phase A and whose
    stored source hash is the hash of the source at the time of the
    check: on the synchronous path the heap on entry, on the stress
    path the heap that [StartDeserializeOffThread] leaves, which is the
    one [FinishOffThreadDeserialize] hashes the source in.  The buffer
    is then not rejected, and the result is owned by the caller's
    handle scope. *)
Theorem Deserialize_guarantees (cached_data : AlignedCachedData.t)
    (source : Address) (origin_options : ScriptOriginOptions)
    (w w' : Isolate) (outcome : option Handle)
    (cached_data' : AlignedCachedData.t) :
  Deserialize cached_data source origin_options w
  = Returns (outcome, cached_data', w') ->
  AlignedCachedData.data cached_data' = AlignedCachedData.data cached_data
  /\ (cached_data' = cached_data
      \/ cached_data' = AlignedCachedData.Reject cached_data)
  /\ (AlignedCachedData.rejected cached_data = true ->
      AlignedCachedData.rejected cached_data' = true)
  /\ (forall result,
        outcome = Some result ->
        cached_data' = cached_data
        /\ owner result = OwnedByHandleScope
        /\ SanityCheckWithoutSource (of_cached_data cached_data) = kSuccess
        /\ exists h,
             SanityCheckJustSource (of_cached_data cached_data)
               (SourceHash h source origin_options) = kSuccess
             /\ (FLAG_stress_background_compile = false ->
                 h = isolate_heap w)
             /\ (FLAG_stress_background_compile = true ->
                 exists data w1,
                   StartDeserializeOffThread cached_data w
                   = Returns (data, cached_data, w1)
                   /\ h = isolate_heap w1)).
Proof.
  intros Hrun.
  assert (Hcases :
    (outcome = None
     /\ (cached_data' = cached_data
         \/ cached_data' = AlignedCachedData.Reject cached_data))
    \/ (exists result h,
          outcome = Some result /\ owner result = OwnedByHandleScope
          /\ cached_data' = cached_data
          /\ SanityCheckWithoutSource (of_cached_data cached_data) = kSuccess
          /\ SanityCheckJustSource (of_cached_data cached_data)
               (SourceHash h source origin_options) = kSuccess
          /\ (FLAG_stress_background_compile = false ->
              h = isolate_heap w)
          /\ (FLAG_stress_background_compile = true ->
              exists data w1,
                StartDeserializeOffThread cached_data w
                = Returns (data, cached_data, w1)
                /\ h = isolate_heap w1))).
  { revert Hrun. unfold Deserialize.
    destruct FLAG_stress_background_compile eqn:Hstress.
    - rewrite bind_run. unfold gets at 1.
      destruct (Thread_Start w); [|discriminate].
      rewrite bind_run. unfold CHECK, ret at 1. rewrite bind_run.
      destruct (decide (SanityCheckWithoutSource (of_cached_data cached_data)
                        = kSuccess)) as [HA | HA].
      + destruct (StartDeserializeOffThread_accepted cached_data w HA)
          as [Hfatal | (data & w1 & Hstart & Hstored)];
          [rewrite Hfatal; discriminate|].
        rewrite Hstart. cbn [fst snd]. intros Hfinish.
        destruct (FinishOffThreadDeserialize_outcome _ _ _ _ _ _ _ _
                    Hstored Hfinish)
          as [Hnone | (result & -> & Howner & -> & HB)];
          [left; exact Hnone|].
        right. exists result, (isolate_heap w1).
        split; [reflexivity|]. split; [exact Howner|].
        split; [reflexivity|]. split; [exact HA|]. split; [exact HB|].
        split; [discriminate|].
        intros _. exists data, w1. split; reflexivity.
      + rewrite (StartDeserializeOffThread_failure _ _ HA). cbn [fst snd].
        rewrite FinishOffThreadDeserialize_failure by exact HA.
        intros [= <- <- _]. left. split; [reflexivity|]. right.
        reflexivity.
    - rewrite bind_run. unfold iload at 1, gets at 1.
      destruct (decide (SanityCheckWithoutSource (of_cached_data cached_data)
                        = kSuccess)) as [HA | HA].
      + destruct (SanityCheckJustSource_cases (of_cached_data cached_data)
                    (SourceHash (isolate_heap w) source origin_options))
          as [HB | HB].
        * rewrite (FromCachedData_success _ _ HA HB). cbn [fst snd].
          rewrite (bool_decide_eq_true_2 (kSuccess = kSuccess) eq_refl).
          cbn [negb]. rewrite bind_run.
          destruct (ObjectDeserializer_DeserializeSharedFunctionInfo
                      (of_cached_data cached_data) source w)
            as [[[result|] w1]|]; [| |discriminate].
          -- rewrite !bind_run.
             match goal with
             | |- match ?run with _ => _ end = _ -> _ =>
                 destruct run as [[[] w2]|]; [|discriminate]
             end.
             rewrite bind_run.
             match goal with
             | |- match ?run with _ => _ end = _ -> _ =>
                 destruct run as [[[] w3]|]; [|discriminate]
             end.
             unfold ret. intros [= <- <- _]. right.
             exists (CloseAndEscape result), (isolate_heap w).
             split; [reflexivity|]. split; [reflexivity|].
             split; [reflexivity|]. split; [exact HA|]. split; [exact HB|].
             split; [reflexivity | discriminate].
          -- unfold when, emit, modify, ret, bind.
             destruct FLAG_profile_deserialization; intros [= <- <- _];
               left; auto.
        * rewrite (FromCachedData_source_mismatch _ _ HA HB). cbn [fst snd].
          rewrite (bool_decide_eq_false_2 (kSourceMismatch = kSuccess))
            by discriminate.
          cbn [negb]. rewrite report_rejection_run. intros [= <- <- _].
          left. auto.
      + rewrite (FromCachedData_phase_A_failure _ _ HA). cbn [fst snd].
        rewrite (bool_decide_eq_false_2 _ HA). cbn [negb].
        rewrite report_rejection_run. intros [= <- <- _]. left. auto. }
  assert (Hsame : cached_data' = cached_data
                  \/ cached_data' = AlignedCachedData.Reject cached_data).
  { destruct Hcases as [[_ H] | (result & h & _ & _ & -> & _)];
      [exact H | left; reflexivity]. }
  split; [|split; [|split]].
  - destruct Hsame as [-> | ->]; reflexivity.
  - exact Hsame.
  - intros Hrejected. destruct Hsame as [-> | ->];
      [exact Hrejected | reflexivity].
  - intros result ->.
    destruct Hcases as [[Hnone _] | (result' & h & Hsome & Howner & -> & HA
                                     & HB & Hh & Hh')];
      [discriminate|].
    injection Hsome as <-. split; [reflexivity|]. split; [exact Howner|].
    split; [exact HA|]. exists h. split; [exact HB|].
    split; assumption.
Qed.
End Deserialization.

(** ** The encoder *)

Section Encoder.
Context `{SB : SerializerBase} `{R : ReadOnlyRoots} `{F : Flags}.
Import CodeSerializer.

Example demo_encode_script :
  @SerializeObjectImpl Demo.base Demo.roots Demo.flags Demo.script Demo.encoder
  = Returns (tt,
      {| heap := Demo.live_heap;
         sink_ := [Put 1 "NewObject"; PutInt 1008 "context_data";
                   PutInt 1024 "host_defined_options";
                   PutInt 0 "script_or_debug_info"; PutInt 0 "bytecode"];
         internals := [Demo.script] |}).
Proof. vm_compute. reflexivity. Qed.

Example demo_encode_function_under_debugger :
  @SerializeObjectImpl Demo.base Demo.roots Demo.flags Demo.sfi Demo.encoder
  = Returns (tt,
      {| heap := Demo.live_heap;
         sink_ := [Put 1 "NewObject"; PutInt 0 "context_data";
                   PutInt 0 "host_defined_options";
                   PutInt Demo.script "script_or_debug_info";
                   PutInt Demo.bytecode "bytecode"];
         internals := [Demo.sfi] |}).
Proof. vm_compute. reflexivity. Qed.

Example demo_encode_read_only_object :
  @SerializeObjectImpl Demo.base Demo.roots Demo.flags 2016 Demo.encoder
  = Returns (tt,
      {| heap := Demo.live_heap;
         sink_ := [Put 30 "ReadOnlyHeapRef";
                   PutInt 1 "ReadOnlyHeapRefChunkIndex";
                   PutInt 16 "ReadOnlyHeapRefChunkOffset"];
         internals := [] |}).
Proof. vm_compute. reflexivity. Qed.

Example demo_root_wins_over_read_only :
  @SerializeObjectImpl Demo.base Demo.roots Demo.flags 1008 Demo.encoder
  = Returns (tt,
      {| heap := Demo.live_heap; sink_ := [Put 2 "RootArray"];
         internals := [] |}).
Proof. vm_compute. reflexivity. Qed.
(** *** The dispatch order *)

Lemma wrap32_succ (n : Z) : wrap32 (wrap32 n + 1) = wrap32 (n + 1).
Proof. unfold wrap32. apply Zplus_mod_idemp_l. Qed.

Lemma page_loop_linear_position (chunk : Address) (pages : list Address)
    (n : Z) :
  page_loop chunk pages (wrap32 n)
  = wrap32 (n + Z.of_nat (Design.linear_position chunk pages)).
Proof.
  revert n. induction pages as [|page rest IH]; intros n; cbn.
  - rewrite Z.add_0_r. reflexivity.
  - destruct (bool_decide (chunk = page)).
    + rewrite Z.add_0_r. reflexivity.
    + rewrite wrap32_succ, IH. f_equal. lia.
Qed.

Lemma linear_position_lookup (chunk : Address) (chunks : list Address) :
  chunk ∈ chunks ->
  chunks !! Design.linear_position chunk chunks = Some chunk.
Proof.
  induction chunks as [|c rest IH]; intros Hin.
  - apply elem_of_nil in Hin. contradiction.
  - cbn. destruct (decide (chunk = c)) as [-> | Hne].
    + rewrite bool_decide_eq_true_2 by reflexivity. reflexivity.
    + rewrite bool_decide_eq_false_2 by exact Hne. cbn.
      apply IH. apply elem_of_cons in Hin as [Heq | Hin];
        [contradiction | exact Hin].
Qed.

Lemma linear_position_first (chunk : Address) (chunks : list Address)
    (j : nat) :
  (j < Design.linear_position chunk chunks)%nat ->
  chunks !! j <> Some chunk.
Proof.
  revert j. induction chunks as [|c rest IH]; intros j Hj; cbn in Hj.
  - lia.
  - destruct (decide (chunk = c)) as [-> | Hne].
    + rewrite bool_decide_eq_true_2 in Hj by reflexivity. lia.
    + rewrite bool_decide_eq_false_2 in Hj by exact Hne.
      destruct j as [|j]; cbn.
      * intros [= E]. apply Hne. symmetry. exact E.
      * apply IH. lia.
Qed.

Lemma SerializeReadOnlyObject_reference (obj : Address) (s : State) :
  SerializeReadOnlyObject obj s = Design.read_only_reference obj s.
Proof.
  unfold SerializeReadOnlyObject, Design.read_only_reference.
  destruct (ReadOnlyHeap_Contains obj); cbn [negb]; [|reflexivity].
  change 0 with (wrap32 0) at 1. rewrite page_loop_linear_position.
  unfold bind, sink_Put, sink_PutInt, modify, ret, with_sink.
  cbn [heap sink_ internals]. rewrite Z.add_0_l, <- !app_assoc.
  reflexivity.
Qed.

Lemma SerializeObjectImpl_by_priority (obj : Address) (s : State) :
  SerializeObjectImpl obj s = Design.encode_by_priority obj s.
Proof.
  unfold SerializeObjectImpl, Design.encode_by_priority,
    Design.reference_strategies.
  rewrite any_match_cons, bind_run.
  destruct (SerializeHotObject obj s) as [[[|] s1]|];
    [reflexivity | | reflexivity].
  rewrite any_match_cons, bind_run.
  destruct (SerializeRoot obj s1) as [[[|] s2]|];
    [reflexivity | | reflexivity].
  rewrite any_match_cons, bind_run.
  destruct (SerializeBackReference obj s2) as [[[|] s3]|];
    [reflexivity | | reflexivity].
  rewrite any_match_cons, bind_run, SerializeReadOnlyObject_reference.
  destruct (Design.read_only_reference obj s3) as [[[|] s4]|];
    [reflexivity | | reflexivity].
  cbn [Design.any_match]. rewrite (bind_run (ret false)). unfold ret at 2.
  unfold Design.encode_new_record, Design.illegal_kind.
  unfold bind, load, gets, CHECK, ret, abort.
  destruct (has_type CODE_TYPE (heap s4) obj); cbn [negb]; [reflexivity|].
  destruct (ElideObject s4 obj); [reflexivity|].
  destruct (IsScript (heap s4) obj); [reflexivity|].
  destruct (IsSharedFunctionInfo (heap s4) obj); [reflexivity|].
  destruct (negb V8_TARGET_ARCH_ARM && FLAG_interpreted_frames_native_stack
            && IsInterpreterData (heap s4) obj); cbn [heap];
    repeat match goal with
    | |- context [has_type ?ty ?h ?o] =>
        destruct (has_type ty h o) eqn:?; cbn [negb andb orb implb]
    | |- context [NeedsRehashing ?h ?o] =>
        destruct (NeedsRehashing h o) eqn:?; cbn [negb andb orb implb]
    | |- context [CanBeRehashed ?h ?o] =>
        destruct (CanBeRehashed h o) eqn:?; cbn [negb andb orb implb]
    end; first [reflexivity | discriminate].
Qed.

(** C6.  [SerializeObjectImpl] tries, in this order and stopping at
    the first that applies, the hot-object cache, the root table, the
    back-reference table and the read-only region, and only when none
    applies encodes the record itself (elided, transformed by kind,
    or generically).  A read-only record is written as the reference
    tag followed by the chunk index and the offset in the chunk,
    where the index is the linear position of the record's chunk in
    the ordered page list: the page at that position is the chunk,
    and no earlier page is. *)
Theorem SerializeObjectImpl_priority_order (obj : Address) (s : State) :
  SerializeObjectImpl obj s
  = bind (Design.any_match
            [SerializeHotObject obj; SerializeRoot obj;
             SerializeBackReference obj; Design.read_only_reference obj])
      (fun hit => if hit then ret tt else Design.encode_new_record obj) s
  /\ SerializeReadOnlyObject obj s
     = (if ReadOnlyHeap_Contains obj then
          let chunk := BasicMemoryChunk_FromAddress obj in
          let chunk_index :=
            wrap32 (Z.of_nat
              (Design.linear_position chunk read_only_space_pages)) in
          let chunk_offset := wrap32 (BasicMemoryChunk_Offset chunk obj) in
          Returns (true,
            with_sink
              (sink_ s ++
               [Put kReadOnlyHeapRef "ReadOnlyHeapRef";
                PutInt chunk_index "ReadOnlyHeapRefChunkIndex";
                PutInt chunk_offset "ReadOnlyHeapRefChunkOffset"]) s)
        else Returns (false, s))
  /\ (forall chunk,
        chunk ∈ read_only_space_pages ->
        read_only_space_pages
          !! Design.linear_position chunk read_only_space_pages
        = Some chunk
        /\ forall j,
             (j < Design.linear_position chunk read_only_space_pages)%nat ->
             read_only_space_pages !! j <> Some chunk).
Proof.
  split; [|split].
  - apply SerializeObjectImpl_by_priority.
  - rewrite SerializeReadOnlyObject_reference.
    unfold Design.read_only_reference.
    destruct (ReadOnlyHeap_Contains obj); reflexivity.
  - intros chunk Hin. split.
    + apply linear_position_lookup. exact Hin.
    + intros j. apply linear_position_first.
Qed.
(** *** The script arm *)

Lemma script_cleared (h : Heap) (obj : Address) (sc : Script.t) :
  h !! obj = Some (HScript sc) ->
  let h1 :=
    if negb (bool_decide (Script.context_data sc = undefined_value))
       && negb (bool_decide (Script.context_data sc = uninitialized_symbol))
    then Script_set_context_data obj undefined_value h
    else h in
  Script_host_defined_options h1 obj = Script.host_defined_options sc
  /\ Script_set_host_defined_options obj empty_fixed_array h1
     = <[obj := HScript (Design.script_as_encoded sc)]> h.
Proof.
  intros Hsc. unfold Design.script_as_encoded.
  unfold Script_host_defined_options, Script_set_host_defined_options,
    Script_set_context_data.
  pose proof (update_Script_hit (Script.with_context_data undefined_value)
                obj h sc Hsc) as Hclear.
  destruct (bool_decide (Script.context_data sc = undefined_value));
    destruct (bool_decide (Script.context_data sc = uninitialized_symbol));
    cbn [negb andb orb].
  1-3: rewrite Hsc; split; [reflexivity|];
       apply update_Script_hit; exact Hsc.
  rewrite Hclear, lookup_insert_eq. split; [reflexivity|].
  erewrite update_Script_hit by apply lookup_insert_eq.
  rewrite insert_insert_eq. reflexivity.
Qed.

Lemma SerializeScript_run (obj : Address) (s : State) (sc : Script.t) :
  heap s !! obj = Some (HScript sc) ->
  SerializeScript obj s
  = match ObjectSerializer_Serialize obj
            (with_heap (<[obj := HScript (Design.script_as_encoded sc)]> (heap s))
               s) with
    | Returns (_, s1) =>
        Returns (tt, with_heap (Design.restore_script obj sc (heap s1)) s1)
    | Fatal => Fatal
    end.
Proof.
  intros Hsc. destruct (script_cleared (heap s) obj sc Hsc) as [Hho Hmid].
  unfold SerializeScript, SerializeGeneric.
  unfold bind, load, store, gets, modify, when, ret.
  assert (Hcd : Script_context_data (heap s) obj = Script.context_data sc)
    by (unfold Script_context_data; rewrite Hsc; reflexivity).
  rewrite Hcd.
  destruct (negb (bool_decide (Script.context_data sc = undefined_value))
            && negb (bool_decide
                       (Script.context_data sc = uninitialized_symbol)));
    cbn [heap with_heap sink_ internals] in *; rewrite Hho, Hmid;
    unfold with_heap at 1; cbn [heap sink_ internals];
    match goal with
    | |- match ?run with _ => _ end = match ?run' with _ => _ end =>
        change run' with run; destruct run as [[[] s1]|]; reflexivity
    end.
Qed.
Lemma restore_script_hit (h1 : Heap) (obj : Address) (sc sc1 : Script.t) :
  h1 !! obj = Some (HScript sc1) ->
  Design.restore_script obj sc h1
  = <[obj := HScript
        (Script.with_context_data (Script.context_data sc)
           (Script.with_host_defined_options
              (Script.host_defined_options sc) sc1))]> h1.
Proof.
  intros H1. unfold Design.restore_script, Script_set_context_data,
    Script_set_host_defined_options.
  rewrite (update_Script_hit _ _ _ _ H1).
  erewrite update_Script_hit by apply lookup_insert_eq.
  apply insert_insert_eq.
Qed.

Lemma restore_script_frame (h1 : Heap) (obj o : Address) (sc : Script.t) :
  o <> obj -> Design.restore_script obj sc h1 !! o = h1 !! o.
Proof.
  intros Hne. unfold Design.restore_script, Script_set_context_data,
    Script_set_host_defined_options.
  rewrite !update_Script_frame by exact Hne. reflexivity.
Qed.

Lemma restore_script_undoes (h : Heap) (obj : Address) (sc : Script.t) :
  h !! obj = Some (HScript sc) ->
  Design.restore_script obj sc
    (<[obj := HScript (Design.script_as_encoded sc)]> h) = h.
Proof.
  intros Hsc.
  rewrite (restore_script_hit _ obj sc (Design.script_as_encoded sc))
    by apply lookup_insert_eq.
  rewrite insert_insert_eq.
  replace (Script.with_context_data _ _) with sc; [apply insert_id, Hsc|].
  unfold Design.script_as_encoded. destruct sc.
  destruct (_ || _); reflexivity.
Qed.

Lemma SerializeObjectImpl_Script_arm (obj : Address) (s s0 : State)
    (sc : Script.t) :
  Design.any_match (Design.reference_strategies obj) s = Returns (false, s0) ->
  ElideObject s0 obj = false ->
  heap s0 !! obj = Some (HScript sc) ->
  SerializeObjectImpl obj s = SerializeScript obj s0.
Proof.
  intros Hmiss Helide Hsc. rewrite SerializeObjectImpl_by_priority.
  unfold Design.encode_by_priority. rewrite bind_run, Hmiss.
  unfold Design.encode_new_record, has_type, IsScript.
  rewrite Hsc, Helide. reflexivity.
Qed.

(** C5, as amended.  When a script record reaches its arm of
    [SerializeObjectImpl] (no reference strategy applies and it is not
    elided), the generic encoder runs on a heap in which the record's
    host-defined options are the empty fixed array and its context
    data is [undefined], unless the context data was [undefined] or
    the uninitialized symbol already, which are kept; nothing else
    differs from the heap on entry.  The arm has no failure exit: the
    only way not to return is an abort inside the generic encoder,
    which happens on that heap, with the fields still replaced.
    Whenever the call returns, the two fields are written back with
    the values they had on entry: they read as before as long as the
    record is still a script, every other object is as the generic
    encoder left it, and if the generic encoder left the heap as it
    received it, the heap is exactly the heap on entry. *)
Theorem SerializeObjectImpl_restores_Script (obj : Address) (s s0 : State)
    (sc : Script.t)
    (Hmiss : Design.any_match (Design.reference_strategies obj) s
             = Returns (false, s0))
    (Helide : ElideObject s0 obj = false)
    (Hscript : heap s0 !! obj = Some (HScript sc)) :
  let encoded :=
    with_heap (<[obj := HScript (Design.script_as_encoded sc)]> (heap s0)) s0 in
  Script_host_defined_options (heap encoded) obj = empty_fixed_array
  /\ Script_context_data (heap encoded) obj
     = (if bool_decide (Script.context_data sc = undefined_value)
           || bool_decide (Script.context_data sc = uninitialized_symbol)
        then Script.context_data sc
        else undefined_value)
  /\ (forall o, o <> obj -> heap encoded !! o = heap s0 !! o)
  /\ match SerializeObjectImpl obj s with
     | Fatal => ObjectSerializer_Serialize obj encoded = Fatal
     | Returns (_, s') =>
         exists s1,
           ObjectSerializer_Serialize obj encoded = Returns (tt, s1)
           /\ sink_ s' = sink_ s1 /\ internals s' = internals s1
           /\ (IsScript (heap s1) obj = true ->
               Script_context_data (heap s') obj = Script.context_data sc
               /\ Script_host_defined_options (heap s') obj
                  = Script.host_defined_options sc)
           /\ (forall o, o <> obj -> heap s' !! o = heap s1 !! o)
           /\ (heap s1 = heap encoded -> heap s' = heap s0)
     end.
Proof.
  intros encoded.
  split; [|split; [|split]].
  { subst encoded. cbn [heap with_heap]. unfold Script_host_defined_options.
    rewrite lookup_insert_eq. unfold Design.script_as_encoded.
    destruct (_ || _); reflexivity. }
  { subst encoded. cbn [heap with_heap]. unfold Script_context_data.
    rewrite lookup_insert_eq. unfold Design.script_as_encoded.
    destruct (_ || _); reflexivity. }
  { intros o Hne. subst encoded. cbn [heap with_heap].
    apply lookup_insert_ne. intros E. apply Hne. symmetry. exact E. }
  rewrite (SerializeObjectImpl_Script_arm obj s s0 sc Hmiss Helide Hscript).
  rewrite (SerializeScript_run obj s0 sc Hscript). fold encoded.
  destruct (ObjectSerializer_Serialize obj encoded) as [[[] s1]|];
    [|reflexivity].
  exists s1. split; [reflexivity|]. split; [reflexivity|].
  split; [reflexivity|]. cbn [heap with_heap]. split; [|split].
  - unfold IsScript. intros Hkind.
    destruct (heap s1 !! obj) as [[sc1| | | | |]|] eqn:E1; try discriminate.
    rewrite (restore_script_hit _ obj sc sc1 E1).
    unfold Script_context_data, Script_host_defined_options.
    rewrite lookup_insert_eq. split; reflexivity.
  - intros o Hne. apply restore_script_frame. exact Hne.
  - intros Hsame. rewrite Hsame. subst encoded. cbn [heap with_heap].
    apply restore_script_undoes. exact Hscript.
Qed.

(** C10.  In the script arm the context data is replaced by
    [undefined] exactly when it is neither [undefined] nor the
    uninitialized symbol: a script whose context data is the
    uninitialized symbol is handed to the generic encoder with that
    value in place.  The host-defined options are replaced by the
    empty fixed array in every case.  Nothing else in the heap
    changes before the generic encoder runs. *)
Theorem SerializeObjectImpl_Script_context_data (obj : Address) (s s0 : State)
    (sc : Script.t)
    (Hmiss : Design.any_match (Design.reference_strategies obj) s
             = Returns (false, s0))
    (Helide : ElideObject s0 obj = false)
    (Hscript : heap s0 !! obj = Some (HScript sc)) :
  let encoded :=
    with_heap (<[obj := HScript (Design.script_as_encoded sc)]> (heap s0)) s0 in
  SerializeObjectImpl obj s
  = match ObjectSerializer_Serialize obj encoded with
    | Returns (_, s1) =>
        Returns (tt, with_heap (Design.restore_script obj sc (heap s1)) s1)
    | Fatal => Fatal
    end
  /\ (forall o, o <> obj -> heap encoded !! o = heap s0 !! o)
  /\ Script_host_defined_options (heap encoded) obj = empty_fixed_array
  /\ (Script.context_data sc = uninitialized_symbol ->
      Script_context_data (heap encoded) obj = uninitialized_symbol)
  /\ (Script.context_data sc = undefined_value ->
      Script_context_data (heap encoded) obj = undefined_value)
  /\ (Script.context_data sc <> undefined_value ->
      Script.context_data sc <> uninitialized_symbol ->
      Script_context_data (heap encoded) obj = undefined_value)
  /\ (Script_context_data (heap encoded) obj <> Script.context_data sc ->
      Script.context_data sc <> undefined_value
      /\ Script.context_data sc <> uninitialized_symbol).
Proof.
  intros encoded. subst encoded.
  split.
  { rewrite (SerializeObjectImpl_Script_arm obj s s0 sc Hmiss Helide Hscript).
    apply SerializeScript_run. exact Hscript. }
  cbn [heap sink_ internals with_heap]. split.
  { intros o Hne. apply lookup_insert_ne. intros E. apply Hne.
    symmetry. exact E. }
  unfold Script_host_defined_options, Script_context_data.
  rewrite lookup_insert_eq. unfold Design.script_as_encoded.
  destruct (decide (Script.context_data sc = undefined_value)) as [Hu | Hu];
    destruct (decide (Script.context_data sc = uninitialized_symbol))
      as [Hs | Hs];
    rewrite ?(bool_decide_eq_true_2 _ Hu), ?(bool_decide_eq_false_2 _ Hu),
      ?(bool_decide_eq_true_2 _ Hs), ?(bool_decide_eq_false_2 _ Hs);
    cbn; intuition congruence.
Qed.
(** *** The function-metadata arm *)





Lemma SerializeObjectImpl_SharedFunctionInfo_arm (obj : Address)
    (s s0 : State) (f : SharedFunctionInfo.t) :
  Design.any_match (Design.reference_strategies obj) s = Returns (false, s0) ->
  ElideObject s0 obj = false ->
  heap s0 !! obj = Some (HSharedFunctionInfo f) ->
  SerializeObjectImpl obj s = SerializeFunctionInfo obj s0.
Proof.
  intros Hmiss Helide Hf. rewrite SerializeObjectImpl_by_priority.
  unfold Design.encode_by_priority. rewrite bind_run, Hmiss.
  unfold Design.encode_new_record, has_type, IsScript, IsSharedFunctionInfo.
  rewrite Hf, Helide. reflexivity.
Qed.

(** *** Elision, substitution and contract violations *)

Lemma SerializeObjectImpl_new_record (obj : Address) (s s0 : State) :
  Design.any_match (Design.reference_strategies obj) s = Returns (false, s0) ->
  SerializeObjectImpl obj s = Design.encode_new_record obj s0.
Proof.
  intros Hmiss. rewrite SerializeObjectImpl_by_priority.
  unfold Design.encode_by_priority. rewrite bind_run, Hmiss. reflexivity.
Qed.

(** X6.  Contract violations stop the encoder.  For a record that no
    reference strategy accepts: a [Code] object is fatal; and a record
    that is neither elided nor a script nor a function descriptor is
    fatal when the object to encode (the bytecode array of an
    [InterpreterData] under --interpreted-frames-native-stack off ARM,
    the record itself otherwise) is a map, a global proxy, a global
    object, a function, a context, or needs a rehash it does not
    support.  None of these reaches the generic encoder. *)
Theorem SerializeObjectImpl_contract_violations (obj : Address)
    (s s0 : State) :
  Design.any_match (Design.reference_strategies obj) s = Returns (false, s0) ->
  let h := heap s0 in
  let target :=
    if negb V8_TARGET_ARCH_ARM && FLAG_interpreted_frames_native_stack
       && IsInterpreterData h obj
    then InterpreterData_bytecode_array h obj else obj in
  (has_type CODE_TYPE h obj = true -> SerializeObjectImpl obj s = Fatal)
  /\ (has_type CODE_TYPE h obj = false ->
      ElideObject s0 obj = false ->
      IsScript h obj = false ->
      IsSharedFunctionInfo h obj = false ->
      has_type MAP_TYPE h target = true
      \/ has_type JS_GLOBAL_PROXY_TYPE h target = true
      \/ has_type JS_GLOBAL_OBJECT_TYPE h target = true
      \/ has_type JS_FUNCTION_TYPE h target = true
      \/ has_type CONTEXT_TYPE h target = true
      \/ (NeedsRehashing h target = true /\ CanBeRehashed h target = false) ->
      SerializeObjectImpl obj s = Fatal).
Proof.
  intros Hmiss h target.
  rewrite (SerializeObjectImpl_new_record obj s s0 Hmiss).
  unfold Design.encode_new_record. fold h. split.
  - intros Hcode. rewrite Hcode. reflexivity.
  - intros Hcode Helide Hscript Hsfi Hbad.
    rewrite Hcode, Helide, Hscript, Hsfi. cbv zeta. fold target.
    unfold Design.illegal_kind.
    destruct Hbad as [H | [H | [H | [H | [H | [H1 H2]]]]]];
      rewrite ?H, ?H1, ?H2, ?orb_true_r; cbn [orb negb andb];
      rewrite ?orb_true_r; reflexivity.
Qed.

(** X7.  What reaches the generic encoder.  A reference-strategy hit
    ends the call whatever the record is.  Otherwise an elided record
    is replaced by [undefined], encoded through [SerializeObject]; and
    a legal record of no special kind is handed to the generic
    encoder, an [InterpreterData] being replaced by its bytecode array
    under --interpreted-frames-native-stack (never on ARM). *)
Theorem SerializeObjectImpl_elides_and_substitutes (obj : Address)
    (s s0 : State) (hit : bool) :
  Design.any_match (Design.reference_strategies obj) s = Returns (hit, s0) ->
  let h := heap s0 in
  let target :=
    if negb V8_TARGET_ARCH_ARM && FLAG_interpreted_frames_native_stack
       && IsInterpreterData h obj
    then InterpreterData_bytecode_array h obj else obj in
  (hit = true -> SerializeObjectImpl obj s = Returns (tt, s0))
  /\ (hit = false -> has_type CODE_TYPE h obj = false ->
      ElideObject s0 obj = true ->
      SerializeObjectImpl obj s = SerializeObject undefined_value s0)
  /\ (hit = false -> has_type CODE_TYPE h obj = false ->
      ElideObject s0 obj = false ->
      IsScript h obj = false ->
      IsSharedFunctionInfo h obj = false ->
      Design.illegal_kind h target = false ->
      (NeedsRehashing h target = true -> CanBeRehashed h target = true) ->
      SerializeObjectImpl obj s = SerializeGeneric target s0).
Proof.
  intros Hrun h target. split; [|split].
  - intros ->. rewrite SerializeObjectImpl_by_priority.
    unfold Design.encode_by_priority. rewrite bind_run, Hrun. reflexivity.
  - intros -> Hcode Helide.
    rewrite (SerializeObjectImpl_new_record obj s s0 Hrun).
    unfold Design.encode_new_record. fold h. rewrite Hcode, Helide.
    reflexivity.
  - intros -> Hcode Helide Hscript Hsfi Hlegal Hrehash.
    rewrite (SerializeObjectImpl_new_record obj s s0 Hrun).
    unfold Design.encode_new_record. fold h.
    rewrite Hcode, Helide, Hscript, Hsfi. cbv zeta. fold target.
    rewrite Hlegal. cbn [orb].
    destruct (NeedsRehashing h target); [|reflexivity].
    rewrite (Hrehash eq_refl). reflexivity.
Qed.
(** *** References into the read-only region *)

Lemma linear_position_bound (chunk : Address) (chunks : list Address) :
  (Design.linear_position chunk chunks <= List.length chunks)%nat.
Proof.
  induction chunks as [|c rest IH]; cbn; [lia|].
  destruct (bool_decide (chunk = c)); lia.
Qed.

Lemma linear_position_absent (chunk : Address) (chunks : list Address) :
  chunk ∉ chunks ->
  Design.linear_position chunk chunks = List.length chunks.
Proof.
  induction chunks as [|c rest IH]; intros Hout; cbn; [reflexivity|].
  apply not_elem_of_cons in Hout as [Hne Hout].
  rewrite bool_decide_eq_false_2 by exact Hne. rewrite IH by exact Hout.
  reflexivity.
Qed.

Lemma linear_position_present (chunk : Address) (chunks : list Address) :
  chunk ∈ chunks ->
  (Design.linear_position chunk chunks < List.length chunks)%nat.
Proof.
  intros Hin. apply lookup_lt_is_Some. exists chunk.
  apply linear_position_lookup. exact Hin.
Qed.

(** X11.  A read-only reference can be resolved, and only to the
    object it was written for.  For an object of the read-only region
    whose chunk is one of fewer than 2^32 pages and whose offset fits
    32 bits, [SerializeReadOnlyObject] writes the tag, an index and an
    offset such that the page at that index is the object's chunk and
    the offset is the object's; hence two objects that lie at chunk
    plus offset and get the same three items are the same object.
    When the chunk is not among the pages the loop runs off the end:
    the index written is the number of pages, which names no page. *)
Theorem SerializeReadOnlyObject_resolves (obj : Address) (s : State) :
  ReadOnlyHeap_Contains obj = true ->
  Z.of_nat (List.length read_only_space_pages) <= 2 ^ 32 ->
  let chunk := BasicMemoryChunk_FromAddress obj in
  let written index offset :=
    with_sink
      (sink_ s ++
       [Put kReadOnlyHeapRef "ReadOnlyHeapRef";
        PutInt index "ReadOnlyHeapRefChunkIndex";
        PutInt offset "ReadOnlyHeapRefChunkOffset"]) s in
  (chunk ∈ read_only_space_pages ->
   0 <= BasicMemoryChunk_Offset chunk obj < 2 ^ 32 ->
   exists index,
     SerializeReadOnlyObject obj s
     = Returns (true, written index (BasicMemoryChunk_Offset chunk obj))
     /\ 0 <= index < Z.of_nat (List.length read_only_space_pages)
     /\ read_only_space_pages !! Z.to_nat index = Some chunk
     /\ forall obj',
          ReadOnlyHeap_Contains obj' = true ->
          BasicMemoryChunk_FromAddress obj' ∈ read_only_space_pages ->
          0 <= BasicMemoryChunk_Offset (BasicMemoryChunk_FromAddress obj') obj'
            < 2 ^ 32 ->
          chunk + BasicMemoryChunk_Offset chunk obj = obj ->
          BasicMemoryChunk_FromAddress obj'
          + BasicMemoryChunk_Offset (BasicMemoryChunk_FromAddress obj') obj'
          = obj' ->
          SerializeReadOnlyObject obj' s
          = Returns (true, written index (BasicMemoryChunk_Offset chunk obj)) ->
          obj' = obj)
  /\ (chunk ∉ read_only_space_pages ->
      Z.of_nat (List.length read_only_space_pages) < 2 ^ 32 ->
      SerializeReadOnlyObject obj s
      = Returns (true,
                 written (Z.of_nat (List.length read_only_space_pages))
                   (wrap32 (BasicMemoryChunk_Offset chunk obj)))
      /\ read_only_space_pages
           !! Z.to_nat (Z.of_nat (List.length read_only_space_pages))
         = None).
Proof.
  intros Hro Hpages chunk written.
  assert (Hrun : forall o,
            ReadOnlyHeap_Contains o = true ->
            SerializeReadOnlyObject o s
            = Returns (true,
                with_sink
                  (sink_ s ++
                   [Put kReadOnlyHeapRef "ReadOnlyHeapRef";
                    PutInt
                      (wrap32 (Z.of_nat
                         (Design.linear_position
                            (BasicMemoryChunk_FromAddress o)
                            read_only_space_pages)))
                      "ReadOnlyHeapRefChunkIndex";
                    PutInt
                      (wrap32 (BasicMemoryChunk_Offset
                                 (BasicMemoryChunk_FromAddress o) o))
                      "ReadOnlyHeapRefChunkOffset"]) s)).
  { intros o Ho. rewrite SerializeReadOnlyObject_reference.
    unfold Design.read_only_reference. rewrite Ho. reflexivity. }
  assert (Hindex : forall c,
            c ∈ read_only_space_pages ->
            wrap32 (Z.of_nat (Design.linear_position c read_only_space_pages))
            = Z.of_nat (Design.linear_position c read_only_space_pages)).
  { intros c Hc. apply wrap32_small.
    pose proof (linear_position_present c read_only_space_pages Hc). lia. }
  split.
  - intros Hin Hoffset.
    exists (Z.of_nat (Design.linear_position chunk read_only_space_pages)).
    pose proof (linear_position_present chunk read_only_space_pages Hin)
      as Hlt.
    split; [|split; [|split]].
    + rewrite (Hrun obj Hro). fold chunk. rewrite (Hindex chunk Hin).
      rewrite (wrap32_small (BasicMemoryChunk_Offset chunk obj)) by lia.
      reflexivity.
    + lia.
    + rewrite Nat2Z.id. apply linear_position_lookup. exact Hin.
    + intros obj' Hro' Hin' Hoffset' Hat Hat' Hsame.
      rewrite (Hrun obj' Hro'), (Hindex _ Hin') in Hsame.
      rewrite (wrap32_small
                 (BasicMemoryChunk_Offset (BasicMemoryChunk_FromAddress obj')
                    obj')) in Hsame by lia.
      unfold written, with_sink in Hsame.
      injection Hsame as Hsink. apply app_inv_head in Hsink.
      injection Hsink as Hi Ho.
      apply Nat2Z.inj in Hi.
      pose proof (linear_position_lookup _ _ Hin') as Hl'.
      pose proof (linear_position_lookup _ _ Hin) as Hl.
      rewrite Hi in Hl'. rewrite Hl in Hl'. injection Hl' as Hchunk.
      fold chunk in Hchunk.
      transitivity
        (BasicMemoryChunk_FromAddress obj'
         + BasicMemoryChunk_Offset (BasicMemoryChunk_FromAddress obj') obj');
        [symmetry; exact Hat'|].
      rewrite Ho, <- Hchunk. exact Hat.
  - intros Hout Hfew. split.
    + rewrite (Hrun obj Hro). fold chunk.
      rewrite (linear_position_absent chunk _ Hout).
      rewrite (wrap32_small (Z.of_nat (List.length read_only_space_pages)))
        by lia.
      reflexivity.
    + rewrite Nat2Z.id. apply lookup_ge_None_2. lia.
Qed.
(** *** A function that is not being debugged *)

(** X17.  A function descriptor without debug info is never written
    to.  When no reference strategy accepts it and it is not elided,
    [SerializeObjectImpl] hands it to the generic encoder on the heap
    as it is, and writes nothing before or after. *)
Theorem SerializeObjectImpl_function_not_debugged (obj : Address)
    (s s0 : State) (f : SharedFunctionInfo.t) :
  Design.any_match (Design.reference_strategies obj) s = Returns (false, s0) ->
  ElideObject s0 obj = false ->
  heap s0 !! obj = Some (HSharedFunctionInfo f) ->
  SFI_HasDebugInfo (heap s0) obj = false ->
  SerializeObjectImpl obj s = SerializeGeneric obj s0.
Proof.
  intros Hmiss Helide Hf Hdebug.
  rewrite (SerializeObjectImpl_SharedFunctionInfo_arm obj s s0 f Hmiss Helide Hf).
  unfold SerializeFunctionInfo, ClearDebugInfo, RestoreDebugInfo.
  unfold bind at 1. unfold bind at 1. unfold load at 1, gets at 1.
  rewrite Hdebug. unfold ret at 1. cbn [fst snd].
  unfold bind, ret. destruct (SerializeGeneric obj s0) as [[[] s1]|];
    reflexivity.
Qed.
End Encoder.

(** ** Producing an entry *)

Section SerializeEntry.
Context `{L : HeaderLayout} `{F : Flags} `{R : ReadOnlyRoots} `{RT : Runtime}
  `{SB : SerializerBase} `{SR : !SerializerRun}.
Import SerializedCodeData CodeSerializer.

Lemma lor_below_pow2 (a b n : Z) :
  0 <= n -> 0 <= a < 2 ^ n -> 0 <= b < 2 ^ n -> 0 <= Z.lor a b < 2 ^ n.
Proof.
  intros Hn Ha Hb. split; [apply Z.lor_nonneg; lia|].
  destruct (Z.eq_dec (Z.lor a b) 0) as [E | E];
    [rewrite E; apply Z.pow_pos_nonneg; lia|].
  assert (Hpos : 0 < Z.lor a b)
    by (pose proof (proj2 (Z.lor_nonneg a b) (conj (proj1 Ha) (proj1 Hb)));
        lia).
  assert (Hn' : 0 < n).
  { destruct (Z.eq_dec n 0) as [-> | Hne]; [|lia].
    change (2 ^ 0) with 1 in Ha, Hb.
    assert (a = 0) as -> by lia. assert (b = 0) as -> by lia.
    exfalso. apply E. reflexivity. }
  apply Z.log2_lt_pow2; [exact Hpos|].
  rewrite Z.log2_lor by lia.
  assert (Hlog : forall c, 0 <= c < 2 ^ n -> Z.log2 c < n).
  { intros c Hc. destruct (Z.eq_dec c 0) as [-> | Hc0]; [exact Hn'|].
    apply Z.log2_lt_pow2; lia. }
  apply Z.max_lub_lt; apply Hlog; assumption.
Qed.

Lemma SourceHash_range (h : Heap) (source : Address)
    (origin_options : ScriptOriginOptions) :
  0 <= SourceHash h source origin_options < 2 ^ 32.
Proof.
  unfold SourceHash. apply lor_below_pow2; [lia | apply wrap32_range |].
  destruct (IsModule origin_options); [rewrite kModuleFlagMask_value|]; lia.
Qed.

Lemma Deserialize_accepted (cached_data : AlignedCachedData.t)
    (scd : SerializedCodeData.t) (source : Address)
    (origin_options : ScriptOriginOptions) (w : Isolate) :
  FLAG_stress_background_compile = false ->
  FromCachedData cached_data
    (SourceHash (isolate_heap w) source origin_options)
  = (scd, cached_data, kSuccess) ->
  Deserialize cached_data source origin_options w
  = Design.decode_accepted scd cached_data source w.
Proof.
  intros Hstress Hchecked. unfold Deserialize, Design.decode_accepted.
  rewrite Hstress. unfold bind at 1. unfold iload, gets.
  rewrite Hchecked. cbn [fst snd].
  rewrite (bool_decide_eq_true_2 (kSuccess = kSuccess) eq_refl).
  cbn [negb]. unfold bind at 1.
  destruct (ObjectDeserializer_DeserializeSharedFunctionInfo scd source w)
    as [[[result|] w1]|]; [| |reflexivity];
    unfold when, emit, modify, ret, bind;
    destruct FLAG_profile_deserialization; reflexivity.
Qed.

Lemma trace_lines_run (script : Address) (w : Isolate) :
  when FLAG_trace_serializer
    (bind (emit (PrintF "[Serializing from" []))
       (fun _ => bind (iload (fun h => Script_name h script))
          (fun name => bind (ShortPrint name)
             (fun _ => emit (PrintF "]\n" []))))) w
  = Returns (tt, Design.traced script w).
Proof.
  unfold Design.traced, when. destruct FLAG_trace_serializer; [|reflexivity].
  unfold ShortPrint, emit, iload, bind, modify, gets, with_output.
  cbn [isolate_heap output script_list code_cache_reject_reason
       local_persistent_handles logger_is_listening_to_code_events
       is_profiling code_event_dispatcher_IsListeningToCodeEvents
       NeedsSourcePositionsForProfiling].
  rewrite <- !app_assoc. reflexivity.
Qed.

Lemma traced_heap (script : Address) (w : Isolate) :
  isolate_heap (Design.traced script w) = isolate_heap w.
Proof. unfold Design.traced. destruct FLAG_trace_serializer; reflexivity. Qed.

Lemma Serialize_run (info : Address) (w : Isolate) :
  let script := SFI_script (isolate_heap w) info in
  Serialize info w
  = (let w0 := Design.traced script w in
     if V8_ENABLE_WEBASSEMBLY
        && Script_ContainsAsmModule (isolate_heap w) script
     then Returns (None, w0)
     else
       let source := Script_source (isolate_heap w) script in
       let source_hash :=
         SourceHash (isolate_heap w) source
           (Script_origin_options (isolate_heap w) script) in
       match with_CodeSerializer
               (bind (AddAttachedReference source)
                  (fun _ => SerializeSharedFunctionInfo source_hash info))
               w0 with
       | Returns (cached_data, w1) =>
           Returns
             (Some {| ScriptCompiler.data := AlignedCachedData.data cached_data;
                      ScriptCompiler.length :=
                        AlignedCachedData.length cached_data;
                      ScriptCompiler.buffer_policy :=
                        ScriptCompiler.BufferOwned |},
              if FLAG_profile_deserialization
              then with_output
                     (output w1 ++
                      [PrintF "[Serializing to %d bytes took %0.3f ms]\n"
                         [AlignedCachedData.length cached_data]]) w1
              else w1)
       | Fatal => Fatal
       end).
Proof.
  intros script. unfold Serialize.
  unfold bind at 1. unfold iload at 1, gets at 1. fold script.
  unfold bind at 1. rewrite trace_lines_run.
  unfold bind at 1. unfold iload at 1, gets at 1. rewrite traced_heap.
  cbv zeta.
  destruct (V8_ENABLE_WEBASSEMBLY
            && Script_ContainsAsmModule (isolate_heap w) script);
    [reflexivity|].
  unfold bind at 1. unfold iload at 1, gets at 1. rewrite traced_heap.
  unfold bind at 1. unfold iload at 1, gets at 1. rewrite traced_heap.
  unfold bind at 1.
  match goal with
  | |- match ?run with _ => _ end = _ =>
      destruct run as [[cached_data w1]|]; [|reflexivity]
  end.
  unfold when, emit, modify, ret, bind.
  destruct FLAG_profile_deserialization; reflexivity.
Qed.
Lemma SerializeSharedFunctionInfo_run (source : Address) (source_hash : Z)
    (info : Address) (s0 : State) :
  bind (AddAttachedReference source)
    (fun _ => SerializeSharedFunctionInfo source_hash info) s0
  = match Design.one_pass source info s0 with
    | Returns (_, s1) =>
        Returns (GetScriptData (from_payload (sink_data (sink_ s1)) source_hash),
                 s1)
    | Fatal => Fatal
    end.
Proof.
  unfold SerializeSharedFunctionInfo, Design.one_pass, bind, gets, ret.
  destruct (AddAttachedReference source s0) as [[[] s]|]; [|reflexivity].
  destruct (VisitRootPointer info s) as [[[] s']|]; [|reflexivity].
  destruct (SerializeDeferredObjects s') as [[[] s'']|]; [|reflexivity].
  destruct (Pad s'') as [[[] s1]|]; reflexivity.
Qed.

Lemma of_cached_data_make (aligned : bool) (scd : SerializedCodeData.t) :
  Z.of_nat (List.length (data_ scd)) = size_ scd -> size_ scd < 2 ^ 32 ->
  of_cached_data (AlignedCachedData.make aligned (data_ scd)) = scd.
Proof.
  intros Hlen Hsize. destruct scd as [d n]. cbn [data_ size_] in *.
  unfold of_cached_data, AlignedCachedData.make, AlignedCachedData.length,
    AlignedCachedData.data. cbn [AlignedCachedData.data_ data_].
  rewrite Hlen, wrap32_small by lia. reflexivity.
Qed.

(** X10.  An entry produced by [Serialize] is accepted for the source
    it was produced from.  [Serialize] gives up on a script with an asm
    module (no pass runs, nothing is returned) and aborts when the
    pass aborts.  Otherwise what it returns is the sink of the one
    pass, framed: an owned buffer of header size plus payload size
    (an [int], so below 2^31) that, wrapped again as cached data
    (aligned or not), passes both
    checks for the hash of the script's source, is refused with
    [kSourceMismatch] for any other hash, reads back the sink's bytes
    as its payload, and is handed with that payload to the object
    deserializer by [Deserialize]. *)
Theorem Serialize_then_Deserialize (info : Address) (w : Isolate) :
  Design.well_formed_layout ->
  let h := isolate_heap w in
  let script := SFI_script h info in
  let source := Script_source h script in
  let hash := SourceHash h source (Script_origin_options h script) in
  let s0 := {| heap := h; sink_ := []; internals := Serializer_internals |} in
  let asm := V8_ENABLE_WEBASSEMBLY && Script_ContainsAsmModule h script in
  (asm = true -> Serialize info w = Returns (None, Design.traced script w))
  /\ (asm = false -> Design.one_pass source info s0 = Fatal ->
      Serialize info w = Fatal)
  /\ (asm = false ->
      forall s1,
        Design.one_pass source info s0 = Returns (tt, s1) ->
        let payload := sink_data (sink_ s1) in
        kHeaderSize + Z.of_nat (List.length payload) < 2 ^ 31 ->
        exists cd w',
          Serialize info w = Returns (Some cd, w')
          /\ isolate_heap w' = heap s1
          /\ ScriptCompiler.buffer_policy cd = ScriptCompiler.BufferOwned
          /\ ScriptCompiler.length cd
             = kHeaderSize + Z.of_nat (List.length payload)
          /\ forall aligned,
               let cached :=
                 AlignedCachedData.make aligned (ScriptCompiler.data cd) in
               let entry := of_cached_data cached in
               Payload entry = payload
               /\ FromCachedData cached hash = (entry, cached, kSuccess)
               /\ (forall other, other <> hash ->
                     FromCachedData cached other
                     = (null, AlignedCachedData.Reject cached,
                        kSourceMismatch))
               /\ (forall source' options' w2,
                     FLAG_stress_background_compile = false ->
                     SourceHash (isolate_heap w2) source' options' = hash ->
                     Deserialize cached source' options' w2
                     = Design.decode_accepted entry cached source' w2)).
Proof.
  intros Hwf h script source hash s0 asm.
  pose proof (Serialize_run info w) as Hrun. cbv zeta in Hrun.
  fold h script source hash asm in Hrun.
  split; [|split].
  - intros Hasm. rewrite Hrun, Hasm. reflexivity.
  - intros Hasm Hfatal. rewrite Hrun, Hasm.
    unfold with_CodeSerializer. rewrite traced_heap. fold h s0.
    rewrite SerializeSharedFunctionInfo_run, Hfatal. reflexivity.
  - intros Hasm s1 Hpass payload Hint.
    assert (Hsize : kHeaderSize + Z.of_nat (List.length payload) < 2 ^ 32)
      by lia.
    pose proof (SourceHash_range h source (Script_origin_options h script))
      as Hhash. fold hash in Hhash.
    destruct (from_payload_fields payload hash Hwf Hsize Hhash)
      as (Hsz & Hlen & _ & _ & _ & _ & Hpl & _ & Hdrop).
    set (framed := from_payload payload hash) in *.
    rewrite Hrun, Hasm. unfold with_CodeSerializer at 1.
    rewrite traced_heap. fold h s0.
    rewrite SerializeSharedFunctionInfo_run, Hpass. fold payload framed.
    eexists; eexists. split; [reflexivity|].
    split; [destruct FLAG_profile_deserialization; reflexivity|].
    split; [reflexivity|].
    split.
    { cbn [ScriptCompiler.length]. unfold AlignedCachedData.length,
        GetScriptData. cbn [AlignedCachedData.data_]. lia. }
    intros aligned. cbn [ScriptCompiler.data]. cbv zeta.
    unfold AlignedCachedData.data, GetScriptData.
    cbn [AlignedCachedData.data_].
    assert (Hentry : of_cached_data (AlignedCachedData.make aligned
                                       (data_ framed)) = framed)
      by (apply of_cached_data_make; lia).
    assert (Hok : forall expected,
               SanityCheck framed expected
               = if hash =? expected then kSuccess else kSourceMismatch)
      by (intros expected; apply from_payload_SanityCheck; assumption).
    assert (Haccept : FromCachedData
                        (AlignedCachedData.make aligned (data_ framed)) hash
                      = (framed, AlignedCachedData.make aligned (data_ framed),
                         kSuccess)).
    { unfold FromCachedData. rewrite Hentry, Hok, Z.eqb_refl. reflexivity. }
    rewrite Hentry. split; [|split; [|split]].
    + unfold Payload. rewrite Hpl, Hdrop, Nat2Z.id. apply firstn_all.
    + exact Haccept.
    + intros other Hother. unfold FromCachedData. rewrite Hentry, Hok.
      destruct (Z.eqb_spec hash other) as [E | _]; [congruence|].
      reflexivity.
    + intros source' options' w2 Hstress Hsame.
      apply Deserialize_accepted; [exact Hstress|]. rewrite Hsame.
      exact Haccept.
Qed.
End SerializeEntry.

(** * The theorems on the concrete build

    Each theorem above is applied to the demo build, with its
    hypotheses discharged by evaluation. *)

Lemma SanityCheckWithoutSource_first_failure_witness :
  @SerializedCodeData.SanityCheckWithoutSource Demo.layout Demo.flags
    Demo.entry_too_long
  = kLengthMismatch.
Proof.
  apply (@SanityCheckWithoutSource_first_failure
           Demo.layout Demo.flags Demo.entry_too_long);
    vm_compute; repeat split; try reflexivity; discriminate.
Defined.

Lemma SourceHash_is_content_hash_witness :
  SerializedCodeData.SourceHash Demo.base_heap Demo.source Demo.origin_options
  = Design.content_hash 42 false
  /\ @SerializedCodeData.SanityCheckJustSource Demo.layout Demo.entry
       (SerializedCodeData.SourceHash Demo.base_heap Demo.source
          Demo.origin_options)
     = kSuccess.
Proof.
  pose proof (@SourceHash_is_content_hash Demo.layout Demo.base_heap
                Demo.source Demo.source_text Demo.origin_options Demo.entry
                ltac:(vm_compute; reflexivity) ltac:(vm_compute; reflexivity))
    as H.
  cbv zeta in H. destruct H as (Hhash & _ & _ & _ & Hok). split.
  - exact Hhash.
  - apply Hok. vm_compute. reflexivity.
Defined.

Lemma FromCachedData_combined_check_witness :
  AlignedCachedData.rejected
    (snd (fst (@SerializedCodeData.FromCachedData Demo.layout Demo.flags
                 Demo.cached_bad_magic 42)))
  = true.
Proof.
  pose proof (@FromCachedData_combined_check Demo.layout Demo.flags
                Demo.cached_bad_magic 42) as H.
  cbv zeta in H. destruct H as (_ & _ & Hfail & _).
  apply Hfail. vm_compute. discriminate.
Defined.

Lemma off_thread_check_replays_phase_A_witness :
  @SerializedCodeData.FromPartiallySanityCheckedCachedData Demo.layout
    Demo.cached_bad_magic 42 kMagicNumberMismatch
  = (SerializedCodeData.null, AlignedCachedData.Reject Demo.cached_bad_magic,
     kMagicNumberMismatch).
Proof.
  pose proof (@off_thread_check_replays_phase_A Demo.layout Demo.stress_flags
                Demo.roots Demo.runtime Demo.cached_bad_magic Demo.isolate 42
                kMagicNumberMismatch) as H.
  cbv zeta in H. destruct H as (_ & _ & Hstored & _).
  apply Hstored. discriminate.
Defined.

Lemma Deserialize_rejects_before_deserializing_witness :
  @CodeSerializer.Deserialize Demo.layout Demo.stress_flags Demo.roots
    Demo.runtime (@Design.flip_magic_bit Demo.layout 13 Demo.cached)
    Demo.source
    Demo.origin_options Demo.isolate
  = Returns (None,
             AlignedCachedData.Reject
               (@Design.flip_magic_bit Demo.layout 13 Demo.cached),
             @Design.report_rejection Demo.stress_flags kMagicNumberMismatch
               Demo.isolate).
Proof.
  pose proof (@Deserialize_rejects_before_deserializing Demo.layout
                Demo.stress_flags Demo.roots Demo.runtime Demo.cached
                Demo.source Demo.origin_options Demo.isolate
                (fun _ => eq_refl)) as H.
  destruct H as (_ & Hflip).
  apply Hflip; vm_compute; repeat split; try reflexivity; discriminate.
Defined.



Lemma SerializeObjectImpl_priority_order_witness :
  @CodeSerializer.SerializeReadOnlyObject Demo.base 2016 Demo.encoder
  = Returns (true,
      with_sink [Put 30 "ReadOnlyHeapRef";
                 PutInt 1 "ReadOnlyHeapRefChunkIndex";
                 PutInt 16 "ReadOnlyHeapRefChunkOffset"] Demo.encoder)
  /\ [1000; 2000] !! Design.linear_position 2000 [1000; 2000] = Some 2000.
Proof.
  pose proof (@SerializeObjectImpl_priority_order Demo.base Demo.roots
                Demo.flags 2016 Demo.encoder) as H.
  destruct H as (_ & Hread_only & Hposition). split.
  - exact Hread_only.
  - apply (Hposition 2000). cbn. repeat constructor.
Defined.

Lemma SerializeObjectImpl_restores_Script_witness :
  match @CodeSerializer.SerializeObjectImpl Demo.base Demo.roots Demo.flags
          Demo.script Demo.encoder with
  | Returns (_, s') => heap s' = Demo.live_heap
  | Fatal => False
  end.
Proof.
  pose proof (@SerializeObjectImpl_restores_Script Demo.base Demo.roots
                Demo.flags Demo.script Demo.encoder Demo.encoder
                Demo.live_script
                ltac:(vm_compute; reflexivity) ltac:(vm_compute; reflexivity)
                ltac:(vm_compute; reflexivity)) as H.
  cbv zeta in H. destruct H as (_ & _ & _ & H).
  destruct (@CodeSerializer.SerializeObjectImpl Demo.base Demo.roots Demo.flags
              Demo.script Demo.encoder) as [[[] s']|].
  - destruct H as (s1 & Hrun & _ & _ & _ & _ & Hheap).
    apply Hheap. injection Hrun as <-. vm_compute. reflexivity.
  - discriminate H.
Defined.

(** C5, refuted as stated.  A script whose context data is the
    uninitialized symbol is encoded with that value in place, not with
    a default; and when the generic encoder fails, nothing is written
    back: a generic encoder that aborts on a record whose context data
    reads [undefined] aborts on the live script, whose context data
    is another value on entry, and the call returns to no caller. *)
Lemma SerializeObjectImpl_keeps_sentinel_and_aborts :
  Script_context_data (heap Demo.encoder_of_embedded) Demo.script
  = @uninitialized_symbol Demo.roots
  /\ @uninitialized_symbol Demo.roots <> @undefined_value Demo.roots
  /\ match @CodeSerializer.SerializeObjectImpl Demo.base Demo.roots Demo.flags
            Demo.script Demo.encoder_of_embedded with
     | Returns (_, s') =>
         sink_ s'
         = [Put 1 "NewObject";
            PutInt (@uninitialized_symbol Demo.roots) "context_data";
            PutInt (@empty_fixed_array Demo.roots) "host_defined_options";
            PutInt 0 "script_or_debug_info"; PutInt 0 "bytecode"]
     | Fatal => False
     end
  /\ Script_context_data (heap Demo.strict_encoder) Demo.script
     = Demo.context
  /\ Demo.context <> @undefined_value Demo.roots
  /\ @ObjectSerializer_Serialize Demo.strict_base Demo.script
       Demo.strict_encoder
     = Returns (tt, Demo.strict_encoder)
  /\ @CodeSerializer.SerializeObjectImpl Demo.strict_base Demo.roots
       Demo.flags Demo.script Demo.strict_encoder
     = Fatal.
Proof.
  split; [vm_compute; reflexivity|].
  split; [vm_compute; discriminate|].
  split; [vm_compute; reflexivity|].
  split; [vm_compute; reflexivity|].
  split; [vm_compute; discriminate|].
  split; vm_compute; reflexivity.
Qed.

Lemma SerializeObjectImpl_Script_context_data_witness :
  Script_context_data
    (<[Demo.script :=
         HScript (@Design.script_as_encoded Demo.roots Demo.live_script)]>
       Demo.live_heap) Demo.script
  = 1008
  /\ Script_host_defined_options
       (<[Demo.script :=
            HScript (@Design.script_as_encoded Demo.roots Demo.live_script)]>
          Demo.live_heap) Demo.script
     = 1024.
Proof.
  pose proof (@SerializeObjectImpl_Script_context_data Demo.base Demo.roots
                Demo.flags Demo.script Demo.encoder Demo.encoder
                Demo.live_script
                ltac:(vm_compute; reflexivity) ltac:(vm_compute; reflexivity)
                ltac:(vm_compute; reflexivity)) as H.
  cbv zeta in H. destruct H as (_ & _ & Hoptions & _ & _ & Hcleared & _).
  split.
  - apply Hcleared; vm_compute; discriminate.
  - exact Hoptions.
Defined.



Lemma demo_layout_well_formed : @Design.well_formed_layout Demo.layout.
Proof.
  unfold Design.well_formed_layout, Design.header_fields.
  cbn [Design.pairwise_apart]. unfold Design.fields_apart.
  repeat split; repeat constructor;
    try (intros; apply wrap32_range); cbn; lia.
Qed.

Lemma from_payload_round_trip_witness :
  @SerializedCodeData.SanityCheck Demo.layout Demo.flags Demo.entry 42
  = kSuccess
  /\ @SerializedCodeData.Payload Demo.layout Demo.entry = Demo.payload.
Proof.
  pose proof (@from_payload_round_trip Demo.layout Demo.flags Demo.payload 42
                demo_layout_well_formed ltac:(vm_compute; reflexivity)
                ltac:(lia)) as H.
  cbv zeta in H. destruct H as (_ & Hcheck & _ & Hpayload & _).
  split; assumption.
Defined.

Lemma SourceHash_tells_length_and_module_apart_witness :
  @SerializedCodeData.SanityCheck Demo.layout Demo.flags
    (@SerializedCodeData.from_payload Demo.layout Demo.flags Demo.payload
       (SerializedCodeData.SourceHash Demo.base_heap Demo.source
          Demo.origin_options))
    (SerializedCodeData.SourceHash Demo.base_heap Demo.script_name
       Demo.origin_options)
  = kSourceMismatch.
Proof.
  pose proof (@SourceHash_tells_length_and_module_apart Demo.layout Demo.flags
                Demo.base_heap Demo.source Demo.script_name
                Demo.source_text "demo.js"
                Demo.origin_options Demo.origin_options Demo.payload
                ltac:(vm_compute; reflexivity) ltac:(vm_compute; reflexivity)
                ltac:(vm_compute; reflexivity) ltac:(vm_compute; reflexivity)
                demo_layout_well_formed ltac:(vm_compute; reflexivity)) as H.
  cbv zeta in H. destruct H as (_ & _ & Hmismatch).
  apply Hmismatch. intros [Hlength _]. vm_compute in Hlength. discriminate.
Defined.

Lemma source_mismatch_is_rejected_witness :
  @CodeSerializer.Deserialize Demo.layout Demo.flags Demo.roots Demo.runtime
    Demo.cached Demo.script_name Demo.origin_options Demo.isolate
  = Returns (None, AlignedCachedData.Reject Demo.cached,
             @Design.report_rejection Demo.flags kSourceMismatch
               Demo.isolate).
Proof.
  pose proof (@source_mismatch_is_rejected Demo.layout Demo.flags Demo.roots
                Demo.runtime Demo.cached Demo.script_name Demo.origin_options
                Demo.isolate ltac:(vm_compute; reflexivity)) as H.
  destruct H as (Hsync & _). apply Hsync; vm_compute; reflexivity.
Defined.

Lemma decode_failure_keeps_the_buffer_witness :
  @CodeSerializer.FinishOffThreadDeserialize Demo.layout Demo.flags Demo.roots
    Demo.runtime Demo.pending_without_result Demo.cached Demo.source
    Demo.origin_options Demo.isolate
  = Returns (None, Demo.cached, Demo.isolate).
Proof.
  pose proof (@decode_failure_keeps_the_buffer Demo.layout Demo.flags
                Demo.roots Demo.runtime Demo.cached Demo.source
                Demo.origin_options Demo.isolate Demo.isolate
                Demo.pending_without_result ltac:(vm_compute; reflexivity))
    as H.
  destruct H as (_ & Hfinish). apply Hfinish; reflexivity.
Defined.

Lemma FinalizeDeserialization_without_listeners_witness :
  @CodeSerializer.FinalizeDeserialization Demo.flags Demo.roots Demo.runtime
    (CodeSerializer.handle Demo.sfi) Demo.quiet_isolate
  = Returns (tt, Demo.quiet_isolate).
Proof.
  apply (@FinalizeDeserialization_without_listeners Demo.flags Demo.roots
           Demo.runtime (CodeSerializer.handle Demo.sfi) Demo.quiet_isolate);
    reflexivity.
Defined.

Lemma SerializeObjectImpl_contract_violations_witness :
  @CodeSerializer.SerializeObjectImpl Demo.base Demo.roots Demo.flags
    Demo.embedded_map Demo.encoder_with_strays
  = Fatal.
Proof.
  pose proof (@SerializeObjectImpl_contract_violations Demo.base Demo.roots
                Demo.flags Demo.embedded_map Demo.encoder_with_strays
                Demo.encoder_with_strays ltac:(vm_compute; reflexivity)) as H.
  cbv zeta in H. destruct H as (_ & Hillegal).
  apply Hillegal; try (vm_compute; reflexivity).
  left. vm_compute. reflexivity.
Defined.

Lemma SerializeObjectImpl_elides_and_substitutes_witness :
  @CodeSerializer.SerializeObjectImpl Demo.base Demo.roots
    Demo.native_stack_flags Demo.interpreter_data Demo.encoder_with_strays
  = @CodeSerializer.SerializeGeneric Demo.base Demo.bytecode
      Demo.encoder_with_strays.
Proof.
  pose proof (@SerializeObjectImpl_elides_and_substitutes Demo.base Demo.roots
                Demo.native_stack_flags Demo.interpreter_data
                Demo.encoder_with_strays Demo.encoder_with_strays false
                ltac:(vm_compute; reflexivity)) as H.
  cbv zeta in H. destruct H as (_ & _ & Hgeneric).
  apply Hgeneric; vm_compute; reflexivity.
Defined.

Lemma StartDeserializeOffThread_success_witness :
  sanity_check_result Demo.pending = kSuccess
  /\ local_persistent_handles Demo.isolate_after_start = None.
Proof.
  pose proof (@StartDeserializeOffThread_success Demo.layout Demo.stress_flags
                Demo.runtime Demo.cached Demo.isolate _ _ _
                ltac:(vm_compute; reflexivity) eq_refl) as H.
  cbv zeta in H. destruct H as (Hrun & _).
  unfold Demo.pending, Demo.isolate_after_start, Demo.started.
  rewrite Hrun. split; reflexivity.
Defined.

Lemma CreateInterpreterDataForDeserializedCode_skips_witness :
  @CodeSerializer.CreateInterpreterDataForDeserializedCode Demo.roots
    Demo.runtime (CodeSerializer.handle Demo.sfi) false Demo.isolate
  = Returns (tt, Demo.isolate).
Proof.
  apply (@CreateInterpreterDataForDeserializedCode_skips Demo.roots
           Demo.runtime (CodeSerializer.handle Demo.sfi) false Demo.isolate).
  vm_compute. repeat constructor.
Defined.

Lemma Serialize_then_Deserialize_witness :
  exists cd w',
    @CodeSerializer.Serialize Demo.layout Demo.flags Demo.base
      Demo.serializer_run Demo.sfi Demo.live_isolate
    = Returns (Some cd, w')
    /\ snd (@SerializedCodeData.FromCachedData Demo.layout Demo.flags
              (AlignedCachedData.make true (ScriptCompiler.data cd)) 42)
       = kSuccess.
Proof.
  pose proof (@Serialize_then_Deserialize Demo.layout Demo.flags Demo.roots
                Demo.runtime Demo.base Demo.serializer_run Demo.sfi
                Demo.live_isolate demo_layout_well_formed) as H.
  cbv zeta in H. destruct H as (_ & _ & H).
  destruct (H eq_refl _ ltac:(vm_compute; reflexivity)
              ltac:(vm_compute; reflexivity))
    as (cd & w' & Hrun & _ & _ & _ & Hall).
  exists cd, w'. split; [exact Hrun|].
  destruct (Hall true) as (_ & Haccept & _).
  change 42 with
    (SerializedCodeData.SourceHash (isolate_heap Demo.live_isolate)
       (Script_source (isolate_heap Demo.live_isolate)
          (SFI_script (isolate_heap Demo.live_isolate) Demo.sfi))
       (@Script_origin_options Demo.base Demo.serializer_run
          (isolate_heap Demo.live_isolate)
          (SFI_script (isolate_heap Demo.live_isolate) Demo.sfi))).
  rewrite Haccept. reflexivity.
Defined.

Lemma SerializeReadOnlyObject_resolves_witness :
  exists index,
    @CodeSerializer.SerializeReadOnlyObject Demo.base 2016 Demo.encoder
    = Returns (true,
        with_sink
          [Put 30 "ReadOnlyHeapRef"; PutInt index "ReadOnlyHeapRefChunkIndex";
           PutInt 16 "ReadOnlyHeapRefChunkOffset"] Demo.encoder)
    /\ @read_only_space_pages Demo.base !! Z.to_nat index = Some 2000.
Proof.
  pose proof (@SerializeReadOnlyObject_resolves Demo.base 2016 Demo.encoder
                ltac:(vm_compute; reflexivity)
                ltac:(vm_compute; discriminate)) as H.
  cbv zeta in H. destruct H as (H & _).
  destruct (H ltac:(vm_compute; repeat constructor)
              ltac:(vm_compute; split; [discriminate | reflexivity]))
    as (index & Hrun & _ & Hpage & _).
  exists index. split; [exact Hrun | exact Hpage].
Defined.

Lemma flipped_header_bit_is_refused_witness :
  @SerializedCodeData.SanityCheck Demo.layout Demo.flags
    (SerializedCodeData.of_cached_data
       (Design.flip_header_bit (@kVersionHashOffset Demo.layout) 13
          Demo.cached)) 42
  = kVersionMismatch.
Proof.
  pose proof (@flipped_header_bit_is_refused Demo.layout Demo.flags
                Demo.cached 42 13 demo_layout_well_formed ltac:(lia)
                ltac:(vm_compute; reflexivity)) as H.
  cbv zeta in H. destruct H as (_ & Hversion & _). exact Hversion.
Defined.

Lemma overwritten_payload_byte_witness :
  @SerializedCodeData.SanityCheck Demo.layout Demo.flags
    (SerializedCodeData.of_cached_data
       (Design.overwrite_byte 30 Byte.xff Demo.cached)) 42
  = kChecksumMismatch.
Proof.
  pose proof (@overwritten_payload_byte Demo.layout Demo.flags Demo.cached 42
                30 Byte.xff demo_layout_well_formed
                ltac:(vm_compute; reflexivity)
                ltac:(vm_compute; discriminate)) as H.
  cbv zeta in H. destruct H as (Hcheck & _). rewrite Hcheck.
  vm_compute. reflexivity.
Defined.

Lemma accepted_payload_within_buffer_witness :
  Z.of_nat
    (List.length
       (@SerializedCodeData.Payload Demo.layout
          (SerializedCodeData.of_cached_data Demo.cached)))
  = 8.
Proof.
  pose proof (@accepted_payload_within_buffer Demo.layout Demo.flags
                Demo.cached ltac:(vm_compute; discriminate)
                ltac:(vm_compute; reflexivity)
                ltac:(vm_compute; reflexivity)) as H.
  cbv zeta in H. destruct H as (_ & _ & Hlength & _). rewrite Hlength.
  vm_compute. reflexivity.
Defined.

Lemma rejection_assertions_hold_witness :
  sanity_check_result Demo.pending <> kSourceMismatch.
Proof.
  pose proof (@rejection_assertions_hold Demo.layout Demo.stress_flags
                Demo.runtime Demo.cached Demo.isolate
                Demo.isolate_after_start Demo.pending Demo.cached
                ltac:(vm_compute; reflexivity)) as H.
  destruct H as (Hstored & _). exact Hstored.
Defined.

Lemma FinalizeDeserialization_logs_witness :
  exists w',
    @CodeSerializer.FinalizeDeserialization Demo.flags Demo.roots Demo.runtime
      (CodeSerializer.handle Demo.sfi) Demo.decoded_isolate
    = Returns (tt, w')
    /\ output w'
       = [CodeCreateEvent SCRIPT_TAG Demo.bytecode Demo.sfi Demo.script_name
            1 1].
Proof.
  pose proof (@FinalizeDeserialization_logs Demo.flags Demo.roots Demo.runtime
                (CodeSerializer.handle Demo.sfi) Demo.decoded_isolate
                ltac:(reflexivity)
                ltac:(intros script w0; exists w0; repeat split)
                ltac:(intros info w0; exists w0; repeat split)) as H.
  cbv zeta in H. destruct H as (w' & Hrun & _ & Hout).
  exists w'. split; [exact Hrun|]. rewrite Hout. vm_compute. reflexivity.
Defined.

Lemma SerializeObjectImpl_function_not_debugged_witness :
  @CodeSerializer.SerializeObjectImpl Demo.base Demo.roots Demo.flags Demo.sfi
    Demo.encoder_of_decoded
  = @CodeSerializer.SerializeGeneric Demo.base Demo.sfi
      Demo.encoder_of_decoded.
Proof.
  apply (@SerializeObjectImpl_function_not_debugged Demo.base Demo.roots
           Demo.flags Demo.sfi Demo.encoder_of_decoded Demo.encoder_of_decoded
           Demo.decoded_sfi);
    vm_compute; reflexivity.
Defined.

Lemma Deserialize_guarantees_witness :
  @SerializedCodeData.SanityCheckWithoutSource Demo.layout Demo.stress_flags
    (SerializedCodeData.of_cached_data Demo.cached)
  = kSuccess
  /\ @SerializedCodeData.SanityCheckJustSource Demo.layout
       (SerializedCodeData.of_cached_data Demo.cached)
       (SerializedCodeData.SourceHash (isolate_heap Demo.isolate_after_start)
          Demo.source Demo.origin_options)
     = kSuccess.
Proof.
  pose proof (@Deserialize_guarantees Demo.layout Demo.stress_flags Demo.roots
                Demo.runtime Demo.cached Demo.source Demo.origin_options
                Demo.isolate _ _ _ ltac:(vm_compute; reflexivity)) as H.
  destruct H as (_ & _ & _ & Hresult).
  destruct (Hresult _ eq_refl)
    as (_ & _ & Hchecked & h & Hsource & _ & Hstress).
  split; [exact Hchecked|].
  destruct (Hstress eq_refl) as (data & w1 & Hstart & ->).
  unfold Demo.isolate_after_start, Demo.started. rewrite Hstart.
  exact Hsource.
Defined.
